(** * ReadingJournal: the entry model, the data service, the storage
    service and the JSON export, embedded from the JavaScript sources.

    Conventions of the embedding.
    - A JavaScript string is a [string] whose characters are its UTF-16 code
      units; the strings of the model are those whose code units are below
      256 (Basic Latin and Latin-1 Supplement), the character [ascii_of_nat
      n] being the code unit [n]. [trim] and [toLowerCase] are the methods
      of [String.prototype] on these strings.
    - A JavaScript number that the program uses as an integer (ids, counters,
      ratings, clock readings in milliseconds) is a [Z]; the sum of two
      numbers is rounded as the runtime rounds it ([JsNumber.add]).
    - Each property of an [Entry] carries values of the type the data model
      gives it: strings, integers, sequences. An entry one of whose
      properties holds a value of another type lies outside the model, and
      so does a call that passes such a value. For [lastEdited] and
      [rating], which the constructor sets to [null] when they are absent,
      [None] is [null]; for [sourceType], [sourceName] and [reflection],
      which the constructor copies as they are, [None] is [undefined].
    - Every method that reads the clock takes the reading [now] (milliseconds
      since the epoch) as an argument; one call sees one reading.
    - [this] is passed and returned explicitly: a method that mutates the
      entry is a function from the entry before to the entry after. *)

From Stdlib Require Import ZArith String Ascii List Bool Lia DecimalString.
From Stdlib Require Import Sorted.
From stdpp Require Import base option list strings gmap.
Import ListNotations.

Local Open Scope string_scope.
Local Open Scope Z_scope.

(** ** Strings of the runtime *)

Module JsString.

(** White space and line terminators among the code units below 256, as
    [String.prototype.trim] strips them: TAB, LF, VT, FF, CR, SPACE and the
    no-break space U+00A0. *)
Definition isWhiteSpace (c : ascii) : bool :=
  let n := nat_of_ascii c in
  (Nat.leb 9 n && Nat.leb n 13) || Nat.eqb n 32 || Nat.eqb n 160.

Fixpoint trimStart (s : string) : string :=
  match s with
  | EmptyString => EmptyString
  | String c s' => if isWhiteSpace c then trimStart s' else s
  end.

Fixpoint trimEnd (s : string) : string :=
  match s with
  | EmptyString => EmptyString
  | String c s' =>
      match trimEnd s' with
      | EmptyString => if isWhiteSpace c then EmptyString else String c EmptyString
      | r => String c r
      end
  end.

Definition trim (s : string) : string := trimEnd (trimStart s).

(** The lower case of a code unit below 256: the letters A to Z and the
    letters U+00C0 to U+00DE (the multiplication sign U+00D7 is none) lie
    32 below their lower case; every other code unit is its own. *)
Definition lowerChar (c : ascii) : ascii :=
  let n := nat_of_ascii c in
  if (Nat.leb 65 n && Nat.leb n 90)
     || (Nat.leb 192 n && Nat.leb n 222 && negb (Nat.eqb n 215))
  then ascii_of_nat (n + 32) else c.

Fixpoint toLowerCase (s : string) : string :=
  match s with
  | EmptyString => EmptyString
  | String c s' => String (lowerChar c) (toLowerCase s')
  end.

(** Truthiness of a string: every string but the empty one. *)
Definition truthy (s : string) : bool := negb (String.eqb s "").

(** [Array.prototype.includes] on an array of strings. *)
Definition includes (l : list string) (x : string) : bool :=
  existsb (String.eqb x) l.

(** [Array.prototype.join]. *)
Fixpoint join (sep : string) (l : list string) : string :=
  match l with
  | [] => ""
  | [x] => x
  | x :: rest => x +:+ sep +:+ join sep rest
  end.

(** [s.startsWith(p)] *)
Fixpoint startsWith (s p : string) : bool :=
  match p, s with
  | EmptyString, _ => true
  | String _ _, EmptyString => false
  | String a p', String b s' => Ascii.eqb a b && startsWith s' p'
  end.

(** [s.includes(term)] on strings: [term] occurs in [s]. *)
Fixpoint strIncludes (s term : string) : bool :=
  startsWith s term ||
  match s with
  | EmptyString => false
  | String _ s' => strIncludes s' term
  end.

End JsString.

(** ** The clock: [Date.prototype.toISOString] *)

Module JsDate.

Definition digit (n : Z) : ascii := ascii_of_nat (48 + Z.to_nat (n mod 10)).

(** The [w] low decimal digits of [n], most significant first. *)
Fixpoint digits (w : nat) (n : Z) (acc : string) : string :=
  match w with
  | O => acc
  | S w' => digits w' (n / 10) (String (digit n) acc)
  end.

Definition pad (w : nat) (n : Z) : string := digits w n "".

(** Day number since 1970-01-01 to (year, month, day) in the proleptic
    Gregorian calendar. *)
Definition civil (days : Z) : Z * Z * Z :=
  let z := days + 719468 in
  let era := z / 146097 in
  let doe := z mod 146097 in
  let yoe := (doe - doe / 1460 + doe / 36524 - doe / 146096) / 365 in
  let doy := doe - (365 * yoe + yoe / 4 - yoe / 100) in
  let mp := (5 * doy + 2) / 153 in
  let d := doy - (153 * mp + 2) / 5 + 1 in
  let m := if mp <? 10 then mp + 3 else mp - 9 in
  let y := yoe + era * 400 + (if m <=? 2 then 1 else 0) in
  (y, m, d).

Definition year (y : Z) : string :=
  if (0 <=? y) && (y <=? 9999) then pad 4 y
  else if y <? 0 then "-" +:+ pad 6 (- y)
  else "+" +:+ pad 6 y.

(** [new Date(ms).toISOString()]: YYYY-MM-DDTHH:mm:ss.sssZ in UTC. *)
Definition toISOString (ms : Z) : string :=
  let '(y, m, d) := civil (ms / 86400000) in
  let t := ms mod 86400000 in
  year y +:+ "-" +:+ pad 2 m +:+ "-" +:+ pad 2 d +:+ "T" +:+
  pad 2 (t / 3600000) +:+ ":" +:+ pad 2 (t / 60000 mod 60) +:+ ":" +:+
  pad 2 (t / 1000 mod 60) +:+ "." +:+ pad 3 (t mod 1000) +:+ "Z".

End JsDate.

(** ** Numbers of the runtime

    A number is a double. The integers among the doubles are all the
    integers up to 2^53 in magnitude and, above, the multiples of the
    spacing of the doubles there (2 up to 2^54, 4 up to 2^55, and so
    on). *)

Module JsNumber.

(** The double nearest to the integer [z], the one with the even
    significand of two that are equally near (for [z] below 2^1024 in
    magnitude, where the doubles end). *)
Definition round (z : Z) : Z :=
  let a := Z.abs z in
  if a <=? 2 ^ 53 then z
  else
    let ulp := 2 ^ (Z.log2 a - 52) in
    let q := a / ulp in
    let r := a mod ulp in
    let up :=
      if 2 * r <? ulp then false
      else if ulp <? 2 * r then true
      else Z.odd q in
    Z.sgn z * ((if up then q + 1 else q) * ulp).

(** [a + b] on two numbers that are integers: the sum, rounded. *)
Definition add (a b : Z) : Z := round (a + b).

End JsNumber.

(** ** Values of the runtime

    What [JSON.parse] returns and [JSON.stringify] takes, and what a plain
    object carries under a key the entry model does not know. Numbers are the
    integers. An object lists each key once. *)

#[local] Set Warnings "-register-all".

Inductive value : Type :=
| VUndefined
| VNull
| VBool (b : bool)
| VNum (n : Z)
| VStr (s : string)
| VArr (items : list value)
| VObj (props : list (string * value)).

Module JsValue.

Fixpoint assoc (k : string) (props : list (string * value)) : option value :=
  match props with
  | [] => None
  | (k', v) :: rest => if String.eqb k k' then Some v else assoc k rest
  end.

(** [v.k] for a key [k] that is no built-in property of arrays, strings,
    numbers or booleans: [None] is the TypeError of reading a property of
    [null] or [undefined]. *)
Definition getProp (v : value) (k : string) : option value :=
  match v with
  | VUndefined | VNull => None
  | VObj props => Some (default VUndefined (assoc k props))
  | _ => Some VUndefined
  end.

(** [a || b] where [a] may be missing, and [a || null]. *)
Definition or {A : Type} (truthy : A -> bool) (a : option A) (b : A) : A :=
  match a with
  | Some x => if truthy x then x else b
  | None => b
  end.

Definition or_null {A : Type} (truthy : A -> bool) (a : option A) : option A :=
  match a with
  | Some x => if truthy x then Some x else None
  | None => None
  end.

(** Truthiness of a number: every integer but 0. *)
Definition truthy_num (n : Z) : bool := negb (n =? 0).

(** Truthiness of a value: all but [undefined], [null], [false], 0 and the
    empty string. *)
Definition truthy (v : value) : bool :=
  match v with
  | VUndefined | VNull => false
  | VBool b => b
  | VNum n => truthy_num n
  | VStr s => JsString.truthy s
  | VArr _ | VObj _ => true
  end.

End JsValue.

(** ** The entry model (config/appConfig.js) *)

Module Takeaway.
Record t : Type := mk { id : Z; text : string; createdAt : string }.

Definition toValue (x : t) : value :=
  VObj [("id", VNum (id x)); ("text", VStr (text x));
        ("createdAt", VStr (createdAt x))].
End Takeaway.

Module Link.
Record t : Type := mk { id : Z; url : string; title : string; createdAt : string }.

Definition toValue (x : t) : value :=
  VObj [("id", VNum (id x)); ("url", VStr (url x)); ("title", VStr (title x));
        ("createdAt", VStr (createdAt x))].
End Link.

(** The plain object an entry is built from and stored as: the argument
    [data] of the constructor and the result of [toObject]. Under a key
    the constructor reads with [||], [None] is a missing key, [undefined]
    or [null], which the constructor does not tell apart; under
    [sourceType], [sourceName] and [reflection], [None] is a missing key
    or [undefined]. *)
Module Data.
Record t : Type := mk {
  id : option Z;
  sourceType : option string;
  sourceName : option string;
  author : option string;
  reflection : option string;
  timestamp : option string;
  lastEdited : option string;
  dateFormatted : option string;
  editCount : option Z;
  additionalNotes : option string;
  keyTakeaways : option (list Takeaway.t);
  relatedLinks : option (list Link.t);
  tags : option (list string);
  rating : option Z;
  progress : option string
}.

Definition str (absent : value) (o : option string) : value :=
  match o with Some s => VStr s | None => absent end.

Definition num (absent : value) (o : option Z) : value :=
  match o with Some n => VNum n | None => absent end.

Definition arr {A : Type} (f : A -> value) (o : option (list A)) : value :=
  match o with Some l => VArr (map f l) | None => VUndefined end.

(** The object as a runtime value, for [JSON.stringify]. *)
Definition toValue (d : t) : value :=
  VObj [("id", num VUndefined (id d));
        ("sourceType", str VUndefined (sourceType d));
        ("sourceName", str VUndefined (sourceName d));
        ("author", str VUndefined (author d));
        ("reflection", str VUndefined (reflection d));
        ("timestamp", str VUndefined (timestamp d));
        ("lastEdited", str VNull (lastEdited d));
        ("dateFormatted", str VUndefined (dateFormatted d));
        ("editCount", num VUndefined (editCount d));
        ("additionalNotes", str VUndefined (additionalNotes d));
        ("keyTakeaways", arr Takeaway.toValue (keyTakeaways d));
        ("relatedLinks", arr Link.toValue (relatedLinks d));
        ("tags", arr VStr (tags d));
        ("rating", num VNull (rating d));
        ("progress", str VUndefined (progress d))].
End Data.

(** The form data [Entry.create] reads: the four keys it looks at, and
    every other key the caller supplied ([metadata] from the entry form,
    or anything else). *)
Module FormData.
Record t : Type := mk {
  sourceType : option string;
  sourceName : option string;
  author : option string;
  reflection : option string;
  other : list (string * value)
}.
End FormData.

(** The argument of [update], for the calls whose partial fields hold
    values of the types of the properties: [Some v] is a key that is
    present with value [v], [None] a key that is absent. [other] holds the
    keys that are no property of an entry. *)
Module Updates.
Record t : Type := mk {
  id : option Z;
  sourceType : option (option string);
  sourceName : option (option string);
  author : option string;
  reflection : option (option string);
  timestamp : option string;
  lastEdited : option (option string);
  dateFormatted : option string;
  editCount : option Z;
  additionalNotes : option string;
  keyTakeaways : option (list Takeaway.t);
  relatedLinks : option (list Link.t);
  tags : option (list string);
  rating : option (option Z);
  progress : option string;
  other : list (string * value)
}.

(** The object with no key. *)
Definition empty : t :=
  mk None None None None None None None None None None None None None None None [].
End Updates.

Module Entry.

Record t : Type := mk {
  id : Z;
  sourceType : option string;
  sourceName : option string;
  author : string;
  reflection : option string;
  timestamp : string;
  lastEdited : option string;
  dateFormatted : string;
  editCount : Z;
  additionalNotes : string;
  keyTakeaways : list Takeaway.t;
  relatedLinks : list Link.t;
  tags : list string;
  rating : option Z;
  progress : string
}.

(** The own properties of an entry: the fifteen keys the constructor
    assigns. *)
Definition ownKeys : list string :=
  ["id"; "sourceType"; "sourceName"; "author"; "reflection"; "timestamp";
   "lastEdited"; "dateFormatted"; "editCount"; "additionalNotes";
   "keyTakeaways"; "relatedLinks"; "tags"; "rating"; "progress"].

Definition hasOwnProperty (key : string) : bool := JsString.includes ownKeys key.

(** Assignments to one property of [this]. *)
Definition set_lastEdited (v : option string) (e : t) : t :=
  mk (id e) (sourceType e) (sourceName e) (author e) (reflection e)
     (timestamp e) v (dateFormatted e) (editCount e) (additionalNotes e)
     (keyTakeaways e) (relatedLinks e) (tags e) (rating e) (progress e).

Definition set_dateFormatted (v : string) (e : t) : t :=
  mk (id e) (sourceType e) (sourceName e) (author e) (reflection e)
     (timestamp e) (lastEdited e) v (editCount e) (additionalNotes e)
     (keyTakeaways e) (relatedLinks e) (tags e) (rating e) (progress e).

Definition set_editCount (v : Z) (e : t) : t :=
  mk (id e) (sourceType e) (sourceName e) (author e) (reflection e)
     (timestamp e) (lastEdited e) (dateFormatted e) v (additionalNotes e)
     (keyTakeaways e) (relatedLinks e) (tags e) (rating e) (progress e).

Definition set_keyTakeaways (v : list Takeaway.t) (e : t) : t :=
  mk (id e) (sourceType e) (sourceName e) (author e) (reflection e)
     (timestamp e) (lastEdited e) (dateFormatted e) (editCount e)
     (additionalNotes e) v (relatedLinks e) (tags e) (rating e) (progress e).

Definition set_relatedLinks (v : list Link.t) (e : t) : t :=
  mk (id e) (sourceType e) (sourceName e) (author e) (reflection e)
     (timestamp e) (lastEdited e) (dateFormatted e) (editCount e)
     (additionalNotes e) (keyTakeaways e) v (tags e) (rating e) (progress e).

Definition set_tags (v : list string) (e : t) : t :=
  mk (id e) (sourceType e) (sourceName e) (author e) (reflection e)
     (timestamp e) (lastEdited e) (dateFormatted e) (editCount e)
     (additionalNotes e) (keyTakeaways e) (relatedLinks e) v (rating e)
     (progress e).

Definition set_rating (v : option Z) (e : t) : t :=
  mk (id e) (sourceType e) (sourceName e) (author e) (reflection e)
     (timestamp e) (lastEdited e) (dateFormatted e) (editCount e)
     (additionalNotes e) (keyTakeaways e) (relatedLinks e) (tags e) v
     (progress e).

(** The loop of [update]: for each key of [updates] that is an own property
    of the entry and is neither [id] nor [timestamp], [this[key] =
    updates[key]]. The keys [id] and [timestamp] and the keys of
    [Updates.other] are skipped. *)
Definition assign (updates : Updates.t) (e : t) : t :=
  mk (id e)
     (default (sourceType e) (Updates.sourceType updates))
     (default (sourceName e) (Updates.sourceName updates))
     (default (author e) (Updates.author updates))
     (default (reflection e) (Updates.reflection updates))
     (timestamp e)
     (default (lastEdited e) (Updates.lastEdited updates))
     (default (dateFormatted e) (Updates.dateFormatted updates))
     (default (editCount e) (Updates.editCount updates))
     (default (additionalNotes e) (Updates.additionalNotes updates))
     (default (keyTakeaways e) (Updates.keyTakeaways updates))
     (default (relatedLinks e) (Updates.relatedLinks updates))
     (default (tags e) (Updates.tags updates))
     (default (rating e) (Updates.rating updates))
     (default (progress e) (Updates.progress updates)).

Record validation : Type := mkValidation { isValid : bool; errors : list string }.

(** [!s || s.trim() === ''] *)
Definition blank (s : option string) : bool :=
  match s with
  | None => true
  | Some s => negb (JsString.truthy s) || String.eqb (JsString.trim s) ""
  end.

Definition validate (e : t) : validation :=
  let errors :=
    ((if blank (sourceType e) then ["Source type is required"] else []) ++
     (if blank (sourceName e) then ["Source name is required"] else []) ++
     (if blank (reflection e) then ["Reflection is required"] else []))%list in
  mkValidation (Nat.eqb (length errors) 0) errors.

Definition toObject (e : t) : Data.t :=
  Data.mk (Some (id e)) (sourceType e) (sourceName e) (Some (author e))
          (reflection e) (Some (timestamp e)) (lastEdited e)
          (Some (dateFormatted e)) (Some (editCount e))
          (Some (additionalNotes e)) (Some (keyTakeaways e))
          (Some (relatedLinks e)) (Some (tags e)) (rating e)
          (Some (progress e)).

Definition getSortDate (sortBy : string) (e : t) : string :=
  match lastEdited e with
  | Some edited =>
      if String.eqb sortBy "edited" && JsString.truthy edited then edited
      else timestamp e
  | None => timestamp e
  end.

Section WithLocale.

(** [new Date(ts).toLocaleDateString('en-US', {weekday: 'long', year:
    'numeric', month: 'long', day: 'numeric'})], which the browser
    provides: it depends on the time zone of the host. *)
Variable toLocaleDateString : string -> string.

Definition formatDate (e : t) : string := toLocaleDateString (timestamp e).

Definition constructor (now : Z) (data : Data.t) : t :=
  let id := JsValue.or JsValue.truthy_num (Data.id data) now in
  let timestamp :=
    JsValue.or JsString.truthy (Data.timestamp data) (JsDate.toISOString now) in
  mk id
     (Data.sourceType data)
     (Data.sourceName data)
     (JsValue.or JsString.truthy (Data.author data) "")
     (Data.reflection data)
     timestamp
     (JsValue.or_null JsString.truthy (Data.lastEdited data))
     (JsValue.or JsString.truthy (Data.dateFormatted data)
                 (toLocaleDateString timestamp))
     (JsValue.or JsValue.truthy_num (Data.editCount data) 0)
     (JsValue.or JsString.truthy (Data.additionalNotes data) "")
     (default [] (Data.keyTakeaways data))
     (default [] (Data.relatedLinks data))
     (default [] (Data.tags data))
     (JsValue.or_null JsValue.truthy_num (Data.rating data))
     (JsValue.or JsString.truthy (Data.progress data) "").

Definition create (now : Z) (formData : FormData.t) : t :=
  constructor now
    (Data.mk None (FormData.sourceType formData)
             (FormData.sourceName formData) (FormData.author formData)
             (FormData.reflection formData)
             None None None None None None None None None None).

Definition update (now : Z) (updates : Updates.t) (e : t) : t :=
  let e := assign updates e in
  let e := set_lastEdited (Some (JsDate.toISOString now)) e in
  let e := set_editCount (JsNumber.add (editCount e) 1) e in
  set_dateFormatted (formatDate e) e.

End WithLocale.

Definition addTakeaway (now : Z) (takeaway : string) (e : t) : t :=
  if JsString.truthy takeaway && JsString.truthy (JsString.trim takeaway) then
    let e :=
      set_keyTakeaways
        (keyTakeaways e ++
         [Takeaway.mk now (JsString.trim takeaway) (JsDate.toISOString now)])%list e in
    set_lastEdited (Some (JsDate.toISOString now)) e
  else e.

Definition removeTakeaway (now : Z) (takeawayId : Z) (e : t) : t :=
  let e :=
    set_keyTakeaways
      (List.filter (fun x => negb (Takeaway.id x =? takeawayId)) (keyTakeaways e)) e in
  set_lastEdited (Some (JsDate.toISOString now)) e.

Definition addRelatedLink (now : Z) (url title : string) (e : t) : t :=
  if JsString.truthy url && JsString.truthy (JsString.trim url) then
    let e :=
      set_relatedLinks
        (relatedLinks e ++
         [Link.mk now (JsString.trim url)
                  (if JsString.truthy (JsString.trim title)
                   then JsString.trim title else JsString.trim url)
                  (JsDate.toISOString now)])%list e in
    set_lastEdited (Some (JsDate.toISOString now)) e
  else e.

Definition removeRelatedLink (now : Z) (linkId : Z) (e : t) : t :=
  let e :=
    set_relatedLinks
      (List.filter (fun x => negb (Link.id x =? linkId)) (relatedLinks e)) e in
  set_lastEdited (Some (JsDate.toISOString now)) e.

Definition addTag (now : Z) (tag : string) (e : t) : t :=
  if JsString.truthy tag && JsString.truthy (JsString.trim tag)
     && negb (JsString.includes (tags e)
                (JsString.toLowerCase (JsString.trim tag))) then
    let e := set_tags (tags e ++ [JsString.toLowerCase (JsString.trim tag)])%list e in
    set_lastEdited (Some (JsDate.toISOString now)) e
  else e.

Definition removeTag (now : Z) (tag : string) (e : t) : t :=
  let e := set_tags (List.filter (fun x => negb (String.eqb x tag)) (tags e)) e in
  set_lastEdited (Some (JsDate.toISOString now)) e.

Definition setRating (now : Z) (rating : Z) (e : t) : t :=
  if (1 <=? rating) && (rating <=? 5) then
    let e := set_rating (Some rating) e in
    set_lastEdited (Some (JsDate.toISOString now)) e
  else e.

(** [matchesSearch(searchTerm)]: the seven tests of the disjunction, left
    to right, the first that holds ending it. [None] is the TypeError of
    [toLowerCase] on a property that is [undefined]. *)
Definition matchesSearch (searchTerm : string) (e : t) : option bool :=
  let term := JsString.toLowerCase searchTerm in
  let lowered s := JsString.strIncludes (JsString.toLowerCase s) term in
  sourceName ← sourceName e;
  if lowered sourceName then Some true
  else if lowered (author e) then Some true
  else
    reflection ← reflection e;
    if lowered reflection then Some true
    else
      sourceType ← sourceType e;
      if lowered sourceType then Some true
      else if lowered (additionalNotes e) then Some true
      else if existsb (fun tag => JsString.strIncludes tag term) (tags e)
      then Some true
      else Some (existsb (fun x => lowered (Takeaway.text x)) (keyTakeaways e)).

(** [sourceType], [sourceName] or [reflection] in a template literal:
    [undefined] prints its name. *)
Definition printed (s : option string) : string := default "undefined" s.

Definition getDisplayTitle (e : t) : string :=
  printed (sourceType e) +:+ ": " +:+ printed (sourceName e) +:+
  (if JsString.truthy (author e) then " by " +:+ author e else "").

(** The eight mutating methods as data, to speak of sequences of calls. *)
Inductive op : Type :=
| Update (updates : Updates.t)
| AddTakeaway (takeaway : string)
| RemoveTakeaway (takeawayId : Z)
| AddRelatedLink (url title : string)
| RemoveRelatedLink (linkId : Z)
| AddTag (tag : string)
| RemoveTag (tag : string)
| SetRating (rating : Z).

(** Whether the call passes the guard of its method, that is, whether it
    mutates the entry at all. [update] and the three removals have no
    guard. *)
Definition succeeds (o : op) (e : t) : bool :=
  match o with
  | Update _ | RemoveTakeaway _ | RemoveRelatedLink _ | RemoveTag _ => true
  | AddTakeaway takeaway =>
      JsString.truthy takeaway && JsString.truthy (JsString.trim takeaway)
  | AddRelatedLink url _ =>
      JsString.truthy url && JsString.truthy (JsString.trim url)
  | AddTag tag =>
      JsString.truthy tag && JsString.truthy (JsString.trim tag)
      && negb (JsString.includes (tags e)
                 (JsString.toLowerCase (JsString.trim tag)))
  | SetRating rating => (1 <=? rating) && (rating <=? 5)
  end.

Definition apply (toLocaleDateString : string -> string)
           (now : Z) (o : op) (e : t) : t :=
  match o with
  | Update updates => update toLocaleDateString now updates e
  | AddTakeaway takeaway => addTakeaway now takeaway e
  | RemoveTakeaway takeawayId => removeTakeaway now takeawayId e
  | AddRelatedLink url title => addRelatedLink now url title e
  | RemoveRelatedLink linkId => removeRelatedLink now linkId e
  | AddTag tag => addTag now tag e
  | RemoveTag tag => removeTag now tag e
  | SetRating rating => setRating now rating e
  end.


End Entry.

(** The search helpers that share the file of [Entry]. *)
Module SearchUtils.

Definition fuzzyMatch (text searchTerm : string) : bool :=
  let textLower := JsString.toLowerCase text in
  let termLower := JsString.toLowerCase searchTerm in
  JsString.strIncludes textLower termLower.

End SearchUtils.

(** ** The browser's key-value store

    [localStorage] as the program sees it: a map from keys to strings, which
    the browser may refuse to touch altogether ([usable] is false: every
    access throws). [None] is the exception. *)

Module LocalStorage.

Record t : Type := mk { usable : bool; items : gmap string string }.

Definition getItem (k : string) (ls : t) : option (option string) :=
  if usable ls then Some (items ls !! k) else None.

Definition setItem (k v : string) (ls : t) : option t :=
  if usable ls then Some (mk true (<[k := v]> (items ls))) else None.

Definition removeItem (k : string) (ls : t) : option t :=
  if usable ls then Some (mk true (delete k (items ls))) else None.

End LocalStorage.

(** ** The storage service (StorageService) *)

Module StorageService.

Definition STORAGE_KEY : string := "readingJournalEntries".
Definition BACKUP_KEY : string := "readingJournalBackup".
Definition SETTINGS_KEY : string := "readingJournalSettings".

Definition isStorageAvailable (ls : LocalStorage.t) : bool * LocalStorage.t :=
  let testKey := "__storage_test__" in
  match LocalStorage.setItem testKey "test" ls with
  | Some ls1 =>
      match LocalStorage.removeItem testKey ls1 with
      | Some ls2 => (true, ls2)
      | None => (false, ls1)
      end
  | None => (false, ls)
  end.

Fixpoint setAssoc (k : string) (v : value) (props : list (string * value))
  : list (string * value) :=
  match props with
  | [] => [(k, v)]
  | (k', v') :: rest =>
      if String.eqb k k' then (k, v) :: rest else (k', v') :: setAssoc k v rest
  end.

(** [o.k = v] in the strict code of a class body: [None] is the TypeError
    on [null], [undefined] and the primitives; on an array the property is
    set, and [JSON.stringify] does not print it. *)
Definition setProp (k : string) (v : value) (o : value) : option value :=
  match o with
  | VObj props => Some (VObj (setAssoc k v props))
  | VArr items => Some (VArr items)
  | _ => None
  end.

Section WithJSON.

(** [JSON.parse] ([None] is the SyntaxError), [JSON.stringify], and the
    conversion to a string that [JSON.parse] applies to an argument that
    is not one: all three belong to the runtime. *)
Variable JSON_parse : string -> option value.
Variable JSON_stringify : value -> string.
Variable ToString : value -> string.

Definition JSON_parse_value (v : value) : option value :=
  match v with
  | VStr s => JSON_parse s
  | _ => JSON_parse (ToString v)
  end.

Definition restoreFromBackup (ls : LocalStorage.t) : value * LocalStorage.t :=
  let '(available, ls) := isStorageAvailable ls in
  if negb available then (VArr [], ls)
  else
    (* the try block: [None] is an exception, [Some None] the end of the
       block without a return *)
    let attempt : option (option value) :=
      backupString ← LocalStorage.getItem BACKUP_KEY ls;
      match backupString with
      | Some s =>
          if JsString.truthy s then
            backup ← JSON_parse s;
            data ← JsValue.getProp backup "data";
            entries ← JSON_parse_value data;
            Some (Some entries)
          else Some None
      | None => Some None
      end in
    match attempt with
    | Some (Some entries) => (entries, ls)
    | _ => (VArr [], ls)
    end.

Definition getEntries (ls : LocalStorage.t) : value * LocalStorage.t :=
  let '(available, ls) := isStorageAvailable ls in
  if negb available then (VArr [], ls)
  else
    let attempt : option value :=
      data ← LocalStorage.getItem STORAGE_KEY ls;
      match data with
      | Some s => if JsString.truthy s then JSON_parse s else Some (VArr [])
      | None => Some (VArr [])
      end in
    match attempt with
    | Some entries => (entries, ls)
    | None => restoreFromBackup ls
    end.

Definition createBackup (now : Z) (ls : LocalStorage.t) : bool * LocalStorage.t :=
  let '(available, ls) := isStorageAvailable ls in
  if negb available then (false, ls)
  else
    let attempt : option LocalStorage.t :=
      currentData ← LocalStorage.getItem STORAGE_KEY ls;
      match currentData with
      | Some s =>
          if JsString.truthy s then
            LocalStorage.setItem BACKUP_KEY
              (JSON_stringify
                 (VObj [("data", VStr s);
                        ("timestamp", VStr (JsDate.toISOString now))])) ls
          else Some ls
      | None => Some ls
      end in
    match attempt with
    | Some ls' => (true, ls')
    | None => (false, ls)
    end.

Definition getSettings (ls : LocalStorage.t) : value * LocalStorage.t :=
  let '(available, ls) := isStorageAvailable ls in
  if negb available then (VObj [], ls)
  else
    let attempt : option value :=
      settings ← LocalStorage.getItem SETTINGS_KEY ls;
      match settings with
      | Some s => if JsString.truthy s then JSON_parse s else Some (VObj [])
      | None => Some (VObj [])
      end in
    (default (VObj []) attempt, ls).

Definition updateLastSaved (now : Z) (ls : LocalStorage.t) : LocalStorage.t :=
  let '(available, ls) := isStorageAvailable ls in
  if available then
    let '(settings, ls) := getSettings ls in
    let attempt : option LocalStorage.t :=
      settings ← setProp "lastSaved" (VStr (JsDate.toISOString now)) settings;
      LocalStorage.setItem SETTINGS_KEY (JSON_stringify settings) ls in
    default ls attempt
  else ls.

Definition saveEntries (now : Z) (entries : value) (ls : LocalStorage.t)
  : bool * LocalStorage.t :=
  let '(available, ls) := isStorageAvailable ls in
  if negb available then (false, ls)
  else
    let '(_, ls) := createBackup now ls in
    match LocalStorage.setItem STORAGE_KEY (JSON_stringify entries) ls with
    | Some ls => (true, updateLastSaved now ls)
    | None => (false, ls)
    end.

Definition clearAllData (ls : LocalStorage.t) : bool * LocalStorage.t :=
  let '(available, ls) := isStorageAvailable ls in
  if negb available then (false, ls)
  else
    let attempt : option LocalStorage.t :=
      ls ← LocalStorage.removeItem STORAGE_KEY ls;
      LocalStorage.removeItem BACKUP_KEY ls in
    match attempt with
    | Some ls' => (true, ls')
    | None => (false, ls)
    end.

Definition saveSettings (settings : value) (ls : LocalStorage.t)
  : bool * LocalStorage.t :=
  let '(available, ls) := isStorageAvailable ls in
  if negb available then (false, ls)
  else
    match LocalStorage.setItem SETTINGS_KEY (JSON_stringify settings) ls with
    | Some ls' => (true, ls')
    | None => (false, ls)
    end.

(** [getLastSaved()]: [settings.lastSaved || null], and [null] when reading
    the property throws. *)
Definition getLastSaved (ls : LocalStorage.t) : value * LocalStorage.t :=
  let '(settings, ls) := getSettings ls in
  match JsValue.getProp settings "lastSaved" with
  | Some lastSaved => (if JsValue.truthy lastSaved then lastSaved else VNull, ls)
  | None => (VNull, ls)
  end.

(** [entry.id && entry.sourceName && entry.reflection] as [filter] reads
    it; [None] is the TypeError of reading a property of [null]. *)
Definition importable (entry : value) : option bool :=
  id ← JsValue.getProp entry "id";
  if negb (JsValue.truthy id) then Some false
  else
    sourceName ← JsValue.getProp entry "sourceName";
    if negb (JsValue.truthy sourceName) then Some false
    else
      reflection ← JsValue.getProp entry "reflection";
      Some (JsValue.truthy reflection).

Fixpoint filterImportable (l : list value) : option (list value) :=
  match l with
  | [] => Some []
  | entry :: rest =>
      match importable entry with
      | None => None
      | Some keep =>
          valid ← filterImportable rest;
          Some (if keep then entry :: valid else valid)
      end
  end.

Definition importEntries (now : Z) (entries : value) (ls : LocalStorage.t)
  : bool * LocalStorage.t :=
  match entries with
  | VArr items =>
      match filterImportable items with
      | None => (false, ls)
      | Some [] => (false, ls)
      | Some validEntries => saveEntries now (VArr validEntries) ls
      end
  | _ => (false, ls)
  end.

End WithJSON.

End StorageService.

(** ** The data service (backend/services/DataService.js)

    The service owns the entries, the subscribed callbacks and, through its
    storage service, the store. A callback is known by a number; what the
    callbacks were called with is recorded in [delivered], oldest first. *)

Module DataService.

Record event : Type := mkEvent { name : string; payload : option Entry.t }.

Record t : Type := mk {
  entries : list Entry.t;
  observers : list nat;
  storage : LocalStorage.t;
  delivered : list (nat * event)
}.

(** What [addEntry], [updateEntry] and [deleteEntry] return:
    [{success: true, entry}] or [{success: false, error}]. *)
Inductive result : Type :=
| Success (entry : Entry.t)
| Failure (error : string).

Definition success (r : result) : bool :=
  match r with Success _ => true | Failure _ => false end.

Definition set_entries (v : list Entry.t) (ds : t) : t :=
  mk v (observers ds) (storage ds) (delivered ds).

Definition set_storage (v : LocalStorage.t) (ds : t) : t :=
  mk (entries ds) (observers ds) v (delivered ds).

Definition notifyObservers (ev : string) (data : option Entry.t) (ds : t) : t :=
  mk (entries ds) (observers ds) (storage ds)
     (delivered ds ++ map (fun callback => (callback, mkEvent ev data)) (observers ds))%list.

(** Where [this.entries.find(entry => entry.id === id)] finds its entry:
    the first position whose entry has the id. *)
Fixpoint findIndex (id : Z) (l : list Entry.t) : option nat :=
  match l with
  | [] => None
  | entry :: rest =>
      if Entry.id entry =? id then Some O else S <$> findIndex id rest
  end.

Definition getEntryById (id : Z) (ds : t) : option Entry.t :=
  i ← findIndex id (entries ds); entries ds !! i.

Definition set_observers (v : list nat) (ds : t) : t :=
  mk (entries ds) v (storage ds) (delivered ds).

Definition subscribe (callback : nat) (ds : t) : t :=
  set_observers (observers ds ++ [callback])%list ds.

Definition unsubscribe (callback : nat) (ds : t) : t :=
  set_observers
    (List.filter (fun obs => negb (Nat.eqb obs callback)) (observers ds)) ds.

Section WithDate.

(** The time value of [new Date(s)]; [None] is NaN, the Invalid Date. *)
Variable Date_parse : string -> option Z.

(** The comparison function of [getAllEntries], [dateB - dateA]; [None]
    is NaN. *)
Definition compareDates (sortBy : string) (a b : Entry.t) : option Z :=
  dateA ← Date_parse (Entry.getSortDate sortBy a);
  dateB ← Date_parse (Entry.getSortDate sortBy b);
  Some (dateB - dateA).

(** [Array.prototype.sort] with the comparison of [getAllEntries]. When
    every date parses the comparison is consistent and the sort stable, so
    its result is the one arrangement that is sorted newest first and
    keeps entries of the same date in their order: [a] stays before [b]
    unless the comparison is positive. With a date that does not parse the
    comparison is NaN, the language leaves the order to the engine, and
    [insertSorted], which takes NaN for 0, gives one such order. *)
Fixpoint insertSorted (sortBy : string) (a : Entry.t) (l : list Entry.t)
  : list Entry.t :=
  match l with
  | [] => [a]
  | b :: rest =>
      if 0 <? default 0 (compareDates sortBy a b)
      then b :: insertSorted sortBy a rest
      else a :: b :: rest
  end.

Definition getAllEntries (sortBy : string) (ds : t) : list Entry.t :=
  foldr (insertSorted sortBy) [] (entries ds).

(** [l.filter(entry => entry.matchesSearch(term))]: [None] is the TypeError
    [matchesSearch] throws on an entry. *)
Fixpoint filterMatching (term : string) (l : list Entry.t) : option (list Entry.t) :=
  match l with
  | [] => Some []
  | entry :: rest =>
      match Entry.matchesSearch term entry with
      | None => None
      | Some matches =>
          found ← filterMatching term rest;
          Some (if matches then entry :: found else found)
      end
  end.

(** [searchEntries(searchTerm)], which catches nothing. *)
Definition searchEntries (searchTerm : string) (ds : t) : option (list Entry.t) :=
  if negb (JsString.truthy searchTerm) || String.eqb (JsString.trim searchTerm) ""
  then Some (getAllEntries "created" ds)
  else filterMatching (JsString.trim searchTerm) (entries ds).

(** The time value of the date [setDate(getDate() - 7)] leaves in a [Date]
    made at the reading [now]: seven calendar days back in the time zone of
    the host. *)
Variable sevenDaysBefore : Z -> Z.

Record statistics : Type := mkStatistics {
  totalEntries : nat;
  uniqueSources : nat;
  thisWeek : nat
}.

(** [new Date(entry.timestamp) >= weekAgo]; a comparison with NaN is false. *)
Definition sinceWeekAgo (weekAgo : Z) (e : Entry.t) : bool :=
  match Date_parse (Entry.timestamp e) with
  | Some t => weekAgo <=? t
  | None => false
  end.

(** [getStatistics()]: [None] is the TypeError of [toLowerCase] on a source
    name that is [undefined]. *)
Definition getStatistics (now : Z) (ds : t) : option statistics :=
  names ← mapM (fun e => JsString.toLowerCase <$> Entry.sourceName e) (entries ds);
  Some (mkStatistics
          (length (entries ds))
          (length (remove_dups names))
          (length (List.filter (sinceWeekAgo (sevenDaysBefore now)) (entries ds)))).

End WithDate.

Section WithRuntime.

Variable toLocaleDateString : string -> string.
Variable JSON_parse : string -> option value.
Variable JSON_stringify : value -> string.

Definition saveEntries (now : Z) (ds : t) : t :=
  let entriesData := map (fun entry => Data.toValue (Entry.toObject entry)) (entries ds) in
  set_storage
    (snd (StorageService.saveEntries JSON_parse JSON_stringify now
            (VArr entriesData) (storage ds))) ds.

Definition addEntry (now : Z) (entryData : FormData.t) (ds : t) : result * t :=
  let entry := Entry.create toLocaleDateString now entryData in
  let validation := Entry.validate entry in
  if negb (Entry.isValid validation) then
    (Failure (JsString.join ", " (Entry.errors validation)), ds)
  else
    let ds := set_entries (entry :: entries ds) ds in
    let ds := saveEntries now ds in
    let ds := notifyObservers "entry_added" (Some entry) ds in
    (Success entry, ds).

(** The entry found is mutated in place: the collection holds the
    updated entry from the call of [update] on, whatever happens next. *)
Definition updateEntry (now : Z) (id : Z) (updates : Updates.t) (ds : t)
  : result * t :=
  match findIndex id (entries ds) with
  | None => (Failure "Entry not found", ds)
  | Some i =>
      match entries ds !! i with
      | None => (Failure "Entry not found", ds)
      | Some entry =>
          let entry := Entry.update toLocaleDateString now updates entry in
          let ds := set_entries (<[i := entry]> (entries ds)) ds in
          let validation := Entry.validate entry in
          if negb (Entry.isValid validation) then
            (Failure (JsString.join ", " (Entry.errors validation)), ds)
          else
            let ds := saveEntries now ds in
            let ds := notifyObservers "entry_updated" (Some entry) ds in
            (Success entry, ds)
      end
  end.

Definition deleteEntry (now : Z) (id : Z) (ds : t) : result * t :=
  match findIndex id (entries ds) with
  | None => (Failure "Entry not found", ds)
  | Some entryIndex =>
      match entries ds !! entryIndex with
      | None => (Failure "Entry not found", ds)
      | Some deletedEntry =>
          let ds := set_entries (delete entryIndex (entries ds)) ds in
          let ds := saveEntries now ds in
          let ds := notifyObservers "entry_deleted" (Some deletedEntry) ds in
          (Success deletedEntry, ds)
      end
  end.

Definition clearAllEntries (now : Z) (ds : t) : bool * t :=
  let ds := set_entries [] ds in
  let ds := saveEntries now ds in
  let ds := notifyObservers "entries_cleared" None ds in
  (true, ds).

End WithRuntime.

End DataService.

(** ** The JSON export (backend/services/ExportService.js) *)

Module ExportService.

(** A file handed to the browser for download by [downloadFile]. *)
Record download : Type := mkDownload {
  content : string;
  fileName : string;
  mimeType : string
}.

(** [s.split(c)[0]]: the characters of [s] before the first [c]. *)
Fixpoint before (c : ascii) (s : string) : string :=
  match s with
  | EmptyString => EmptyString
  | String x s' => if Ascii.eqb x c then EmptyString else String x (before c s')
  end.

Definition getDateString (now : Z) : string :=
  before "T"%char (JsDate.toISOString now).

(** The object [exportData] of [exportAsJSON], from the entries that
    [getAllEntries] returned. *)
Definition exportData (now : Z) (entries : list Entry.t) : value :=
  VObj [("metadata",
         VObj [("exportDate", VStr (JsDate.toISOString now));
               ("version", VStr "1.0.0");
               ("totalEntries", VNum (Z.of_nat (length entries)));
               ("appName", VStr "Reading Journal")]);
        ("entries",
         VArr (map (fun entry => Data.toValue (Entry.toObject entry)) entries))].

Section WithRuntime.

Variable Date_parse : string -> option Z.

(** [JSON.stringify(v, null, 2)] *)
Variable JSON_stringify_indented : value -> string.

(** [exportAsJSON()]: the entries come from the data service, the export
    date from the clock, and the document goes to the browser as a
    download. [downloads] is what the browser was handed so far. *)
Definition exportAsJSON (now : Z) (ds : DataService.t) (downloads : list download)
  : bool * list download :=
  let entries := DataService.getAllEntries Date_parse "created" ds in
  let dataStr := JSON_stringify_indented (exportData now entries) in
  let fileName := "reading-journal-" +:+ getDateString now +:+ ".json" in
  (true, (downloads ++ [mkDownload dataStr fileName "application/json"])%list).

(** [exportAsJSON()] while [this.dataService.getAllEntries] is overridden
    to return [entries], as [exportDateRange] overrides it. *)
Definition exportAsJSONWith (entries : list Entry.t) (now : Z) (downloads : list download)
  : bool * list download :=
  let dataStr := JSON_stringify_indented (exportData now entries) in
  let fileName := "reading-journal-" +:+ getDateString now +:+ ".json" in
  (true, (downloads ++ [mkDownload dataStr fileName "application/json"])%list).

End WithRuntime.

(** *** File names *)

Definition isAlphanumeric (c : ascii) : bool :=
  let n := nat_of_ascii c in
  (Nat.leb 48 n && Nat.leb n 57) || (Nat.leb 65 n && Nat.leb n 90)
  || (Nat.leb 97 n && Nat.leb n 122).

Definition dash : ascii := "-"%char.

(** [s.replace(/[^a-z0-9]/gi, '-')] *)
Fixpoint dashOthers (s : string) : string :=
  match s with
  | EmptyString => EmptyString
  | String c s' => String (if isAlphanumeric c then c else dash) (dashOthers s')
  end.

Definition startsWithDash (s : string) : bool :=
  match s with
  | String c _ => Ascii.eqb c dash
  | EmptyString => false
  end.

(** [s.replace(/-+/g, '-')]: of a run of dashes the last one stays. *)
Fixpoint squeezeDashes (s : string) : string :=
  match s with
  | EmptyString => EmptyString
  | String c s' =>
      if Ascii.eqb c dash && startsWithDash s' then squeezeDashes s'
      else String c (squeezeDashes s')
  end.

(** [s.replace(/^-|-$/g, '')]: a dash at the start goes, and a dash at the
    end. *)
Definition dropFirstDash (s : string) : string :=
  match s with
  | String c s' => if Ascii.eqb c dash then s' else s
  | EmptyString => EmptyString
  end.

Fixpoint dropLastDash (s : string) : string :=
  match s with
  | EmptyString => EmptyString
  | String c EmptyString => if Ascii.eqb c dash then EmptyString else s
  | String c s' => String c (dropLastDash s')
  end.

(** [s.substring(0, n)] *)
Fixpoint take (n : nat) (s : string) : string :=
  match n, s with
  | S n', String c s' => String c (take n' s')
  | _, _ => EmptyString
  end.

Definition sanitizeFileName (str : string) : string :=
  take 50
    (JsString.toLowerCase
       (dropLastDash (dropFirstDash (squeezeDashes (dashOthers str))))).

(** *** Markdown *)

Definition nl : string := String (ascii_of_nat 10) "".

Definition generateMarkdownFooter : string :=
  nl +:+ "---" +:+ nl +:+ nl +:+
  "*Generated by Reading Journal - Your personal reading companion*" +:+ nl.

Definition entryToMarkdown (entry : Entry.t) : string :=
  let title := Entry.printed (Entry.sourceName entry) in
  let author :=
    if JsString.truthy (Entry.author entry) then " by " +:+ Entry.author entry
    else "" in
  "### " +:+ title +:+ author +:+ nl +:+ nl +:+
  "**Date:** " +:+ Entry.dateFormatted entry +:+ "  " +:+ nl +:+
  "**Type:** " +:+ Entry.printed (Entry.sourceType entry) +:+ nl +:+ nl +:+
  Entry.printed (Entry.reflection entry) +:+ nl +:+ nl +:+
  "---" +:+ nl +:+ nl.

(** The names every object inherits from [Object.prototype]: [groups[type]]
    is truthy for them on an object that has no such key of its own. *)
Definition inheritedKeys : list string :=
  ["constructor"; "hasOwnProperty"; "isPrototypeOf"; "propertyIsEnumerable";
   "toLocaleString"; "toString"; "valueOf"; "__proto__"; "__defineGetter__";
   "__defineSetter__"; "__lookupGetter__"; "__lookupSetter__"].

(** The key [groups[entry.sourceType]] reads and writes. *)
Definition typeKey (entry : Entry.t) : string := Entry.printed (Entry.sourceType entry).

Fixpoint hasGroup (type : string) (groups : list (string * list Entry.t)) : bool :=
  match groups with
  | [] => false
  | (k, _) :: rest => String.eqb type k || hasGroup type rest
  end.

(** [groups[type].push(entry)] on a key the object has. *)
Fixpoint pushInto (type : string) (entry : Entry.t)
         (groups : list (string * list Entry.t)) : list (string * list Entry.t) :=
  match groups with
  | [] => []
  | (k, l) :: rest =>
      if String.eqb type k then (k, (l ++ [entry])%list) :: rest
      else (k, l) :: pushInto type entry rest
  end.

(** One step of the [reduce] of [groupEntriesByType]; [None] is the
    TypeError of [push] on what a key of [inheritedKeys] holds. The groups
    are listed in the order their keys were first written. *)
Definition addToGroup (groups : list (string * list Entry.t)) (entry : Entry.t)
  : option (list (string * list Entry.t)) :=
  let type := typeKey entry in
  if hasGroup type groups then Some (pushInto type entry groups)
  else if JsString.includes inheritedKeys type then None
  else Some (groups ++ [(type, [entry])])%list.

Fixpoint groupFrom (groups : list (string * list Entry.t)) (entries : list Entry.t)
  : option (list (string * list Entry.t)) :=
  match entries with
  | [] => Some groups
  | entry :: rest =>
      match addToGroup groups entry with
      | Some groups' => groupFrom groups' rest
      | None => None
      end
  end.

Definition groupEntriesByType (entries : list Entry.t)
  : option (list (string * list Entry.t)) :=
  groupFrom [] entries.

(** [keys.sort()]: by code units, smallest first. *)
Fixpoint insertKey (k : string) (l : list string) : list string :=
  match l with
  | [] => [k]
  | k' :: rest => if String.leb k k' then k :: l else k' :: insertKey k rest
  end.

Definition sortKeys (l : list string) : list string := foldr insertKey [] l.

Definition groupOf (type : string) (groups : list (string * list Entry.t))
  : list Entry.t :=
  default [] (snd <$> List.find (fun g => String.eqb type (fst g)) groups).

(** The loop of [exportAsMarkdown] over [Object.keys(groupedEntries).sort()]:
    to [markdown] it appends one section for each source type, and in it
    the entries of the type. *)
Definition appendSections (groups : list (string * list Entry.t)) (markdown : string)
  : string :=
  fold_left
    (fun markdown sourceType =>
       fold_left (fun markdown entry => markdown +:+ entryToMarkdown entry)
                 (groupOf sourceType groups)
                 (markdown +:+ nl +:+ "## " +:+ sourceType +:+ " Entries" +:+ nl +:+ nl))
    (sortKeys (map fst groups)) markdown.

(** What the browser was asked to do: the files handed over for download
    and the messages shown with [alert]. *)
Record browser : Type := mkBrowser {
  downloads : list download;
  alerts : list string
}.

Definition printNat (n : nat) : string := NilZero.string_of_uint (Nat.to_uint n).

Section WithCalendar.

Variable Date_parse : string -> option Z.
Variable sevenDaysBefore : Z -> Z.

(** [new Date().toLocaleDateString('en-US', {weekday: 'long', year:
    'numeric', month: 'long', day: 'numeric'})] at the reading [now]. *)
Variable longDate : Z -> string.

Definition generateMarkdownHeader (now : Z) (stats : DataService.statistics)
  : string :=
  "# My Reading Journal" +:+ nl +:+ nl +:+
  "**Exported on:** " +:+ longDate now +:+ nl +:+ nl +:+
  "## Statistics" +:+ nl +:+ nl +:+
  "- **Total Entries:** " +:+ printNat (DataService.totalEntries stats) +:+ nl +:+
  "- **Unique Sources:** " +:+ printNat (DataService.uniqueSources stats) +:+ nl +:+
  "- **Entries This Week:** " +:+ printNat (DataService.thisWeek stats) +:+ nl +:+
  nl +:+ "---" +:+ nl +:+ nl.

(** The [try] block of [exportAsMarkdown] up to the document; [None] is an
    exception. [entries] is what [this.dataService.getAllEntries()]
    returns: [exportDateRange] overrides that method before it calls
    [exportAsMarkdown], and [getStatistics] does not go through it. *)
Definition markdownDocument (entries : list Entry.t) (now : Z) (ds : DataService.t)
  : option string :=
  stats ← DataService.getStatistics Date_parse sevenDaysBefore now ds;
  let markdown := generateMarkdownHeader now stats in
  groupedEntries ← groupEntriesByType entries;
  let markdown := appendSections groupedEntries markdown in
  Some (markdown +:+ generateMarkdownFooter).

Definition exportAsMarkdownWith (entries : list Entry.t) (now : Z) (ds : DataService.t)
           (b : browser) : bool * browser :=
  match markdownDocument entries now ds with
  | Some markdown =>
      let fileName := "reading-journal-" +:+ getDateString now +:+ ".md" in
      (true,
       mkBrowser (downloads b ++ [mkDownload markdown fileName "text/markdown"])%list
                 (alerts b))
  | None =>
      (false,
       mkBrowser (downloads b)
                 (alerts b ++ ["Failed to export data as Markdown. Please try again."])%list)
  end.

(** [exportAsMarkdown()] on a data service whose methods are its own. *)
Definition exportAsMarkdown (now : Z) (ds : DataService.t) (b : browser)
  : bool * browser :=
  exportAsMarkdownWith (DataService.getAllEntries Date_parse "created" ds) now ds b.

(** [JSON.stringify(v, null, 2)] *)
Variable JSON_stringify_indented : value -> string.

(** A number in a template literal. *)
Variable Number_toString : Z -> string.

(** [new Date(entry.timestamp)] lies between two [Date]s, [None] the
    invalid date: a comparison with NaN is false. *)
Definition inRange (startDate endDate : option Z) (entry : Entry.t) : bool :=
  match Date_parse (Entry.timestamp entry), startDate, endDate with
  | Some entryDate, Some startDate, Some endDate =>
      (startDate <=? entryDate) && (entryDate <=? endDate)
  | _, _, _ => false
  end.

(** [exportDateRange(startDate, endDate, format)]: while the export runs,
    [getAllEntries] of the data service returns the filtered entries;
    afterwards the method is the original again. A [format] that is
    not passed is ['json']. *)
Definition exportDateRange (now : Z) (startDate endDate : option Z)
           (format : option string) (ds : DataService.t) (b : browser)
  : bool * browser :=
  let format := default "json" format in
  let allEntries := DataService.getAllEntries Date_parse "created" ds in
  let filteredEntries := List.filter (inRange startDate endDate) allEntries in
  if Nat.eqb (length filteredEntries) 0 then
    (false,
     mkBrowser (downloads b)
               (alerts b ++ ["No entries found in the selected date range."])%list)
  else if String.eqb format "json" then
    let (success, files) :=
      exportAsJSONWith JSON_stringify_indented filteredEntries now (downloads b) in
    (success, mkBrowser files (alerts b))
  else exportAsMarkdownWith filteredEntries now ds b.

(** [exportSingleEntry(entryId, format)], where a [format] that is not
    passed is ['markdown']; [sanitizeFileName] throws on a source name that
    is [undefined], after the content was made. *)
Definition exportSingleEntry (now : Z) (entryId : Z) (format : option string)
           (ds : DataService.t) (b : browser) : bool * browser :=
  let format := default "markdown" format in
  match DataService.getEntryById entryId ds with
  | None => (false, mkBrowser (downloads b) (alerts b ++ ["Entry not found."])%list)
  | Some entry =>
      if String.eqb format "json" then
        let content :=
          JSON_stringify_indented
            (VObj [("metadata",
                    VObj [("exportDate", VStr (JsDate.toISOString now));
                          ("entryId", VNum (Entry.id entry));
                          ("appName", VStr "Reading Journal")]);
                   ("entry", Data.toValue (Entry.toObject entry))]) in
        let fileName :=
          "entry-" +:+ Number_toString (Entry.id entry) +:+ "-" +:+
          getDateString now +:+ ".json" in
        (true,
         mkBrowser (downloads b ++ [mkDownload content fileName "application/json"])%list
                   (alerts b))
      else
        let content := entryToMarkdown entry in
        match Entry.sourceName entry with
        | Some sourceName =>
            let fileName := "entry-" +:+ sanitizeFileName sourceName +:+ ".md" in
            (true,
             mkBrowser (downloads b ++ [mkDownload content fileName "text/markdown"])%list
                       (alerts b))
        | None =>
            (false,
             mkBrowser (downloads b)
                       (alerts b ++ ["Failed to export entry. Please try again."])%list)
        end
  end.

End WithCalendar.

End ExportService.

(** ** Concrete inputs

    A runtime and a few values to evaluate the model on. [isoDay] stands for
    the date formatter of the host: it prints the day of an ISO timestamp.
    [stringify] prints a value of the model as [JSON.stringify] does;
    [parse] knows the JSON texts of [jsonTexts] and rejects every other
    string. *)

Module Samples.

Definition isoDay (ts : string) : string := ExportService.before "T"%char ts.

Definition hexDigit (n : nat) : ascii :=
  ascii_of_nat (if Nat.ltb n 10 then 48 + n else 87 + n).

(** A character inside a JSON string: the quote, the backslash and the
    control characters are escaped. *)
Definition escapeChar (c : ascii) : string :=
  let n := nat_of_ascii c in
  let backslash := ascii_of_nat 92 in
  if Nat.eqb n 34 then String backslash (String c "")
  else if Nat.eqb n 92 then String backslash (String backslash "")
  else if Nat.eqb n 8 then String backslash "b"
  else if Nat.eqb n 9 then String backslash "t"
  else if Nat.eqb n 10 then String backslash "n"
  else if Nat.eqb n 12 then String backslash "f"
  else if Nat.eqb n 13 then String backslash "r"
  else if Nat.ltb n 32 then
    String backslash
      ("u00" +:+ String (hexDigit (Nat.div n 16)) (String (hexDigit (Nat.modulo n 16)) ""))
  else String c "".

Fixpoint escape (s : string) : string :=
  match s with
  | EmptyString => EmptyString
  | String c s' => escapeChar c +:+ escape s'
  end.

Definition quote (s : string) : string :=
  String (ascii_of_nat 34) (escape s +:+ String (ascii_of_nat 34) "").

Fixpoint stringify (v : value) : string :=
  match v with
  | VUndefined | VNull => "null"
  | VBool true => "true"
  | VBool false => "false"
  | VNum n => NilZero.string_of_int (Z.to_int n)
  | VStr s => quote s
  | VArr items => "[" +:+ JsString.join "," (map stringify items) +:+ "]"
  | VObj props =>
      "{" +:+
      JsString.join ","
        ((fix members (props : list (string * value)) : list string :=
            match props with
            | [] => []
            | (_, VUndefined) :: rest => members rest
            | (k, x) :: rest => (quote k +:+ ":" +:+ stringify x) :: members rest
            end) props) +:+
      "}"
  end.

Definition storedEntries : value :=
  VArr [VObj [("id", VNum 1700000000000); ("sourceType", VStr "Book");
              ("sourceName", VStr "Deep Work");
              ("reflection", VStr "Great book about focus.")]].

Definition backupOfStored : value :=
  VObj [("data", VStr (stringify storedEntries));
        ("timestamp", VStr "2023-11-14T22:13:20.000Z")].

Definition jsonTexts : list (string * value) :=
  [("[]", VArr []);
   (stringify storedEntries, storedEntries);
   (stringify backupOfStored, backupOfStored)].

Definition parse (s : string) : option value := JsValue.assoc s jsonTexts.

(** The conversion of a value to a string: the elements of an array are
    joined with commas, [null] and [undefined] among them printing nothing. *)
Fixpoint toString (v : value) : string :=
  match v with
  | VUndefined => "undefined"
  | VNull => "null"
  | VBool true => "true"
  | VBool false => "false"
  | VNum n => NilZero.string_of_int (Z.to_int n)
  | VStr s => s
  | VArr items =>
      JsString.join ","
        (map (fun x =>
                match x with
                | VUndefined | VNull => ""
                | _ => toString x
                end) items)
  | VObj _ => "[object Object]"
  end.

(** What the entry form submits for a book. *)
Definition deepWork : FormData.t :=
  FormData.mk (Some "Book") (Some "Deep Work") (Some "Cal Newport")
              (Some "Great book about focus.")
              [("metadata", VObj [("isbn", VStr "0349411905");
                                  ("publisher", VStr "Piatkus")])].

Definition entry0 : Entry.t := Entry.create isoDay 1700000000000 deepWork.

(** An entry as the constructor builds it from stored data that carries a
    tag in upper case. *)
Definition legacy : Entry.t :=
  Entry.constructor isoDay 1700000000000
    (Data.mk (Some 7) (Some "Article") (Some "Attention") None
             (Some "Stored before tags were lowered.") None None None None
             None None None (Some ["AI"]) None None).

(** An entry as the constructor builds it, at the reading 1700000000500,
    from stored data whose [lastEdited] is the time of the reading
    1700000005000. *)
Definition editedLater : Entry.t :=
  Entry.constructor isoDay 1700000000500
    (Data.mk (Some 8) (Some "Book") (Some "Deep Work") None
             (Some "Edited on a machine whose clock ran ahead.")
             (Some "2023-11-14T22:13:20.000Z") (Some "2023-11-14T22:13:25.000Z")
             None (Some 3) None None None None None None).

(** A JSON text cut short. *)
Definition truncated : string := substring 0 40 (stringify storedEntries).

(** A store whose primary slot is corrupt and whose backup slot is good. *)
Definition corrupted : LocalStorage.t :=
  LocalStorage.mk true
    (<[StorageService.STORAGE_KEY := truncated]>
       (<[StorageService.BACKUP_KEY := stringify backupOfStored]> ∅)).

(** A store whose primary slot holds the empty string and whose backup
    slot is good. *)
Definition emptied : LocalStorage.t :=
  LocalStorage.mk true
    (<[StorageService.STORAGE_KEY := ""]>
       (<[StorageService.BACKUP_KEY := stringify backupOfStored]> ∅)).

Definition service : DataService.t :=
  DataService.mk [entry0] [0%nat; 1%nat]
    (LocalStorage.mk true
       (<[StorageService.STORAGE_KEY := stringify storedEntries]> ∅)) [].

(** Partial fields that blank the source name. *)
Definition blankName : Updates.t :=
  Updates.mk None None (Some (Some "   ")) None None None None None None None
             None None None None None [].


Definition withEditCount (n : Z) : Updates.t :=
  Updates.mk None None None None None None None None (Some n) None
             None None None None None [].

End Samples.

(** More inputs: a second entry, a minute younger, a service that holds
    both, and a [Date] that reads their timestamps. *)
Module MoreSamples.

Definition later : Entry.t :=
  Entry.create Samples.isoDay 1700000060000
    (FormData.mk (Some "Article") (Some "Attention Is All You Need")
                 (Some "Vaswani") (Some "Transformers, explained.") []).

Definition parseDate (s : string) : option Z :=
  if String.eqb s "2023-11-14T22:13:20.000Z" then Some 1700000000000
  else if String.eqb s "2023-11-14T22:14:20.000Z" then Some 1700000060000
  else None.

Definition journal : DataService.t :=
  DataService.mk [Samples.entry0; later] [0%nat]
    (LocalStorage.mk true ∅) [].

(** A [JSON.parse] that knows, besides the texts of [Samples], the
    settings a first save writes. *)
Definition firstSettings : value :=
  VObj [("lastSaved", VStr "2023-11-14T22:13:20.000Z")].

Definition parse (s : string) : option value :=
  JsValue.assoc s
    ((Samples.stringify firstSettings, firstSettings) :: Samples.jsonTexts).

End MoreSamples.

(** ** Vocabulary of the properties *)

(** What a call does to the edit counter: [update] adds 1, as the runtime
    adds, to the value the partial fields left; the other seven methods do
    not touch it. *)
Definition editCountAfter (o : Entry.op) (e : Entry.t) : Z :=
  match o with
  | Entry.Update updates =>
      JsNumber.add (default (Entry.editCount e) (Updates.editCount updates)) 1
  | _ => Entry.editCount e
  end.





(** The tags as the data model wants them: each in lower case, none twice. *)
Definition tagsLowered (l : list string) : Prop :=
  Forall (fun tag => JsString.toLowerCase tag = tag) l /\ NoDup l.

(** A sequence of [addTag] calls, each with its clock reading. *)
Definition addTags (calls : list (Z * string)) (e : Entry.t) : Entry.t :=
  fold_left (fun e call => Entry.addTag (fst call) (snd call) e) calls e.

(** The store after the probe: the key of the probe is gone. *)
Definition probed (ls : LocalStorage.t) : LocalStorage.t :=
  LocalStorage.mk true (delete "__storage_test__" (LocalStorage.items ls)).

(** The backup slot as [restoreFromBackup] reads it: the collection it
    returns when the slot holds a text that parses to a value with a [data]
    the runtime parses in turn. *)
Definition recovered (JSON_parse : string -> option value)
           (ToString : value -> string) (ls : LocalStorage.t) : option value :=
  match LocalStorage.items ls !! StorageService.BACKUP_KEY with
  | Some b =>
      if JsString.truthy b then
        backup ← JSON_parse b;
        data ← JsValue.getProp backup "data";
        StorageService.JSON_parse_value JSON_parse ToString data
      else None
  | None => None
  end.

(** [doc.metadata.k] *)
Definition metadataOf (doc : value) (k : string) : option value :=
  metadata ← JsValue.getProp doc "metadata"; JsValue.getProp metadata k.

(** A required property that is filled in: a string that is not empty
    when the white space at its ends is taken off. *)
Definition filled (o : option string) : Prop :=
  exists s, o = Some s /\ JsString.trim s <> "".

(** A character of the Basic Latin block. *)
Definition isAscii (c : ascii) : bool := Nat.ltb (nat_of_ascii c) 128.

(** The entries [matchesSearch] reads without an exception. *)
Definition searchable (e : Entry.t) : Prop :=
  is_Some (Entry.sourceName e) /\ is_Some (Entry.reflection e)
  /\ is_Some (Entry.sourceType e).

(** The date [getAllEntries] sorts an entry by; [None] is the Invalid
    Date. *)
Definition sortDate (Date_parse : string -> option Z) (sortBy : string)
           (e : Entry.t) : option Z :=
  Date_parse (Entry.getSortDate sortBy e).

(** [a] may stand before [b] in a list that is sorted newest first. *)
Definition notOlder (Date_parse : string -> option Z) (sortBy : string)
           (a b : Entry.t) : Prop :=
  exists ta tb, sortDate Date_parse sortBy a = Some ta
                /\ sortDate Date_parse sortBy b = Some tb /\ tb <= ta.

Definition datedAt (Date_parse : string -> option Z) (sortBy : string)
           (t : Z) (e : Entry.t) : bool :=
  match sortDate Date_parse sortBy e with
  | Some x => x =? t
  | None => false
  end.

(** The timestamp of the entry parses to a time that is not before
    [since]. *)
Definition stampedSince (Date_parse : string -> option Z) (since : Z)
           (e : Entry.t) : bool :=
  match Date_parse (Entry.timestamp e) with
  | Some t => since <=? t
  | None => false
  end.

(** The backup [createBackup] writes of the primary text [data]. *)
Definition backupOf (now : Z) (data : string) : value :=
  VObj [("data", VStr data); ("timestamp", VStr (JsDate.toISOString now))].

(** The backup slot after a save over a store whose slots held [primary]
    and [backup]: the primary text is copied when it is not empty. *)
Definition backupAfterSave (JSON_stringify : value -> string) (now : Z)
           (primary backup : option string) : option string :=
  match primary with
  | Some data =>
      if JsString.truthy data then Some (JSON_stringify (backupOf now data))
      else backup
  | None => backup
  end.

(** [null] and [undefined]: the values with no property to read. *)
Definition nullish (v : value) : bool :=
  match v with
  | VUndefined | VNull => true
  | _ => false
  end.

Definition propOf (v : value) (k : string) : value :=
  default VUndefined (JsValue.getProp v k).

(** An element [importEntries] keeps: its [id], [sourceName] and
    [reflection] are all truthy. *)
Definition hasRequired (entry : value) : bool :=
  JsValue.truthy (propOf entry "id")
  && JsValue.truthy (propOf entry "sourceName")
  && JsValue.truthy (propOf entry "reflection").

(** Every character of [s] passes [p]. *)
Fixpoint allChars (p : ascii -> bool) (s : string) : bool :=
  match s with
  | EmptyString => true
  | String c s' => p c && allChars p s'
  end.

(** The characters of a file name: the letters a to z, the digits and the
    dash. *)
Definition fileNameChar (c : ascii) : bool :=
  let n := nat_of_ascii c in
  (Nat.leb 48 n && Nat.leb n 57) || (Nat.leb 97 n && Nat.leb n 122)
  || Ascii.eqb c ExportService.dash.

(** No dash of [s] is followed by a dash. *)
Fixpoint noDoubleDash (s : string) : bool :=
  match s with
  | EmptyString => true
  | String c s' =>
      negb (Ascii.eqb c ExportService.dash && ExportService.startsWithDash s')
      && noDoubleDash s'
  end.

(** [s] holds a letter or a digit. *)
Fixpoint hasAlnum (s : string) : bool :=
  match s with
  | EmptyString => false
  | String c s' => ExportService.isAlphanumeric c || hasAlnum s'
  end.

(** The entries [groupEntriesByType] files under [type]. *)
Definition ofType (type : string) (e : Entry.t) : bool :=
  String.eqb (ExportService.typeKey e) type.

(** The text of its parts, one after the other. *)
Definition text (parts : list string) : string := foldr String.append "" parts.

(** The line that opens the section of a source type in the Markdown
    export. *)
Definition heading (sourceType : string) : string :=
  ExportService.nl +:+ "## " +:+ sourceType +:+ " Entries" +:+
  ExportService.nl +:+ ExportService.nl.

(** The section of a source type: its heading, then those of [entries]
    that have the type. *)
Definition sectionOf (entries : list Entry.t) (sourceType : string) : string :=
  heading sourceType +:+
  text (map ExportService.entryToMarkdown (List.filter (ofType sourceType) entries)).

(** * Properties *)

(** ** Evaluation on known inputs *)

Example toISOString_epoch :
  JsDate.toISOString 0 = "1970-01-01T00:00:00.000Z".
Proof. reflexivity. Qed.

Example toISOString_2023 :
  JsDate.toISOString 1700000000000 = "2023-11-14T22:13:20.000Z".
Proof. reflexivity. Qed.

Example toISOString_leap_day :
  JsDate.toISOString 951782400123 = "2000-02-29T00:00:00.123Z".
Proof. reflexivity. Qed.

Example toISOString_before_epoch :
  JsDate.toISOString (-1) = "1969-12-31T23:59:59.999Z".
Proof. reflexivity. Qed.

Example trim_example : JsString.trim "  Deep Work " = "Deep Work".
Proof. reflexivity. Qed.

Example toLowerCase_example : JsString.toLowerCase "AI & ml" = "ai & ml".
Proof. reflexivity. Qed.

(** The no-break space U+00A0 is the code unit 160, and U+00C9, the E with
    an acute accent, the code unit 201. *)
Example trim_no_break_space :
  JsString.trim (String (ascii_of_nat 160) ("Deep Work" +:+ String (ascii_of_nat 160) " "))
  = "Deep Work".
Proof. reflexivity. Qed.

Example toLowerCase_latin1 :
  JsString.toLowerCase (String (ascii_of_nat 201) "COLE")
  = String (ascii_of_nat 233) "cole".
Proof. reflexivity. Qed.

Example entry0_value :
  Samples.entry0 =
  Entry.mk 1700000000000 (Some "Book") (Some "Deep Work") "Cal Newport"
           (Some "Great book about focus.") "2023-11-14T22:13:20.000Z" None
           "2023-11-14" 0 "" [] [] [] None "".
Proof. reflexivity. Qed.

Example scenario_update :
  let e := Entry.update Samples.isoDay 1700000001000
             (Updates.mk None None None None (Some (Some "Revised.")) None None
                         None None None None None None None None [])
             Samples.entry0 in
  Entry.reflection e = Some "Revised." /\ Entry.editCount e = 1 /\
  Entry.lastEdited e = Some "2023-11-14T22:13:21.000Z".
Proof. repeat split. Qed.

Example stringify_example :
  Samples.stringify (VArr [VNum 17; VNull; VBool true; VUndefined; VArr []])
  = "[17,null,true,null,[]]".
Proof. reflexivity. Qed.

Example parse_stringify_example :
  Samples.parse (Samples.stringify Samples.storedEntries) = Some Samples.storedEntries /\
  Samples.parse Samples.truncated = None.
Proof. split; reflexivity. Qed.

(** The scenario of the specification: an entry is added to an empty
    service, which saves the collection and tells its two subscribers. *)
Example scenario_addEntry :
  let empty :=
    DataService.mk [] [0%nat; 1%nat] (LocalStorage.mk true ∅) [] in
  let out :=
    DataService.addEntry Samples.isoDay Samples.parse Samples.stringify
      1700000000000 Samples.deepWork empty in
  fst out = DataService.Success Samples.entry0 /\
  DataService.entries (snd out) = [Samples.entry0] /\
  map fst (DataService.delivered (snd out)) = [0%nat; 1%nat] /\
  LocalStorage.items (DataService.storage (snd out)) !! StorageService.STORAGE_KEY
  = Some (Samples.stringify
            (VArr [Data.toValue (Entry.toObject Samples.entry0)])).
Proof. repeat split. Qed.

Example getEntries_good_primary :
  fst (StorageService.getEntries Samples.parse Samples.toString
         (DataService.storage Samples.service))
  = Samples.storedEntries.
Proof. reflexivity. Qed.

(** ** Strings *)

Lemma truthy_false (s : string) : JsString.truthy s = false -> s = "".
Proof.
  unfold JsString.truthy. intros H.
  apply negb_false_iff in H. now apply String.eqb_eq in H.
Qed.

Lemma truthy_true (s : string) : JsString.truthy s = true <-> s <> "".
Proof.
  unfold JsString.truthy. rewrite negb_true_iff. apply String.eqb_neq.
Qed.

Lemma includes_true (l : list string) (x : string) :
  JsString.includes l x = true <-> In x l.
Proof.
  unfold JsString.includes. rewrite existsb_exists. split.
  - intros (y & Hy & Heq). apply String.eqb_eq in Heq. now subst.
  - intros H. exists x. split; [assumption | apply String.eqb_refl].
Qed.

Lemma includes_false (l : list string) (x : string) :
  JsString.includes l x = false <-> ~ In x l.
Proof.
  rewrite <- includes_true. destruct (JsString.includes l x); split; intros; congruence.
Qed.

Lemma lowerChar_idem (c : ascii) :
  JsString.lowerChar (JsString.lowerChar c) = JsString.lowerChar c.
Proof.
  destruct c as [[] [] [] [] [] [] [] []]; reflexivity.
Qed.

Lemma toLowerCase_idem (s : string) :
  JsString.toLowerCase (JsString.toLowerCase s) = JsString.toLowerCase s.
Proof.
  induction s as [| c s IH]; simpl; [reflexivity |].
  now rewrite lowerChar_idem, IH.
Qed.

(** A filter that rejects nothing returns the list. *)
Lemma filter_all {A : Type} (p : A -> bool) (l : list A) :
  (forall x, In x l -> p x = true) -> List.filter p l = l.
Proof.
  induction l as [| a l IH]; simpl; intros H; [reflexivity |].
  rewrite (H a) by now left.
  f_equal. apply IH. intros x Hx. apply H. now right.
Qed.

(** ** Numbers *)

Lemma add_one_exact (c : Z) : - 2 ^ 53 <= c < 2 ^ 53 -> JsNumber.add c 1 = c + 1.
Proof.
  intros Hc. unfold JsNumber.add, JsNumber.round.
  assert (Hle : (Z.abs (c + 1) <=? 2 ^ 53) = true) by (apply Z.leb_le; lia).
  cbv zeta. now rewrite Hle.
Qed.

Lemma add_one_at_limit : JsNumber.add (2 ^ 53) 1 = 2 ^ 53.
Proof. reflexivity. Qed.

(** ** The mutation protocol of an entry *)

Section EntryProtocol.

Variable toLocaleDateString : string -> string.

Lemma update_lastEdited now updates e :
  Entry.lastEdited (Entry.update toLocaleDateString now updates e)
  = Some (JsDate.toISOString now).
Proof. reflexivity. Qed.

Lemma update_editCount now updates e :
  Entry.editCount (Entry.update toLocaleDateString now updates e)
  = JsNumber.add (default (Entry.editCount e) (Updates.editCount updates)) 1.
Proof. reflexivity. Qed.

Lemma update_id now updates e :
  Entry.id (Entry.update toLocaleDateString now updates e) = Entry.id e.
Proof. reflexivity. Qed.

Lemma update_timestamp now updates e :
  Entry.timestamp (Entry.update toLocaleDateString now updates e)
  = Entry.timestamp e.
Proof. reflexivity. Qed.

Lemma apply_lastEdited now o e :
  Entry.succeeds o e = true ->
  Entry.lastEdited (Entry.apply toLocaleDateString now o e)
  = Some (JsDate.toISOString now).
Proof.
  destruct o; simpl; intros H; try reflexivity.
  - unfold Entry.addTakeaway. now rewrite H.
  - unfold Entry.addRelatedLink. now rewrite H.
  - unfold Entry.addTag. now rewrite H.
  - unfold Entry.setRating. now rewrite H.
Qed.

Lemma apply_editCount now o e :
  Entry.editCount (Entry.apply toLocaleDateString now o e) = editCountAfter o e.
Proof.
  destruct o; simpl; try reflexivity.
  - unfold Entry.addTakeaway. now destruct (_ && _).
  - unfold Entry.addRelatedLink. now destruct (_ && _).
  - unfold Entry.addTag. now destruct (_ && _).
  - unfold Entry.setRating. now destruct (_ && _).
Qed.

End EntryProtocol.

(** C1, as stated, fails: [addTag] passes its guard on a fresh entry, adds
    the tag and stamps [lastEdited], and the edit counter is 0 before and
    after. *)
Lemma C1_addTag_keeps_editCount :
  Entry.succeeds (Entry.AddTag "AI") Samples.entry0 = true /\
  Entry.editCount Samples.entry0 = 0 /\
  Entry.tags (Entry.addTag 1700000005000 "AI" Samples.entry0) = ["ai"] /\
  Entry.lastEdited (Entry.addTag 1700000005000 "AI" Samples.entry0)
  = Some "2023-11-14T22:13:25.000Z" /\
  Entry.editCount (Entry.addTag 1700000005000 "AI" Samples.entry0) = 0.
Proof. repeat split. Qed.

(** C1, amended: every call of one of the eight mutating methods that passes
    the guard of its method sets [lastEdited] to the clock reading of the
    call. The edit counter moves in [update] alone, which leaves the sum, as
    the runtime adds numbers, of 1 and the count [c] that the counter holds
    after the partial fields are assigned (their [editCount], or the
    previous count when they carry none): that is [c + 1] as long as [c]
    lies from -2^53 to 2^53 - 1, and at 2^53 the counter stays where it is.
    [addTakeaway], [removeTakeaway], [addRelatedLink], [removeRelatedLink],
    [addTag], [removeTag] and [setRating] leave the counter as it was. *)
Theorem C1_mutation_protocol :
  forall (toLocaleDateString : string -> string) (now : Z) (o : Entry.op) (e : Entry.t),
    Entry.succeeds o e = true ->
    Entry.lastEdited (Entry.apply toLocaleDateString now o e)
    = Some (JsDate.toISOString now) /\
    Entry.editCount (Entry.apply toLocaleDateString now o e)
    = match o with
      | Entry.Update updates =>
          JsNumber.add (default (Entry.editCount e) (Updates.editCount updates)) 1
      | _ => Entry.editCount e
      end /\
    (forall c : Z, - 2 ^ 53 <= c < 2 ^ 53 -> JsNumber.add c 1 = c + 1) /\
    JsNumber.add (2 ^ 53) 1 = 2 ^ 53.
Proof.
  intros fmt now o e H. split; [| split; [| split]].
  - now apply apply_lastEdited.
  - rewrite apply_editCount. now destruct o.
  - exact add_one_exact.
  - exact add_one_at_limit.
Qed.

Lemma C1_mutation_protocol_witness :
  Entry.lastEdited
    (Entry.apply Samples.isoDay 1700000005000 (Entry.SetRating 4) Samples.entry0)
  = Some "2023-11-14T22:13:25.000Z" /\
  Entry.editCount
    (Entry.apply Samples.isoDay 1700000005000 (Entry.SetRating 4) Samples.entry0)
  = 0.
Proof.
  pose proof (C1_mutation_protocol Samples.isoDay 1700000005000 (Entry.SetRating 4)
                Samples.entry0 eq_refl) as (Hstamp & Hcount & _).
  exact (conj Hstamp Hcount).
Defined.

(** C5, as stated, fails twice. [editCount] is itself one of the fields
    [update] assigns, so partial fields that carry it move the counter by
    more than one. And [lastEdited] is set to what the clock reads, which is
    earlier than the previous value of an entry that was built from stored
    data with a [lastEdited] ahead of the clock. *)
Lemma C5_update_with_editCount :
  Entry.editCount Samples.entry0 = 0 /\
  Entry.editCount
    (Entry.update Samples.isoDay 1700000005000 (Samples.withEditCount 10)
       Samples.entry0) = 11 /\
  Entry.lastEdited Samples.editedLater = Some (JsDate.toISOString 1700000005000) /\
  Entry.lastEdited Samples.editedLater = Some "2023-11-14T22:13:25.000Z" /\
  Entry.lastEdited
    (Entry.update Samples.isoDay 1700000001000 Updates.empty Samples.editedLater)
  = Some "2023-11-14T22:13:21.000Z" /\
  1700000001000 < 1700000005000.
Proof. repeat split. Qed.

(** C5, amended: for every entry and every partial fields, [update] leaves
    [id] and [timestamp] alone and sets [lastEdited] to the clock reading of
    the call, whatever the previous value was. It leaves the edit counter at
    the sum, as the runtime adds numbers, of 1 and the count [c] that is the
    [editCount] of the partial fields or, when they carry none, the
    previous count, also when the partial fields are empty: that is [c + 1]
    as long as [c] lies from -2^53 to 2^53 - 1, and 2^53 again at 2^53. *)
Theorem C5_update_advances :
  forall (toLocaleDateString : string -> string) (now : Z)
         (updates : Updates.t) (e : Entry.t),
    let e' := Entry.update toLocaleDateString now updates e in
    let c := default (Entry.editCount e) (Updates.editCount updates) in
    Entry.id e' = Entry.id e /\
    Entry.timestamp e' = Entry.timestamp e /\
    Entry.lastEdited e' = Some (JsDate.toISOString now) /\
    Entry.editCount e' = JsNumber.add c 1 /\
    (- 2 ^ 53 <= c < 2 ^ 53 -> Entry.editCount e' = c + 1) /\
    (c = 2 ^ 53 -> Entry.editCount e' = 2 ^ 53) /\
    (- 2 ^ 53 <= Entry.editCount e < 2 ^ 53 ->
     Entry.editCount (Entry.update toLocaleDateString now Updates.empty e)
     = Entry.editCount e + 1).
Proof.
  intros fmt now updates e e' c. subst e' c.
  split; [reflexivity |]. split; [reflexivity |]. split; [reflexivity |].
  split; [apply update_editCount |]. split; [| split].
  - intros Hc. rewrite update_editCount. now apply add_one_exact.
  - intros Hc. rewrite update_editCount, Hc. exact add_one_at_limit.
  - intros Hc. rewrite update_editCount. now apply add_one_exact.
Qed.

(** ** The factory *)

(** C9: for every form data, the entry [Entry.create] builds takes its
    [sourceType], [sourceName] and [reflection] from the form data as they
    are and its [author] from the form data or the empty string, and starts
    with no takeaway, no link, no tag, no rating, an edit counter of 0 and no
    [lastEdited]; [metadata] is no property of it nor a key of the object it
    is stored as; and two form data that agree on the four keys give the same
    entry, whatever else they carry. *)
Theorem C9_create_reads_four_fields :
  forall (toLocaleDateString : string -> string) (now : Z) (formData : FormData.t),
    let e := Entry.create toLocaleDateString now formData in
    (Entry.sourceType e = FormData.sourceType formData /\
     Entry.sourceName e = FormData.sourceName formData /\
     Entry.reflection e = FormData.reflection formData /\
     Entry.author e
     = match FormData.author formData with
       | Some a => a
       | None => ""
       end) /\
    (Entry.keyTakeaways e = [] /\ Entry.relatedLinks e = [] /\
     Entry.tags e = [] /\ Entry.rating e = None /\
     Entry.editCount e = 0 /\ Entry.lastEdited e = None /\
     Entry.additionalNotes e = "" /\ Entry.progress e = "") /\
    (Entry.hasOwnProperty "metadata" = false /\
     JsValue.getProp (Data.toValue (Entry.toObject e)) "metadata"
     = Some VUndefined) /\
    (forall formData' : FormData.t,
        FormData.sourceType formData' = FormData.sourceType formData ->
        FormData.sourceName formData' = FormData.sourceName formData ->
        FormData.author formData' = FormData.author formData ->
        FormData.reflection formData' = FormData.reflection formData ->
        Entry.create toLocaleDateString now formData' = e).
Proof.
  intros fmt now formData e. subst e.
  split; [| split; [| split]].
  - repeat split. simpl.
    destruct (FormData.author formData) as [a |]; [| reflexivity].
    simpl. destruct (JsString.truthy a) eqn:Ha; [reflexivity |].
    symmetry. now apply truthy_false.
  - repeat split.
  - split; reflexivity.
  - intros formData' H1 H2 H3 H4. unfold Entry.create.
    now rewrite H1, H2, H3, H4.
Qed.

(** ** Removals that remove nothing *)

(** C10: for every entry, [removeTag] with a tag the entry does not have,
    [removeTakeaway] with an id no takeaway of the entry has and
    [removeRelatedLink] with an id no link of the entry has return the entry
    with [lastEdited] set to the clock reading of the call and every other
    property, the edit counter among them, as it was. *)
Theorem C10_noop_removal_stamps :
  forall (now : Z) (e : Entry.t),
    let stamped :=
      Entry.mk (Entry.id e) (Entry.sourceType e) (Entry.sourceName e)
               (Entry.author e) (Entry.reflection e) (Entry.timestamp e)
               (Some (JsDate.toISOString now))
               (Entry.dateFormatted e) (Entry.editCount e)
               (Entry.additionalNotes e) (Entry.keyTakeaways e)
               (Entry.relatedLinks e) (Entry.tags e) (Entry.rating e)
               (Entry.progress e) in
    (forall tag : string,
        ~ In tag (Entry.tags e) -> Entry.removeTag now tag e = stamped) /\
    (forall takeawayId : Z,
        ~ In takeawayId (map Takeaway.id (Entry.keyTakeaways e)) ->
        Entry.removeTakeaway now takeawayId e = stamped) /\
    (forall linkId : Z,
        ~ In linkId (map Link.id (Entry.relatedLinks e)) ->
        Entry.removeRelatedLink now linkId e = stamped).
Proof.
  intros now e stamped. subst stamped. repeat split.
  - intros tag Hnot. unfold Entry.removeTag, Entry.set_tags, Entry.set_lastEdited.
    simpl. rewrite filter_all; [reflexivity |].
    intros x Hx. apply negb_true_iff, String.eqb_neq. intros ->. now apply Hnot.
  - intros tid Hnot.
    unfold Entry.removeTakeaway, Entry.set_keyTakeaways, Entry.set_lastEdited.
    simpl. rewrite filter_all; [reflexivity |].
    intros x Hx. apply negb_true_iff, Z.eqb_neq. intros Heq. apply Hnot.
    rewrite <- Heq. now apply in_map.
  - intros lid Hnot.
    unfold Entry.removeRelatedLink, Entry.set_relatedLinks, Entry.set_lastEdited.
    simpl. rewrite filter_all; [reflexivity |].
    intros x Hx. apply negb_true_iff, Z.eqb_neq. intros Heq. apply Hnot.
    rewrite <- Heq. now apply in_map.
Qed.

(** ** The range of the rating *)





(** ** Storing an entry and building it again *)






Lemma append_not_empty (a b : string) : b <> "" -> a +:+ b <> "".
Proof.
  intros Hb. destruct a; simpl; [exact Hb | discriminate].
Qed.

Lemma toISOString_truthy (ms : Z) : JsString.truthy (JsDate.toISOString ms) = true.
Proof.
  apply truthy_true. unfold JsDate.toISOString.
  destruct (JsDate.civil _) as [[y m] d].
  repeat apply append_not_empty. discriminate.
Qed.

Section Storable.

Variable toLocaleDateString : string -> string.
Hypothesis formatted : forall ts, JsString.truthy (toLocaleDateString ts) = true.





End Storable.



(** ** Tags *)

Lemma addTag_tags now tag e :
  Entry.tags (Entry.addTag now tag e) = Entry.tags e \/
  (~ In (JsString.toLowerCase (JsString.trim tag)) (Entry.tags e) /\
   Entry.tags (Entry.addTag now tag e)
   = (Entry.tags e ++ [JsString.toLowerCase (JsString.trim tag)])%list).
Proof.
  unfold Entry.addTag.
  destruct (JsString.truthy tag && JsString.truthy (JsString.trim tag)) eqn:Hg;
    simpl; [| now left].
  destruct (JsString.includes (Entry.tags e)
              (JsString.toLowerCase (JsString.trim tag))) eqn:Hi;
    simpl; [now left |].
  right. split; [| reflexivity]. now apply includes_false.
Qed.

Lemma addTag_lowered now tag e :
  tagsLowered (Entry.tags e) -> tagsLowered (Entry.tags (Entry.addTag now tag e)).
Proof.
  intros [Hlow Hnd].
  destruct (addTag_tags now tag e) as [-> | [Hnot ->]]; [now split |].
  split.
  - apply Forall_app. split; [assumption |].
    constructor; [apply toLowerCase_idem | constructor].
  - apply NoDup_app. split; [assumption |]. split.
    + intros x Hx Hin. apply list_elem_of_In in Hx.
      apply list_elem_of_In in Hin. destruct Hin as [<- | []]. now apply Hnot.
    + apply NoDup_singleton.
Qed.

Lemma addTags_lowered calls e :
  tagsLowered (Entry.tags e) -> tagsLowered (Entry.tags (addTags calls e)).
Proof.
  revert e. induction calls as [| [now tag] calls IH]; intros e He; [exact He |].
  simpl. apply IH. now apply addTag_lowered.
Qed.

(** C7, as stated, fails: an entry built from stored data may hold a tag in
    upper case; [addTag] compares the lowered new tag with the tags as they
    are stored, so the entry ends with two tags that are equal up to case. *)
Lemma C7_legacy_tag_is_doubled :
  Entry.tags Samples.legacy = ["AI"] /\
  Entry.tags (addTags [(1700000005000, "ai")] Samples.legacy) = ["AI"; "ai"] /\
  JsString.toLowerCase "AI" = JsString.toLowerCase "ai".
Proof. repeat split. Qed.

(** C7, amended: for every entry whose tags do not contain "ai",
    [addTag("AI")] then [addTag("ai")] adds exactly one tag, "ai", at the
    end; and for every entry whose tags are in lower case and pairwise
    distinct (an entry made by [Entry.create] has none), after any sequence
    of [addTag] calls the tags are still in lower case and pairwise
    distinct, hence no two of them are equal up to case. *)
Theorem C7_addTag_case_insensitive :
  forall e : Entry.t,
    (~ In "ai" (Entry.tags e) ->
     forall now1 now2 : Z,
       Entry.tags (Entry.addTag now2 "ai" (Entry.addTag now1 "AI" e))
       = (Entry.tags e ++ ["ai"])%list) /\
    (tagsLowered (Entry.tags e) ->
     forall calls : list (Z * string),
       tagsLowered (Entry.tags (addTags calls e)) /\
       forall (i j : nat) (a b : string),
         Entry.tags (addTags calls e) !! i = Some a ->
         Entry.tags (addTags calls e) !! j = Some b ->
         JsString.toLowerCase a = JsString.toLowerCase b ->
         i = j) /\
    (forall (toLocaleDateString : string -> string) now formData,
        tagsLowered (Entry.tags (Entry.create toLocaleDateString now formData))).
Proof.
  intros e. split; [| split].
  - intros Hnot now1 now2.
    assert (H1 : Entry.tags (Entry.addTag now1 "AI" e)
                 = (Entry.tags e ++ ["ai"])%list).
    { unfold Entry.addTag. change (JsString.toLowerCase (JsString.trim "AI")) with "ai".
      apply includes_false in Hnot. now rewrite Hnot. }
    unfold Entry.addTag at 1.
    change (JsString.toLowerCase (JsString.trim "ai")) with "ai".
    assert (H2 : JsString.includes (Entry.tags (Entry.addTag now1 "AI" e)) "ai" = true).
    { apply includes_true. rewrite H1. apply in_or_app. right. now left. }
    rewrite H2. simpl. exact H1.
  - intros He calls.
    pose proof (addTags_lowered calls e He) as [Hlow Hnd]. split; [now split |].
    intros i j a b Hi Hj Hab.
    assert (Ha : JsString.toLowerCase a = a).
    { eapply (proj1 (Forall_forall _ _) Hlow), list_elem_of_lookup_2, Hi. }
    assert (Hb : JsString.toLowerCase b = b).
    { eapply (proj1 (Forall_forall _ _) Hlow), list_elem_of_lookup_2, Hj. }
    rewrite Ha, Hb in Hab. subst b.
    eapply NoDup_lookup; eassumption.
  - intros fmt now formData. split; simpl; constructor.
Qed.

Lemma C7_addTag_case_insensitive_witness :
  Entry.tags
    (addTags [(1700000001000, "AI"); (1700000002000, "ai");
              (1700000003000, " Focus "); (1700000004000, "FOCUS")]
       Samples.entry0)
  = ["ai"; "focus"] /\
  tagsLowered
    (Entry.tags
       (addTags [(1700000001000, "AI"); (1700000002000, "ai");
                 (1700000003000, " Focus "); (1700000004000, "FOCUS")]
          Samples.entry0)).
Proof.
  split; [reflexivity |].
  refine (proj1 (proj1 (proj2 (C7_addTag_case_insensitive Samples.entry0)) _ _)).
  split; constructor.
Defined.

(** ** Updating through the data service *)

Lemma findIndex_lookup (id : Z) (l : list Entry.t) (i : nat) :
  DataService.findIndex id l = Some i ->
  exists entry, l !! i = Some entry /\ Entry.id entry = id.
Proof.
  revert i. induction l as [| a l IH]; simpl; intros i H; [discriminate |].
  destruct (Entry.id a =? id) eqn:Ha.
  - injection H as <-. exists a. split; [reflexivity | now apply Z.eqb_eq].
  - destruct (DataService.findIndex id l) as [k |]; [| discriminate].
    injection H as <-. destruct (IH k eq_refl) as (entry & Hl & Hid).
    exists entry. now split.
Qed.

(** Replacing the entry found by one of the same id leaves it where it is
    found. *)
Lemma findIndex_insert (id : Z) (l : list Entry.t) (i : nat) (entry' : Entry.t) :
  DataService.findIndex id l = Some i ->
  Entry.id entry' = id ->
  DataService.findIndex id (<[i := entry']> l) = Some i.
Proof.
  revert i. induction l as [| a l IH]; simpl; intros i H Hid; [discriminate |].
  destruct (Entry.id a =? id) eqn:Ha.
  - injection H as <-. simpl. subst id. now rewrite Z.eqb_refl.
  - destruct (DataService.findIndex id l) as [k |] eqn:Hk; [| discriminate].
    injection H as <-. simpl. rewrite Ha. now rewrite (IH k eq_refl Hid).
Qed.

Section UpdateEntry.

Variable toLocaleDateString : string -> string.
Variable JSON_parse : string -> option value.
Variable JSON_stringify : value -> string.

Let updateEntry := DataService.updateEntry toLocaleDateString JSON_parse JSON_stringify.

Lemma updateEntry_failure now id updates ds :
  DataService.success (fst (updateEntry now id updates ds)) = false ->
  DataService.storage (snd (updateEntry now id updates ds)) = DataService.storage ds /\
  DataService.delivered (snd (updateEntry now id updates ds)) = DataService.delivered ds /\
  DataService.observers (snd (updateEntry now id updates ds)) = DataService.observers ds.
Proof.
  unfold updateEntry, DataService.updateEntry.
  destruct (DataService.findIndex id (DataService.entries ds)) as [i |]; [| easy].
  destruct (DataService.entries ds !! i) as [entry |]; [| easy].
  destruct (Entry.isValid _); simpl; [discriminate | easy].
Qed.

Lemma updateEntry_invalid now id updates ds i entry :
  DataService.findIndex id (DataService.entries ds) = Some i ->
  DataService.entries ds !! i = Some entry ->
  Entry.isValid (Entry.validate (Entry.update toLocaleDateString now updates entry))
  = false ->
  updateEntry now id updates ds
  = (DataService.Failure
       (JsString.join ", "
          (Entry.errors
             (Entry.validate (Entry.update toLocaleDateString now updates entry)))),
     DataService.set_entries
       (<[i := Entry.update toLocaleDateString now updates entry]>
          (DataService.entries ds)) ds).
Proof.
  intros Hi He Hv. unfold updateEntry, DataService.updateEntry.
  now rewrite Hi, He, Hv.
Qed.

Lemma updateEntry_valid now id updates ds i entry :
  DataService.findIndex id (DataService.entries ds) = Some i ->
  DataService.entries ds !! i = Some entry ->
  Entry.isValid (Entry.validate (Entry.update toLocaleDateString now updates entry))
  = true ->
  updateEntry now id updates ds
  = (DataService.Success (Entry.update toLocaleDateString now updates entry),
     DataService.notifyObservers "entry_updated"
       (Some (Entry.update toLocaleDateString now updates entry))
       (DataService.saveEntries JSON_parse JSON_stringify now
          (DataService.set_entries
             (<[i := Entry.update toLocaleDateString now updates entry]>
                (DataService.entries ds)) ds))).
Proof.
  intros Hi He Hv. unfold updateEntry, DataService.updateEntry.
  now rewrite Hi, He, Hv.
Qed.

Lemma getEntryById_updated now id updates ds i entry :
  DataService.findIndex id (DataService.entries ds) = Some i ->
  DataService.entries ds !! i = Some entry ->
  DataService.getEntryById id
    (DataService.set_entries
       (<[i := Entry.update toLocaleDateString now updates entry]>
          (DataService.entries ds)) ds)
  = Some (Entry.update toLocaleDateString now updates entry).
Proof.
  intros Hi He. unfold DataService.getEntryById. simpl.
  destruct (findIndex_lookup _ _ _ Hi) as (entry0 & He0 & Hid).
  rewrite He in He0. injection He0 as <-.
  rewrite (findIndex_insert id _ i _ Hi) by (now rewrite update_id).
  simpl. apply list_lookup_insert_eq. eapply lookup_lt_Some, He.
Qed.

End UpdateEntry.

(** C2: for every id the data service holds an entry for and every partial
    fields, when the updated entry fails validation [updateEntry] returns the
    failure that joins the validation errors, the collection holds the
    updated entry (nothing is rolled back), and the store, the subscribed
    callbacks and what they were called with are as before the call: nothing
    is saved and nobody is notified. Whenever [updateEntry] returns a failure
    the store and the deliveries are as before; and when the updated entry
    passes validation the collection is saved and each callback is called
    once with [entry_updated] and the updated entry. *)
Theorem C2_update_failure_keeps_mutation :
  forall (toLocaleDateString : string -> string)
         (JSON_parse : string -> option value) (JSON_stringify : value -> string)
         (now id : Z) (updates : Updates.t) (ds : DataService.t),
    let out :=
      DataService.updateEntry toLocaleDateString JSON_parse JSON_stringify
        now id updates ds in
    (forall entry : Entry.t,
        DataService.getEntryById id ds = Some entry ->
        Entry.isValid
          (Entry.validate (Entry.update toLocaleDateString now updates entry))
        = false ->
        fst out
        = DataService.Failure
            (JsString.join ", "
               (Entry.errors
                  (Entry.validate
                     (Entry.update toLocaleDateString now updates entry)))) /\
        DataService.getEntryById id (snd out)
        = Some (Entry.update toLocaleDateString now updates entry) /\
        length (DataService.entries (snd out)) = length (DataService.entries ds) /\
        DataService.storage (snd out) = DataService.storage ds /\
        DataService.delivered (snd out) = DataService.delivered ds /\
        DataService.observers (snd out) = DataService.observers ds) /\
    (DataService.success (fst out) = false ->
     DataService.storage (snd out) = DataService.storage ds /\
     DataService.delivered (snd out) = DataService.delivered ds) /\
    (forall entry : Entry.t,
        DataService.getEntryById id ds = Some entry ->
        Entry.isValid
          (Entry.validate (Entry.update toLocaleDateString now updates entry))
        = true ->
        fst out
        = DataService.Success (Entry.update toLocaleDateString now updates entry) /\
        DataService.storage (snd out)
        = snd (StorageService.saveEntries JSON_parse JSON_stringify now
                 (VArr (map (fun entry => Data.toValue (Entry.toObject entry))
                            (DataService.entries (snd out))))
                 (DataService.storage ds)) /\
        DataService.delivered (snd out)
        = (DataService.delivered ds
           ++ map (fun callback =>
                     (callback,
                      DataService.mkEvent "entry_updated"
                        (Some (Entry.update toLocaleDateString now updates entry))))
                  (DataService.observers ds))%list).
Proof.
  intros fmt parse stringify now id updates ds out. subst out.
  split; [| split].
  - intros entry Hget Hv.
    unfold DataService.getEntryById in Hget.
    destruct (DataService.findIndex id (DataService.entries ds)) as [i |] eqn:Hi;
      [| discriminate].
    simpl in Hget.
    rewrite (updateEntry_invalid fmt parse stringify now id updates ds i entry Hi Hget Hv).
    simpl. repeat split.
    + now apply getEntryById_updated.
    + apply length_insert.
  - intros Hf.
    destruct (updateEntry_failure fmt parse stringify now id updates ds Hf)
      as (Hs & Hd & _).
    now split.
  - intros entry Hget Hv.
    unfold DataService.getEntryById in Hget.
    destruct (DataService.findIndex id (DataService.entries ds)) as [i |] eqn:Hi;
      [| discriminate].
    simpl in Hget.
    rewrite (updateEntry_valid fmt parse stringify now id updates ds i entry Hi Hget Hv).
    simpl. repeat split.
Qed.

Lemma C2_update_failure_keeps_mutation_witness :
  DataService.getEntryById 1700000000000 Samples.service = Some Samples.entry0 /\
  fst (DataService.updateEntry Samples.isoDay Samples.parse Samples.stringify
         1700000005000 1700000000000 Samples.blankName Samples.service)
  = DataService.Failure "Source name is required" /\
  (Entry.sourceName <$>
   DataService.getEntryById 1700000000000
     (snd (DataService.updateEntry Samples.isoDay Samples.parse Samples.stringify
             1700000005000 1700000000000 Samples.blankName Samples.service)))
  = Some (Some "   ") /\
  DataService.storage
    (snd (DataService.updateEntry Samples.isoDay Samples.parse Samples.stringify
            1700000005000 1700000000000 Samples.blankName Samples.service))
  = DataService.storage Samples.service /\
  DataService.delivered
    (snd (DataService.updateEntry Samples.isoDay Samples.parse Samples.stringify
            1700000005000 1700000000000 Samples.blankName Samples.service))
  = [].
Proof.
  pose proof
    (proj1 (C2_update_failure_keeps_mutation Samples.isoDay Samples.parse
              Samples.stringify 1700000005000 1700000000000 Samples.blankName
              Samples.service)
       Samples.entry0 eq_refl eq_refl) as (Hr & Hg & _ & Hs & Hd & _).
  split; [reflexivity |].
  split; [exact Hr |].
  split; [now rewrite Hg |].
  split; [exact Hs | exact Hd].
Defined.

(** ** Reading the store *)

(** The probe on a usable store: it answers yes and leaves every key but its
    own as it was. *)
Lemma isStorageAvailable_usable (ls : LocalStorage.t) :
  LocalStorage.usable ls = true ->
  StorageService.isStorageAvailable ls = (true, probed ls).
Proof.
  intros H. unfold probed, StorageService.isStorageAvailable,
    LocalStorage.setItem, LocalStorage.removeItem.
  rewrite H. simpl. now rewrite delete_insert_eq.
Qed.

Lemma isStorageAvailable_unusable (ls : LocalStorage.t) :
  LocalStorage.usable ls = false ->
  StorageService.isStorageAvailable ls = (false, ls).
Proof.
  intros H. unfold StorageService.isStorageAvailable, LocalStorage.setItem.
  now rewrite H.
Qed.

Lemma probed_usable (ls : LocalStorage.t) : LocalStorage.usable (probed ls) = true.
Proof. reflexivity. Qed.

Lemma probed_probed (ls : LocalStorage.t) : probed (probed ls) = probed ls.
Proof. unfold probed. simpl. now rewrite delete_delete_eq. Qed.

Lemma getItem_probed (k : string) (ls : LocalStorage.t) :
  k <> "__storage_test__" ->
  LocalStorage.getItem k (probed ls) = Some (LocalStorage.items ls !! k).
Proof.
  intros Hk. unfold LocalStorage.getItem, probed. simpl.
  now rewrite lookup_delete_ne.
Qed.

Section ReadStore.

Variable JSON_parse : string -> option value.
Variable ToString : value -> string.

Let getEntries := StorageService.getEntries JSON_parse ToString.
Let restoreFromBackup := StorageService.restoreFromBackup JSON_parse ToString.

Lemma restoreFromBackup_usable (ls : LocalStorage.t) :
  LocalStorage.usable ls = true ->
  restoreFromBackup ls = (default (VArr []) (recovered JSON_parse ToString ls), probed ls).
Proof.
  intros H. unfold restoreFromBackup, StorageService.restoreFromBackup.
  rewrite (isStorageAvailable_usable ls H). simpl negb. cbv iota.
  rewrite getItem_probed by discriminate. unfold recovered. simpl.
  destruct (LocalStorage.items ls !! StorageService.BACKUP_KEY) as [b |];
    [| reflexivity].
  destruct (JsString.truthy b); [| reflexivity].
  destruct (JSON_parse b) as [backup |]; [| reflexivity]. simpl.
  destruct (JsValue.getProp backup "data") as [data |]; [| reflexivity]. simpl.
  now destruct (StorageService.JSON_parse_value JSON_parse ToString data).
Qed.

Lemma getEntries_unusable (ls : LocalStorage.t) :
  LocalStorage.usable ls = false -> getEntries ls = (VArr [], ls).
Proof.
  intros H. unfold getEntries, StorageService.getEntries.
  now rewrite (isStorageAvailable_unusable ls H).
Qed.

Lemma getEntries_usable (ls : LocalStorage.t) :
  LocalStorage.usable ls = true ->
  fst (getEntries ls)
  = match LocalStorage.items ls !! StorageService.STORAGE_KEY with
    | Some p =>
        if JsString.truthy p then
          match JSON_parse p with
          | Some entries => entries
          | None => default (VArr []) (recovered JSON_parse ToString (probed ls))
          end
        else VArr []
    | None => VArr []
    end.
Proof.
  intros H. unfold getEntries, StorageService.getEntries.
  rewrite (isStorageAvailable_usable ls H). simpl negb. cbv iota.
  rewrite getItem_probed by discriminate. simpl.
  destruct (LocalStorage.items ls !! StorageService.STORAGE_KEY) as [p |];
    [| reflexivity].
  destruct (JsString.truthy p); [| reflexivity].
  destruct (JSON_parse p) as [entries |]; [reflexivity |].
  fold restoreFromBackup.
  now rewrite (restoreFromBackup_usable (probed ls) (probed_usable ls)).
Qed.

Lemma recovered_probed (ls : LocalStorage.t) :
  recovered JSON_parse ToString (probed ls) = recovered JSON_parse ToString ls.
Proof.
  unfold recovered, probed. simpl. now rewrite lookup_delete_ne by discriminate.
Qed.

End ReadStore.

(** C6, as stated, fails: the empty string does not parse, and a primary
    slot that holds it reads as an empty store ([data ? JSON.parse(data) :
    []]); [getEntries] then returns the empty collection and does not look
    at the backup, good as it is. *)
Lemma C6_empty_primary_skips_backup :
  LocalStorage.items Samples.emptied !! StorageService.STORAGE_KEY = Some "" /\
  Samples.parse "" = None /\
  recovered Samples.parse Samples.toString Samples.emptied
  = Some Samples.storedEntries /\
  fst (StorageService.getEntries Samples.parse Samples.toString Samples.emptied)
  = VArr [].
Proof. repeat split. Qed.

(** C6, amended: for every store that can be used, whose primary slot holds
    a text that is not empty and does not parse, and whose backup slot holds
    a text that parses to an object with a string [data] that parses in
    turn, [getEntries] returns what [data] parses to. It returns the empty
    collection when the store cannot be used and when the primary slot is
    missing or holds the empty string, whatever the backup slot holds; and
    with a primary text that is not empty and does not parse, whatever it
    returns is either the empty collection or what the [data] of a backup
    that parses holds. *)
Theorem C6_read_recovers_from_backup :
  forall (JSON_parse : string -> option value) (ToString : value -> string)
         (ls : LocalStorage.t),
    let read := fst (StorageService.getEntries JSON_parse ToString ls) in
    (forall (p b d : string) (backup entries : value),
        LocalStorage.usable ls = true ->
        LocalStorage.items ls !! StorageService.STORAGE_KEY = Some p ->
        p <> "" ->
        JSON_parse p = None ->
        LocalStorage.items ls !! StorageService.BACKUP_KEY = Some b ->
        b <> "" ->
        JSON_parse b = Some backup ->
        JsValue.getProp backup "data" = Some (VStr d) ->
        JSON_parse d = Some entries ->
        read = entries) /\
    (LocalStorage.usable ls = false -> read = VArr []) /\
    (LocalStorage.usable ls = true ->
     LocalStorage.items ls !! StorageService.STORAGE_KEY = None \/
     LocalStorage.items ls !! StorageService.STORAGE_KEY = Some "" ->
     read = VArr []) /\
    (forall p : string,
        LocalStorage.usable ls = true ->
        LocalStorage.items ls !! StorageService.STORAGE_KEY = Some p ->
        p <> "" ->
        JSON_parse p = None ->
        read = VArr [] \/
        exists (b : string) (backup data : value),
          LocalStorage.items ls !! StorageService.BACKUP_KEY = Some b /\
          b <> "" /\
          JSON_parse b = Some backup /\
          JsValue.getProp backup "data" = Some data /\
          StorageService.JSON_parse_value JSON_parse ToString data = Some read).
Proof.
  intros parse toStr ls read. subst read.
  split; [| split; [| split]].
  - intros p b d backup entries Hu Hp Hpne Hpp Hb Hbne Hbp Hd Hdp.
    rewrite (getEntries_usable parse toStr ls Hu), Hp.
    apply truthy_true in Hpne, Hbne. rewrite Hpne, Hpp, recovered_probed.
    unfold recovered. rewrite Hb, Hbne, Hbp. simpl. rewrite Hd. simpl.
    now rewrite Hdp.
  - intros Hu. now rewrite (getEntries_unusable parse toStr ls Hu).
  - intros Hu [Hp | Hp]; rewrite (getEntries_usable parse toStr ls Hu), Hp;
      reflexivity.
  - intros p Hu Hp Hpne Hpp.
    rewrite (getEntries_usable parse toStr ls Hu), Hp.
    apply truthy_true in Hpne. rewrite Hpne, Hpp, recovered_probed.
    unfold recovered.
    destruct (LocalStorage.items ls !! StorageService.BACKUP_KEY) as [b |];
      [| now left].
    destruct (JsString.truthy b) eqn:Hb; [| now left].
    destruct (parse b) as [backup |] eqn:Hbp; [| now left]. simpl.
    destruct (JsValue.getProp backup "data") as [data |] eqn:Hd; [| now left].
    simpl.
    destruct (StorageService.JSON_parse_value parse toStr data) as [v |] eqn:Hv;
      [| now left].
    right. exists b, backup, data. simpl.
    repeat split; try assumption. now apply truthy_true.
Qed.

Lemma C6_read_recovers_from_backup_witness :
  fst (StorageService.getEntries Samples.parse Samples.toString Samples.corrupted)
  = Samples.storedEntries.
Proof.
  refine (proj1 (C6_read_recovers_from_backup Samples.parse Samples.toString
                   Samples.corrupted)
            Samples.truncated (Samples.stringify Samples.backupOfStored)
            (Samples.stringify Samples.storedEntries)
            Samples.backupOfStored Samples.storedEntries _ _ _ _ _ _ _ _ _);
    try reflexivity; try discriminate.
Defined.

(** ** The JSON export *)

Lemma insertSorted_length (Date_parse : string -> option Z) sortBy a l :
  length (DataService.insertSorted Date_parse sortBy a l) = S (length l).
Proof.
  induction l as [| b l IH]; simpl; [reflexivity |].
  destruct (0 <? _); simpl; [now rewrite IH | reflexivity].
Qed.

Lemma insertSorted_permutation (Date_parse : string -> option Z) sortBy a l :
  DataService.insertSorted Date_parse sortBy a l ≡ₚ a :: l.
Proof.
  induction l as [| b l IH]; simpl; [reflexivity |].
  destruct (0 <? _); [| reflexivity].
  rewrite IH. apply Permutation_swap.
Qed.

(** [getAllEntries] returns the entries of the service, in some order. *)
Lemma getAllEntries_permutation (Date_parse : string -> option Z) sortBy ds :
  DataService.getAllEntries Date_parse sortBy ds ≡ₚ DataService.entries ds.
Proof.
  unfold DataService.getAllEntries.
  induction (DataService.entries ds) as [| a l IH]; simpl; [reflexivity |].
  now rewrite insertSorted_permutation, IH.
Qed.

(** [getAllEntries] returns as many entries as the service holds. *)
Lemma getAllEntries_length (Date_parse : string -> option Z) sortBy ds :
  length (DataService.getAllEntries Date_parse sortBy ds)
  = length (DataService.entries ds).
Proof.
  unfold DataService.getAllEntries.
  induction (DataService.entries ds) as [| a l IH]; simpl; [reflexivity |].
  now rewrite insertSorted_length, IH.
Qed.

(** C8, as stated, fails: the export document carries the clock reading of
    the call, so two exports of the same collection a minute apart differ in
    their metadata; and each export hands a file to the browser. *)
Lemma C8_export_date_differs :
  metadataOf (ExportService.exportData 1700000000000 [Samples.entry0]) "exportDate"
  = Some (VStr "2023-11-14T22:13:20.000Z") /\
  metadataOf (ExportService.exportData 1700000060000 [Samples.entry0]) "exportDate"
  = Some (VStr "2023-11-14T22:14:20.000Z") /\
  length (snd (ExportService.exportAsJSON (fun _ => None) Samples.stringify
                 1700000000000 Samples.service [])) = 1%nat.
Proof. repeat split. Qed.

(** C8, amended: the export document is a function of the entry collection
    of the data service and of the clock reading of the call. Two calls on
    the same collection produce the same [entries] and the same [version],
    [totalEntries] and [appName], indeed the same metadata under every key
    but [exportDate], which is the time of each call; at the same clock
    reading the two documents are identical. The call leaves the data service
    as it is and has one effect: the document, printed, is handed to the
    browser as one more download. *)
Theorem C8_export_document :
  forall (Date_parse : string -> option Z) (JSON_stringify_indented : value -> string)
         (now1 now2 : Z) (ds ds' : DataService.t) (downloads : list ExportService.download),
    let doc := fun now (ds : DataService.t) =>
      ExportService.exportData now (DataService.getAllEntries Date_parse "created" ds) in
    JsValue.getProp (doc now1 ds) "entries" = JsValue.getProp (doc now2 ds) "entries" /\
    (forall k : string,
        k <> "exportDate" ->
        metadataOf (doc now1 ds) k = metadataOf (doc now2 ds) k) /\
    metadataOf (doc now1 ds) "exportDate" = Some (VStr (JsDate.toISOString now1)) /\
    metadataOf (doc now1 ds) "totalEntries"
    = Some (VNum (Z.of_nat (length (DataService.entries ds)))) /\
    (DataService.entries ds' = DataService.entries ds -> doc now1 ds' = doc now1 ds) /\
    ExportService.exportAsJSON Date_parse JSON_stringify_indented now1 ds downloads
    = (true,
       (downloads
        ++ [ExportService.mkDownload
              (JSON_stringify_indented (doc now1 ds))
              ("reading-journal-" +:+ ExportService.getDateString now1 +:+ ".json")
              "application/json"])%list).
Proof.
  intros Date_parse stringify now1 now2 ds ds' downloads doc. subst doc.
  split; [reflexivity |]. split; [| split; [reflexivity | split; [| split]]].
  - intros k Hk. unfold metadataOf, ExportService.exportData. simpl.
    apply String.eqb_neq in Hk. now rewrite Hk.
  - unfold metadataOf, ExportService.exportData. simpl. do 3 f_equal.
    apply getAllEntries_length.
  - intros He. unfold DataService.getAllEntries. now rewrite He.
  - reflexivity.
Qed.

(** ** Validation of an entry *)

Lemma trimStart_empty (s : string) :
  JsString.trimStart s = "" <->
  forall c, In c (list_ascii_of_string s) -> JsString.isWhiteSpace c = true.
Proof.
  induction s as [| a s IH]; simpl.
  - split; [intros _ c [] | reflexivity].
  - destruct (JsString.isWhiteSpace a) eqn:Ha.
    + rewrite IH. split.
      * intros H c [<- | Hc]; [exact Ha | now apply H].
      * intros H c Hc. apply H. now right.
    + split; [discriminate |]. intros H. specialize (H a (or_introl eq_refl)).
      congruence.
Qed.

Lemma trimEnd_empty (s : string) :
  JsString.trimEnd s = "" <->
  forall c, In c (list_ascii_of_string s) -> JsString.isWhiteSpace c = true.
Proof.
  induction s as [| a s IH]; simpl.
  - split; [intros _ c [] | reflexivity].
  - destruct (JsString.trimEnd s) as [| b r] eqn:Hs.
    + destruct (JsString.isWhiteSpace a) eqn:Ha.
      * split; [| reflexivity]. intros _ c [<- | Hc]; [exact Ha |].
        now apply (proj1 IH eq_refl).
      * split; [discriminate |]. intros H.
        specialize (H a (or_introl eq_refl)). congruence.
    + split; [discriminate |]. intros H.
      assert (Hall : forall c, In c (list_ascii_of_string s) ->
                               JsString.isWhiteSpace c = true).
      { intros c Hc. apply H. now right. }
      apply IH in Hall. discriminate.
Qed.

Lemma trimStart_head (s : string) :
  match JsString.trimStart s with
  | EmptyString => True
  | String c _ => JsString.isWhiteSpace c = false
  end.
Proof.
  induction s as [| a s IH]; simpl; [exact I |].
  destruct (JsString.isWhiteSpace a) eqn:Ha; [exact IH | exact Ha].
Qed.

(** [s.trim() === ''] holds of the strings made of white space alone. *)
Lemma trim_empty (s : string) :
  JsString.trim s = "" <->
  forall c, In c (list_ascii_of_string s) -> JsString.isWhiteSpace c = true.
Proof.
  unfold JsString.trim. rewrite <- trimStart_empty. split.
  - intros H. pose proof (proj1 (trimEnd_empty _) H) as Hall.
    pose proof (trimStart_head s) as Hh.
    destruct (JsString.trimStart s) as [| c r]; [reflexivity |].
    rewrite (Hall c (or_introl eq_refl)) in Hh. discriminate.
  - intros ->. reflexivity.
Qed.

Lemma forallb_counterexample {A : Type} (p : A -> bool) (l : list A) :
  forallb p l = false -> exists x, In x l /\ p x = false.
Proof.
  induction l as [| a l IH]; simpl; [discriminate |].
  destruct (p a) eqn:Ha; simpl.
  - intros H. destruct (IH H) as (x & Hx & Hp). exists x. split; [now right | exact Hp].
  - intros _. exists a. split; [now left | exact Ha].
Qed.

Lemma allChars_In (p : ascii -> bool) (s : string) (c : ascii) :
  allChars p s = true -> In c (list_ascii_of_string s) -> p c = true.
Proof.
  induction s as [| a s IH]; simpl; [tauto |].
  intros H [<- | Hc]; apply andb_true_iff in H as [Ha Hs]; [exact Ha | now apply IH].
Qed.

(** The white space of the Basic Latin block. *)
Lemma asciiWhiteSpace (c : ascii) :
  isAscii c = true ->
  (JsString.isWhiteSpace c = true <-> In (nat_of_ascii c) [9; 10; 11; 12; 13; 32]%nat).
Proof.
  destruct c as [[] [] [] [] [] [] [] []]; vm_compute; intros H; split; intros H';
    try congruence; try tauto; try reflexivity;
    repeat (destruct H' as [H' | H']; [try discriminate H' |]); try contradiction.
Qed.

Lemma trim_empty_ascii (s : string) :
  allChars isAscii s = true ->
  (JsString.trim s = "" <->
   forall c, In c (list_ascii_of_string s) ->
             In (nat_of_ascii c) [9; 10; 11; 12; 13; 32]%nat).
Proof.
  intros Hs. rewrite trim_empty. split; intros H c Hc.
  - apply asciiWhiteSpace; [now apply (allChars_In isAscii s) | now apply H].
  - apply asciiWhiteSpace; [now apply (allChars_In isAscii s) | now apply H].
Qed.

Lemma blank_false (o : option string) : Entry.blank o = false <-> filled o.
Proof.
  unfold Entry.blank, filled. destruct o as [s |].
  - rewrite orb_false_iff, negb_false_iff. split.
    + intros [_ Ht]. exists s. split; [reflexivity | now apply String.eqb_neq].
    + intros (s' & [= <-] & Ht).
      split; [| now apply String.eqb_neq].
      apply truthy_true. intros ->. now apply Ht.
  - split; [discriminate | intros (s & [=] & _)].
Qed.

(** X1: an entry is valid exactly when its source type, its source name and
    its reflection are each a string that [trim] does not leave empty. The
    errors are the messages of the properties that are not, each property
    with its own message, in the order source type, source name,
    reflection; there is none exactly when the entry is valid. Of a string
    of Basic Latin characters [trim] leaves nothing exactly when each of
    its characters is TAB, LF, VT, FF, CR or SPACE. *)
Theorem validate_valid_iff :
  forall e : Entry.t,
    (Entry.isValid (Entry.validate e) = true <->
     filled (Entry.sourceType e) /\ filled (Entry.sourceName e)
     /\ filled (Entry.reflection e)) /\
    (Entry.isValid (Entry.validate e) = true <-> Entry.errors (Entry.validate e) = []) /\
    sublist (Entry.errors (Entry.validate e))
            ["Source type is required"; "Source name is required";
             "Reflection is required"] /\
    (In "Source type is required" (Entry.errors (Entry.validate e)) <->
     ~ filled (Entry.sourceType e)) /\
    (In "Source name is required" (Entry.errors (Entry.validate e)) <->
     ~ filled (Entry.sourceName e)) /\
    (In "Reflection is required" (Entry.errors (Entry.validate e)) <->
     ~ filled (Entry.reflection e)) /\
    (forall s : string,
        allChars isAscii s = true ->
        (JsString.trim s = "" <->
         forall c, In c (list_ascii_of_string s) ->
                   In (nat_of_ascii c) [9; 10; 11; 12; 13; 32]%nat)).
Proof.
  intros e.
  assert (Hfields :
    (Entry.isValid (Entry.validate e) = true <->
     filled (Entry.sourceType e) /\ filled (Entry.sourceName e)
     /\ filled (Entry.reflection e)) /\
    (Entry.isValid (Entry.validate e) = true <-> Entry.errors (Entry.validate e) = []) /\
    sublist (Entry.errors (Entry.validate e))
            ["Source type is required"; "Source name is required";
             "Reflection is required"] /\
    (In "Source type is required" (Entry.errors (Entry.validate e)) <->
     ~ filled (Entry.sourceType e)) /\
    (In "Source name is required" (Entry.errors (Entry.validate e)) <->
     ~ filled (Entry.sourceName e)) /\
    (In "Reflection is required" (Entry.errors (Entry.validate e)) <->
     ~ filled (Entry.reflection e))).
  { rewrite <- !blank_false. unfold Entry.validate. simpl.
    destruct (Entry.blank (Entry.sourceType e)), (Entry.blank (Entry.sourceName e)),
      (Entry.blank (Entry.reflection e)); simpl;
      (split; [| split; [| split; [| split; [| split]]]]);
      try (repeat first [apply sublist_nil | apply sublist_skip | apply sublist_cons]);
      split; intros H; try discriminate; try reflexivity; try tauto;
      try (destruct H as (? & ? & ?); discriminate);
      try (intros ?; discriminate);
      try (exfalso; apply H; reflexivity);
      try (simpl in H; intuition discriminate). }
  destruct Hfields as (H1 & H2 & H3 & H4 & H5 & H6).
  split; [exact H1 |]. split; [exact H2 |]. split; [exact H3 |].
  split; [exact H4 |]. split; [exact H5 |]. split; [exact H6 |].
  exact trim_empty_ascii.
Qed.

(** ** Calls that are turned down, and calls that undo each other *)

(** X2: a call of [addTakeaway], [addRelatedLink], [addTag] or [setRating]
    that does not pass the guard of its method leaves the entry as it is,
    [lastEdited] included: a blank takeaway, url or tag, a tag the entry
    has, a rating out of 1 to 5. *)
Theorem rejected_call_changes_nothing :
  forall (toLocaleDateString : string -> string) (now : Z) (o : Entry.op) (e : Entry.t),
    Entry.succeeds o e = false ->
    Entry.apply toLocaleDateString now o e = e.
Proof.
  intros fmt now o e H. destruct o; simpl in *; try discriminate.
  - unfold Entry.addTakeaway. now rewrite H.
  - unfold Entry.addRelatedLink. now rewrite H.
  - unfold Entry.addTag. now rewrite H.
  - unfold Entry.setRating. now rewrite H.
Qed.

Lemma rejected_call_changes_nothing_witness :
  Entry.apply Samples.isoDay 1700000005000 (Entry.SetRating 6) Samples.entry0
  = Samples.entry0 /\
  Entry.apply Samples.isoDay 1700000005000 (Entry.AddTag "  ") Samples.entry0
  = Samples.entry0.
Proof.
  split.
  - exact (rejected_call_changes_nothing Samples.isoDay 1700000005000
             (Entry.SetRating 6) Samples.entry0 eq_refl).
  - exact (rejected_call_changes_nothing Samples.isoDay 1700000005000
             (Entry.AddTag "  ") Samples.entry0 eq_refl).
Defined.

Lemma filter_app_last {A : Type} (p : A -> bool) (l : list A) (x : A) :
  (forall y, In y l -> p y = true) -> p x = false ->
  List.filter p (l ++ [x]) = l.
Proof.
  intros Hl Hx. rewrite List.filter_app. simpl. rewrite Hx.
  rewrite filter_all by assumption. apply app_nil_r.
Qed.

(** X3: removing what was just added gives the sequence back. A takeaway
    (a link) takes the clock reading of its [add] as its id, so when no
    takeaway (link) of the entry has that id yet, [removeTakeaway]
    ([removeRelatedLink]) with it undoes the [add], and undoes two of them
    that ran at the same reading at once, since they share the id. A tag
    that [addTag] accepted leaves with [removeTag] of its trimmed,
    lowercase form. *)
Theorem add_then_remove :
  forall (now later : Z) (e : Entry.t),
    (forall text text' : string,
        JsString.truthy (JsString.trim text) = true ->
        JsString.truthy (JsString.trim text') = true ->
        ~ In now (map Takeaway.id (Entry.keyTakeaways e)) ->
        Entry.keyTakeaways
          (Entry.removeTakeaway later now (Entry.addTakeaway now text e))
        = Entry.keyTakeaways e /\
        Entry.keyTakeaways
          (Entry.removeTakeaway later now
             (Entry.addTakeaway now text' (Entry.addTakeaway now text e)))
        = Entry.keyTakeaways e) /\
    (forall url title : string,
        JsString.truthy (JsString.trim url) = true ->
        ~ In now (map Link.id (Entry.relatedLinks e)) ->
        Entry.relatedLinks
          (Entry.removeRelatedLink later now (Entry.addRelatedLink now url title e))
        = Entry.relatedLinks e) /\
    (forall tag : string,
        Entry.succeeds (Entry.AddTag tag) e = true ->
        Entry.tags
          (Entry.removeTag later (JsString.toLowerCase (JsString.trim tag))
             (Entry.addTag now tag e))
        = Entry.tags e).
Proof.
  intros now later e.
  assert (Hguard : forall s, JsString.truthy (JsString.trim s) = true ->
                             JsString.truthy s && JsString.truthy (JsString.trim s) = true).
  { intros s Hs. rewrite Hs, andb_true_r. apply truthy_true. intros ->.
    discriminate. }
  split; [| split].
  - intros text text' Ht Ht' Hfresh.
    assert (Hold : forall y, In y (Entry.keyTakeaways e) ->
                             negb (Takeaway.id y =? now) = true).
    { intros y Hy. apply negb_true_iff, Z.eqb_neq. intros Heq. apply Hfresh.
      rewrite <- Heq. now apply in_map. }
    unfold Entry.addTakeaway. rewrite (Hguard text Ht), (Hguard text' Ht'). simpl.
    split.
    + apply filter_app_last; [exact Hold |]. simpl. now rewrite Z.eqb_refl.
    + rewrite List.filter_app. simpl. rewrite Z.eqb_refl. simpl.
      rewrite app_nil_r. apply filter_app_last; [exact Hold |].
      simpl. now rewrite Z.eqb_refl.
  - intros url title Hu Hfresh.
    unfold Entry.addRelatedLink. rewrite (Hguard url Hu). simpl.
    apply filter_app_last; [| simpl; now rewrite Z.eqb_refl].
    intros y Hy. apply negb_true_iff, Z.eqb_neq. intros Heq. apply Hfresh.
    rewrite <- Heq. now apply in_map.
  - intros tag Hs. simpl in Hs. unfold Entry.addTag. rewrite Hs. simpl.
    apply andb_true_iff in Hs. destruct Hs as [_ Hnew].
    apply negb_true_iff, includes_false in Hnew.
    apply filter_app_last; [| now rewrite String.eqb_refl].
    intros y Hy. apply negb_true_iff, String.eqb_neq. intros ->. now apply Hnew.
Qed.

Lemma add_then_remove_witness :
  Entry.keyTakeaways
    (Entry.removeTakeaway 1700000009000 1700000005000
       (Entry.addTakeaway 1700000005000 "Focus is a skill."
          (Entry.addTakeaway 1700000005000 "Shallow work crowds it out."
             Samples.entry0)))
  = [].
Proof.
  exact (proj2 (proj1 (add_then_remove 1700000005000 1700000009000 Samples.entry0)
                  "Shallow work crowds it out." "Focus is a skill."
                  eq_refl eq_refl (fun H => H))).
Defined.

(** ** Searching *)

Lemma startsWith_spec (s p : string) :
  JsString.startsWith s p = true <-> exists rest, s = p +:+ rest.
Proof.
  revert s. induction p as [| a p IH]; intros s.
  - split; [intros _; now exists s | intros _; now destruct s].
  - destruct s as [| b s]; simpl.
    + split; [discriminate | intros (rest & H); discriminate].
    + rewrite andb_true_iff, IH. split.
      * intros [Hab (rest & ->)]. apply Ascii.eqb_eq in Hab. subst. now exists rest.
      * intros (rest & [= -> ->]). split; [apply Ascii.eqb_refl | now exists rest].
Qed.

(** [s.includes(term)] holds exactly when [term] is a part of [s]. *)
Lemma strIncludes_spec (s term : string) :
  JsString.strIncludes s term = true <->
  exists before after, s = before +:+ term +:+ after.
Proof.
  induction s as [| c s IH].
  - change (JsString.strIncludes "" term)
      with (JsString.startsWith "" term || false).
    rewrite orb_false_r, startsWith_spec. split.
    + intros (rest & H). now exists "", rest.
    + intros (before & after & H). destruct before; simpl in H; [| discriminate].
      now exists after.
  - change (JsString.strIncludes (String c s) term)
      with (JsString.startsWith (String c s) term || JsString.strIncludes s term).
    rewrite orb_true_iff, startsWith_spec, IH. split.
    + intros [(rest & H) | (before & after & ->)].
      * now exists "", rest.
      * now exists (String c before), after.
    + intros (before & after & H). destruct before as [| b before]; simpl in H.
      * left. now exists after.
      * right. injection H as -> ->. now exists before, after.
Qed.

Lemma strIncludes_empty (s : string) : JsString.strIncludes s "" = true.
Proof. apply strIncludes_spec. now exists "", s. Qed.

Lemma matchesSearch_searchable (term : string) (e : Entry.t) :
  searchable e -> is_Some (Entry.matchesSearch term e).
Proof.
  intros ([n Hn] & [r Hr] & [t Ht]). unfold Entry.matchesSearch.
  rewrite Hn, Hr, Ht. simpl.
  repeat match goal with
         | |- context [if ?b then _ else _] => destruct b
         end; eauto.
Qed.

(** X4: [matchesSearch] takes the term without regard to its case; it
    throws on an entry with no source name; on an entry with a source name,
    a reflection and a source type it answers; the empty term matches every
    entry with a source name; a term that is, in lower case, part of the
    source name in lower case matches; and a term that is, in lower case,
    part of a tag as the tag is stored matches an entry that can be
    searched. *)
Theorem matchesSearch_finds :
  forall (term : string) (e : Entry.t),
    Entry.matchesSearch term e = Entry.matchesSearch (JsString.toLowerCase term) e /\
    (Entry.sourceName e = None -> Entry.matchesSearch term e = None) /\
    (searchable e -> exists found, Entry.matchesSearch term e = Some found) /\
    (is_Some (Entry.sourceName e) -> Entry.matchesSearch "" e = Some true) /\
    (forall name before after,
        Entry.sourceName e = Some name ->
        JsString.toLowerCase name = before +:+ JsString.toLowerCase term +:+ after ->
        Entry.matchesSearch term e = Some true) /\
    (forall tag before after,
        searchable e ->
        In tag (Entry.tags e) ->
        tag = before +:+ JsString.toLowerCase term +:+ after ->
        Entry.matchesSearch term e = Some true).
Proof.
  intros term e. repeat split.
  - unfold Entry.matchesSearch. now rewrite toLowerCase_idem.
  - intros H. unfold Entry.matchesSearch. now rewrite H.
  - intros H. now apply matchesSearch_searchable.
  - intros [n Hn]. unfold Entry.matchesSearch. rewrite Hn. simpl.
    now rewrite strIncludes_empty.
  - intros name before after Hn Hpart. unfold Entry.matchesSearch. rewrite Hn. simpl.
    assert (H : JsString.strIncludes (JsString.toLowerCase name)
                  (JsString.toLowerCase term) = true).
    { apply strIncludes_spec. now exists before, after. }
    now rewrite H.
  - intros tag before after Hs Hin Hpart.
    destruct (matchesSearch_searchable term e Hs) as [found Hfound].
    rewrite Hfound. f_equal.
    destruct Hs as ([n Hn] & [r Hr] & [t Ht]).
    unfold Entry.matchesSearch in Hfound. rewrite Hn, Hr, Ht in Hfound. simpl in Hfound.
    assert (Htags : existsb (fun tag => JsString.strIncludes tag (JsString.toLowerCase term))
                            (Entry.tags e) = true).
    { apply existsb_exists. exists tag. split; [assumption |].
      apply strIncludes_spec. now exists before, after. }
    rewrite Htags in Hfound.
    repeat match type of Hfound with
           | context [if ?b then _ else _] => destruct b
           end; congruence.
Qed.

(** ** Adding and deleting through the data service *)

(** [getEntryById] is [find]: the first entry with the id. *)
Lemma getEntryById_find (id : Z) (ds : DataService.t) :
  DataService.getEntryById id ds
  = List.find (fun entry => Entry.id entry =? id) (DataService.entries ds).
Proof.
  unfold DataService.getEntryById.
  induction (DataService.entries ds) as [| a l IH]; simpl; [reflexivity |].
  destruct (Entry.id a =? id); [reflexivity |].
  rewrite <- IH. now destruct (DataService.findIndex id l).
Qed.

Lemma find_delete_other (id id' : Z) (l : list Entry.t) (i : nat) :
  DataService.findIndex id l = Some i -> id' <> id ->
  List.find (fun entry => Entry.id entry =? id') (delete i l)
  = List.find (fun entry => Entry.id entry =? id') l.
Proof.
  revert i. induction l as [| a l IH]; simpl; intros i Hi Hne; [discriminate |].
  destruct (Entry.id a =? id) eqn:Ha.
  - injection Hi as <-. simpl. apply Z.eqb_eq in Ha.
    destruct (Entry.id a =? id') eqn:Ha'; [| reflexivity].
    apply Z.eqb_eq in Ha'. congruence.
  - destruct (DataService.findIndex id l) as [k |]; [| discriminate].
    injection Hi as <-. simpl. now rewrite (IH k eq_refl Hne).
Qed.

Lemma find_delete_same (id : Z) (l : list Entry.t) (i : nat) :
  DataService.findIndex id l = Some i -> NoDup (map Entry.id l) ->
  List.find (fun entry => Entry.id entry =? id) (delete i l) = None.
Proof.
  revert i. induction l as [| a l IH]; simpl; intros i Hi Hnd; [discriminate |].
  apply NoDup_cons in Hnd as [Ha Hnd].
  destruct (Entry.id a =? id) eqn:Haid.
  - injection Hi as <-. simpl. apply Z.eqb_eq in Haid. subst id.
    destruct (List.find _ l) as [x |] eqn:Hx; [| reflexivity].
    apply List.find_some in Hx as [Hin Hid]. apply Z.eqb_eq in Hid.
    exfalso. apply Ha. rewrite <- Hid. apply list_elem_of_In. now apply in_map.
  - destruct (DataService.findIndex id l) as [k |]; [| discriminate].
    injection Hi as <-. simpl. rewrite Haid. now apply IH.
Qed.

(** X5: [addEntry] builds the entry with [Entry.create] and validates it.
    When validation fails it returns the joined errors and the service is
    exactly as before. When validation passes it puts the entry, which has
    an edit counter of 0 and no [lastEdited], at the front of the
    collection, saves the collection, calls each subscriber once with
    [entry_added] and the entry, and returns success; it returns success
    also when the store cannot be used and nothing was saved. *)
Theorem addEntry_inserts_at_front :
  forall (toLocaleDateString : string -> string)
         (JSON_parse : string -> option value) (JSON_stringify : value -> string)
         (now : Z) (entryData : FormData.t) (ds : DataService.t),
    let entry := Entry.create toLocaleDateString now entryData in
    let out :=
      DataService.addEntry toLocaleDateString JSON_parse JSON_stringify
        now entryData ds in
    (Entry.isValid (Entry.validate entry) = false ->
     out = (DataService.Failure (JsString.join ", " (Entry.errors (Entry.validate entry))),
            ds)) /\
    (Entry.isValid (Entry.validate entry) = true ->
     fst out = DataService.Success entry /\
     DataService.entries (snd out) = entry :: DataService.entries ds /\
     Entry.editCount entry = 0 /\ Entry.lastEdited entry = None /\
     Entry.id entry = now /\
     DataService.getEntryById now (snd out) = Some entry /\
     DataService.observers (snd out) = DataService.observers ds /\
     DataService.delivered (snd out)
     = (DataService.delivered ds
        ++ map (fun callback =>
                  (callback, DataService.mkEvent "entry_added" (Some entry)))
               (DataService.observers ds))%list /\
     DataService.storage (snd out)
     = snd (StorageService.saveEntries JSON_parse JSON_stringify now
              (VArr (map (fun entry => Data.toValue (Entry.toObject entry))
                         (entry :: DataService.entries ds)))
              (DataService.storage ds)) /\
     (LocalStorage.usable (DataService.storage ds) = false ->
      DataService.storage (snd out) = DataService.storage ds)).
Proof.
  intros fmt parse stringify now entryData ds entry out. subst entry out.
  unfold DataService.addEntry. split; intros Hv; rewrite Hv; simpl.
  - reflexivity.
  - repeat split.
    + unfold DataService.getEntryById. simpl. now rewrite Z.eqb_refl.
    + intros Hu. unfold StorageService.saveEntries, StorageService.isStorageAvailable,
        LocalStorage.setItem. now rewrite Hu.
Qed.

(** X6: [deleteEntry] with an id the service has no entry for returns
    [Entry not found] and changes nothing. Otherwise it takes the first
    entry with the id out of the collection, the others staying in their
    order, saves the collection, calls each subscriber once with
    [entry_deleted] and the entry taken out, and returns it; entries with
    another id are found as before, and when no two entries share an id
    the id is not found again. *)
Theorem deleteEntry_removes_one :
  forall (JSON_parse : string -> option value) (JSON_stringify : value -> string)
         (now id : Z) (ds : DataService.t),
    let out := DataService.deleteEntry JSON_parse JSON_stringify now id ds in
    (DataService.getEntryById id ds = None ->
     out = (DataService.Failure "Entry not found", ds)) /\
    (forall entry : Entry.t,
        DataService.getEntryById id ds = Some entry ->
        fst out = DataService.Success entry /\
        S (length (DataService.entries (snd out))) = length (DataService.entries ds) /\
        sublist (DataService.entries (snd out)) (DataService.entries ds) /\
        entry :: DataService.entries (snd out) ≡ₚ DataService.entries ds /\
        (forall id' : Z,
            id' <> id ->
            DataService.getEntryById id' (snd out) = DataService.getEntryById id' ds) /\
        (NoDup (map Entry.id (DataService.entries ds)) ->
         DataService.getEntryById id (snd out) = None) /\
        DataService.delivered (snd out)
        = (DataService.delivered ds
           ++ map (fun callback =>
                     (callback, DataService.mkEvent "entry_deleted" (Some entry)))
                  (DataService.observers ds))%list /\
        DataService.storage (snd out)
        = snd (StorageService.saveEntries JSON_parse JSON_stringify now
                 (VArr (map (fun entry => Data.toValue (Entry.toObject entry))
                            (DataService.entries (snd out))))
                 (DataService.storage ds))).
Proof.
  intros parse stringify now id ds out. subst out.
  unfold DataService.deleteEntry, DataService.getEntryById.
  destruct (DataService.findIndex id (DataService.entries ds)) as [i |] eqn:Hi;
    simpl.
  - destruct (findIndex_lookup _ _ _ Hi) as (entry0 & He0 & Hid).
    rewrite He0. simpl. split; [discriminate |].
    intros entry [= <-]. repeat split.
    + rewrite length_delete by eauto.
      apply lookup_lt_Some in He0. lia.
    + apply sublist_delete.
    + symmetry. now apply delete_Permutation.
    + intros id' Hne.
      pose proof (getEntryById_find id'
                    (DataService.set_entries (delete i (DataService.entries ds)) ds)) as H1.
      pose proof (getEntryById_find id' ds) as H2.
      unfold DataService.getEntryById in H1, H2. simpl in H1.
      rewrite H1, H2. now apply (find_delete_other id).
    + intros Hnd.
      pose proof (getEntryById_find id
                    (DataService.set_entries (delete i (DataService.entries ds)) ds)) as H1.
      unfold DataService.getEntryById in H1. simpl in H1.
      rewrite H1. now apply find_delete_same.
  - split; [reflexivity | discriminate].
Qed.

Lemma deleteEntry_removes_one_witness :
  fst (DataService.deleteEntry Samples.parse Samples.stringify 1700000009000
         1700000000000 Samples.service)
  = DataService.Success Samples.entry0 /\
  DataService.entries
    (snd (DataService.deleteEntry Samples.parse Samples.stringify 1700000009000
            1700000000000 Samples.service))
  = [].
Proof.
  pose proof
    (proj2 (deleteEntry_removes_one Samples.parse Samples.stringify 1700000009000
              1700000000000 Samples.service) Samples.entry0 eq_refl) as (H & _).
  split; [exact H | reflexivity].
Defined.

(** ** The order of the collection *)

Section NewestFirst.

Variable Date_parse : string -> option Z.
Variable sortBy : string.

Lemma compareDates_positive a b :
  (0 <? default 0 (DataService.compareDates Date_parse sortBy a b)) = true <->
  exists ta tb, sortDate Date_parse sortBy a = Some ta
                /\ sortDate Date_parse sortBy b = Some tb /\ ta < tb.
Proof.
  unfold DataService.compareDates, sortDate.
  destruct (Date_parse (Entry.getSortDate sortBy a)) as [ta |]; simpl.
  - destruct (Date_parse (Entry.getSortDate sortBy b)) as [tb |]; simpl.
    + rewrite Z.ltb_lt. split.
      * intros H. exists ta, tb. repeat split. lia.
      * intros (ta' & tb' & [= <-] & [= <-] & H). lia.
    + split; [discriminate | intros (? & ? & _ & [=] & _)].
  - split; [discriminate | intros (? & ? & [=] & _)].
Qed.

Lemma insertSorted_filter t a l :
  List.filter (datedAt Date_parse sortBy t) (DataService.insertSorted Date_parse sortBy a l)
  = List.filter (datedAt Date_parse sortBy t) (a :: l).
Proof.
  induction l as [| b l IH]; [reflexivity |].
  simpl DataService.insertSorted.
  destruct (0 <? _) eqn:Hc; [| reflexivity].
  apply compareDates_positive in Hc as (ta & tb & Ha & Hb & Hlt).
  change (List.filter (datedAt Date_parse sortBy t)
            (b :: DataService.insertSorted Date_parse sortBy a l))
    with (if datedAt Date_parse sortBy t b
          then b :: List.filter (datedAt Date_parse sortBy t)
                      (DataService.insertSorted Date_parse sortBy a l)
          else List.filter (datedAt Date_parse sortBy t)
                 (DataService.insertSorted Date_parse sortBy a l)).
  assert (Hda : datedAt Date_parse sortBy t a = (ta =? t))
    by (unfold datedAt; now rewrite Ha).
  assert (Hdb : datedAt Date_parse sortBy t b = (tb =? t))
    by (unfold datedAt; now rewrite Hb).
  rewrite IH. cbn [List.filter]. rewrite Hda, Hdb.
  destruct (tb =? t) eqn:Htb, (ta =? t) eqn:Hta; try reflexivity.
  apply Z.eqb_eq in Htb, Hta. lia.
Qed.

Lemma insertSorted_sorted a l :
  is_Some (sortDate Date_parse sortBy a) ->
  Forall (fun e => is_Some (sortDate Date_parse sortBy e)) l ->
  Sorted (notOlder Date_parse sortBy) l ->
  Sorted (notOlder Date_parse sortBy) (DataService.insertSorted Date_parse sortBy a l).
Proof.
  intros [ta Ha] Hall Hs. induction l as [| b l IH]; simpl.
  - repeat constructor.
  - apply Forall_cons in Hall as [[tb Hb] Hall].
    apply Sorted_inv in Hs as [Hs Hhd].
    destruct (0 <? _) eqn:Hc.
    + apply compareDates_positive in Hc as (ta' & tb' & Ha' & Hb' & Hlt).
      rewrite Ha in Ha'. rewrite Hb in Hb'. injection Ha' as <-. injection Hb' as <-.
      constructor; [now apply IH |].
      destruct l as [| c l]; simpl.
      * constructor. exists tb, ta. repeat split; try assumption. lia.
      * destruct (0 <? _).
        -- constructor. now apply HdRel_inv in Hhd.
        -- constructor. exists tb, ta. repeat split; try assumption. lia.
    + constructor; [now constructor |]. constructor.
      exists ta, tb. repeat split; try assumption.
      destruct (Z.le_gt_cases tb ta) as [Hle | Hgt]; [exact Hle |].
      assert (Hpos : (0 <? default 0 (DataService.compareDates Date_parse sortBy a b)) = true).
      { apply compareDates_positive. now exists ta, tb. }
      congruence.
Qed.

Lemma insertSorted_head a l :
  HdRel (notOlder Date_parse sortBy) a l ->
  DataService.insertSorted Date_parse sortBy a l = a :: l.
Proof.
  destruct l as [| b l]; [reflexivity |]. intros H. apply HdRel_inv in H.
  destruct H as (ta & tb & Ha & Hb & Hle). simpl.
  destruct (0 <? _) eqn:Hc; [| reflexivity].
  apply compareDates_positive in Hc as (ta' & tb' & Ha' & Hb' & Hlt).
  rewrite Ha in Ha'. rewrite Hb in Hb'. injection Ha' as <-. injection Hb' as <-. lia.
Qed.

End NewestFirst.

(** X7: [getAllEntries] returns the entries of the service, each once.
    When the date of every entry parses, the result is sorted newest first
    and holds entries with the same date in the order the collection has
    them; and a collection that is sorted newest first already is returned
    as it is. (With a date that does not parse the order is the engine's
    own.) *)
Theorem getAllEntries_newest_first :
  forall (Date_parse : string -> option Z) (sortBy : string) (ds : DataService.t),
    let sorted := DataService.getAllEntries Date_parse sortBy ds in
    sorted ≡ₚ DataService.entries ds /\
    (Forall (fun e => is_Some (sortDate Date_parse sortBy e)) (DataService.entries ds) ->
     Sorted (notOlder Date_parse sortBy) sorted /\
     forall t : Z,
       List.filter (datedAt Date_parse sortBy t) sorted
       = List.filter (datedAt Date_parse sortBy t) (DataService.entries ds)) /\
    (Sorted (notOlder Date_parse sortBy) (DataService.entries ds) ->
     sorted = DataService.entries ds).
Proof.
  intros Date_parse sortBy ds sorted. subst sorted.
  split; [apply getAllEntries_permutation |].
  assert (Hstable : forall t : Z,
             List.filter (datedAt Date_parse sortBy t)
               (DataService.getAllEntries Date_parse sortBy ds)
             = List.filter (datedAt Date_parse sortBy t) (DataService.entries ds)).
  { intros t. unfold DataService.getAllEntries.
    induction (DataService.entries ds) as [| a l IH]; simpl; [reflexivity |].
    rewrite insertSorted_filter. simpl. now rewrite IH. }
  unfold DataService.getAllEntries in *.
  split.
  - intros Hall. split; [| exact Hstable]. clear Hstable.
    induction (DataService.entries ds) as [| a l IH]; simpl; [constructor |].
    apply Forall_cons in Hall as [Ha Hall].
    apply insertSorted_sorted; [assumption | | now apply IH].
    eapply Forall_forall. intros e He.
    assert (Hin : e ∈ l).
    { pose proof (getAllEntries_permutation Date_parse sortBy
                    (DataService.mk l [] (LocalStorage.mk true ∅) [])) as Hp.
      unfold DataService.getAllEntries in Hp. simpl in Hp. now rewrite <- Hp. }
    now apply (proj1 (Forall_forall _ _) Hall).
  - clear Hstable.
    induction (DataService.entries ds) as [| a l IH]; simpl; [reflexivity |].
    intros Hs. apply Sorted_inv in Hs as [Hs Hhd].
    rewrite (IH Hs). now apply insertSorted_head.
Qed.

Lemma getAllEntries_newest_first_witness :
  DataService.getAllEntries MoreSamples.parseDate "created" MoreSamples.journal
  = [MoreSamples.later; Samples.entry0] /\
  Sorted (notOlder MoreSamples.parseDate "created")
    (DataService.getAllEntries MoreSamples.parseDate "created" MoreSamples.journal).
Proof.
  split; [reflexivity |].
  refine (proj1 (proj1 (proj2 (getAllEntries_newest_first MoreSamples.parseDate
                                 "created" MoreSamples.journal)) _)).
  repeat constructor; simpl; eauto.
Defined.

(** ** Searching the collection *)

Lemma filter_sublist {A : Type} (p : A -> bool) (l : list A) :
  sublist (List.filter p l) l.
Proof.
  induction l as [| a l IH]; simpl; [constructor |].
  destruct (p a); [now apply sublist_skip | now apply sublist_cons].
Qed.

Lemma filterMatching_searchable (term : string) (l : list Entry.t) :
  Forall searchable l ->
  DataService.filterMatching term l
  = Some (List.filter (fun e => default false (Entry.matchesSearch term e)) l).
Proof.
  induction 1 as [| e l He _ IH]; simpl; [reflexivity |].
  destruct (matchesSearch_searchable term e He) as [found Hfound].
  rewrite Hfound, IH. simpl. now destruct found.
Qed.

Lemma filterMatching_throws (term : string) (l : list Entry.t) :
  Exists (fun e => Entry.sourceName e = None) l ->
  DataService.filterMatching term l = None.
Proof.
  induction 1 as [e l He | e l _ IH]; simpl.
  - unfold Entry.matchesSearch. now rewrite He.
  - destruct (Entry.matchesSearch term e); [| reflexivity]. now rewrite IH.
Qed.

(** X8: [searchEntries] with a term that is empty or white space returns
    what [getAllEntries] returns, sorted by creation date. With any other
    term, on a collection whose entries all have a source name, a
    reflection and a source type, it returns the entries that
    [matchesSearch] accepts for the trimmed term, and only those, in the
    order the collection has them; and when some entry has no source name
    the search throws, whatever the other entries hold. *)
Theorem searchEntries_selects :
  forall (Date_parse : string -> option Z) (searchTerm : string) (ds : DataService.t),
    (JsString.trim searchTerm = "" ->
     DataService.searchEntries Date_parse searchTerm ds
     = Some (DataService.getAllEntries Date_parse "created" ds)) /\
    (JsString.trim searchTerm <> "" ->
     Forall searchable (DataService.entries ds) ->
     exists found,
       DataService.searchEntries Date_parse searchTerm ds = Some found /\
       sublist found (DataService.entries ds) /\
       forall e, In e found <->
                 In e (DataService.entries ds) /\
                 Entry.matchesSearch (JsString.trim searchTerm) e = Some true) /\
    (JsString.trim searchTerm <> "" ->
     Exists (fun e => Entry.sourceName e = None) (DataService.entries ds) ->
     DataService.searchEntries Date_parse searchTerm ds = None).
Proof.
  intros Date_parse term ds. unfold DataService.searchEntries.
  assert (Hne : JsString.trim term <> "" ->
                negb (JsString.truthy term) || String.eqb (JsString.trim term) "" = false).
  { intros Ht. apply orb_false_iff. split.
    - apply negb_false_iff, truthy_true. intros ->. now apply Ht.
    - now apply String.eqb_neq. }
  split; [| split].
  - intros Ht. rewrite Ht, String.eqb_refl, orb_true_r. reflexivity.
  - intros Ht Hall. rewrite (Hne Ht), (filterMatching_searchable _ _ Hall).
    eexists. split; [reflexivity |]. split.
    + apply filter_sublist.
    + intros e. rewrite filter_In. split; intros [Hin Hm]; (split; [exact Hin |]).
      * destruct (Entry.matchesSearch (JsString.trim term) e) as [[] |];
          simpl in Hm; congruence.
      * now rewrite Hm.
  - intros Ht Hex. rewrite (Hne Ht). now apply filterMatching_throws.
Qed.

Lemma searchEntries_selects_witness :
  DataService.searchEntries MoreSamples.parseDate " ATTENTION " MoreSamples.journal
  = Some [MoreSamples.later].
Proof.
  destruct (proj1 (proj2 (searchEntries_selects MoreSamples.parseDate " ATTENTION "
                            MoreSamples.journal)))
    as (found & Hfound & _).
  - discriminate.
  - repeat constructor; simpl; eauto.
  - reflexivity.
Defined.

(** ** Subscribers *)

Lemma count_occ_filter_ne (l : list nat) (c callback : nat) :
  c <> callback ->
  count_occ Nat.eq_dec (List.filter (fun obs => negb (Nat.eqb obs callback)) l) c
  = count_occ Nat.eq_dec l c.
Proof.
  intros Hne. induction l as [| a l IH]; simpl; [reflexivity |].
  destruct (Nat.eqb a callback) eqn:Ha; simpl.
  - apply Nat.eqb_eq in Ha. destruct (Nat.eq_dec a c); [congruence | exact IH].
  - destruct (Nat.eq_dec a c); now rewrite IH.
Qed.

(** X9: [notifyObservers] calls the subscribers in the order they
    subscribed, once for each subscription: a callback that subscribes is
    called after all that subscribed before it, and once more than before,
    so a callback that subscribed twice is called twice. [unsubscribe]
    removes every subscription of the callback, after which it is not
    called, and leaves the subscriptions of the others as they were, in
    their order. *)
Theorem subscriptions :
  forall (callback : nat) (ev : string) (data : option Entry.t) (ds : DataService.t),
    DataService.delivered (DataService.notifyObservers ev data ds)
    = (DataService.delivered ds
       ++ map (fun c => (c, DataService.mkEvent ev data)) (DataService.observers ds))%list /\
    DataService.delivered
      (DataService.notifyObservers ev data (DataService.subscribe callback ds))
    = (DataService.delivered (DataService.notifyObservers ev data ds)
       ++ [(callback, DataService.mkEvent ev data)])%list /\
    count_occ Nat.eq_dec (DataService.observers (DataService.subscribe callback ds)) callback
    = S (count_occ Nat.eq_dec (DataService.observers ds) callback) /\
    ~ In callback (DataService.observers (DataService.unsubscribe callback ds)) /\
    ~ In callback
        (map fst
           (drop (length (DataService.delivered ds))
              (DataService.delivered
                 (DataService.notifyObservers ev data
                    (DataService.unsubscribe callback ds))))) /\
    sublist (DataService.observers (DataService.unsubscribe callback ds))
            (DataService.observers ds) /\
    (forall c : nat,
        c <> callback ->
        count_occ Nat.eq_dec (DataService.observers (DataService.unsubscribe callback ds)) c
        = count_occ Nat.eq_dec (DataService.observers ds) c) /\
    DataService.entries (DataService.unsubscribe callback ds) = DataService.entries ds.
Proof.
  intros callback ev data ds.
  assert (Hgone : ~ In callback
                      (List.filter (fun obs => negb (Nat.eqb obs callback))
                         (DataService.observers ds))).
  { rewrite filter_In. intros [_ H]. now rewrite Nat.eqb_refl in H. }
  repeat split.
  - simpl. now rewrite map_app, app_assoc.
  - simpl. rewrite count_occ_app. simpl.
    destruct (Nat.eq_dec callback callback); [lia | congruence].
  - exact Hgone.
  - simpl. rewrite drop_app_length. rewrite map_map. simpl. now rewrite map_id.
  - apply filter_sublist.
  - intros c Hc. now apply count_occ_filter_ne.
Qed.

(** ** Statistics *)

Lemma remove_dups_length_le {A : Type} `{EqDecision A} (l : list A) :
  (length (remove_dups l) <= length l)%nat.
Proof.
  induction l as [| a l IH]; simpl; [lia |].
  destruct (decide_rel elem_of a l); simpl; lia.
Qed.

Lemma mapM_members {A B : Type} (f : A -> option B) (l : list A) (k : list B) :
  mapM f l = Some k ->
  forall y, In y k <-> exists x, In x l /\ f x = Some y.
Proof.
  intros Hm. apply mapM_Some in Hm.
  induction Hm as [| x y l k Hxy _ IH]; intros z; simpl.
  - split; [tauto | intros (x & [] & _)].
  - rewrite (IH z). split.
    + intros [<- | (x' & Hin & Hf)]; [exists x; now split; [left |] |].
      exists x'. split; [now right | exact Hf].
    + intros (x' & [<- | Hin] & Hf); [left; congruence |].
      right. exists x'. now split.
Qed.

(** X10: [getStatistics] throws exactly when some entry has no source
    name. Otherwise the total is the number of entries; the number of
    unique sources is the number of different source names, names that
    differ in case alone counting once, so it is at most the total and 0
    only for the empty collection; and the count of this week is the
    number of entries whose timestamp parses to a time that is not before
    the time seven days ago, an entry counting as often as the collection
    holds it. *)
Theorem getStatistics_counts :
  forall (Date_parse : string -> option Z) (sevenDaysBefore : Z -> Z)
         (now : Z) (ds : DataService.t),
    let stats := DataService.getStatistics Date_parse sevenDaysBefore now ds in
    (stats = None <->
     Exists (fun e => Entry.sourceName e = None) (DataService.entries ds)) /\
    (forall s, stats = Some s ->
       DataService.totalEntries s = length (DataService.entries ds) /\
       (exists sources : list string,
           NoDup sources /\
           (forall x, In x sources <->
                      exists e name, In e (DataService.entries ds) /\
                                     Entry.sourceName e = Some name /\
                                     JsString.toLowerCase name = x) /\
           DataService.uniqueSources s = length sources) /\
       DataService.thisWeek s
       = length (List.filter (stampedSince Date_parse (sevenDaysBefore now))
                             (DataService.entries ds)) /\
       (DataService.uniqueSources s <= DataService.totalEntries s)%nat /\
       (DataService.thisWeek s <= DataService.totalEntries s)%nat /\
       (DataService.uniqueSources s = 0%nat <-> DataService.entries ds = [])) /\
    (forall a b : Entry.t,
        forall na nb, Entry.sourceName a = Some na -> Entry.sourceName b = Some nb ->
        JsString.toLowerCase na = JsString.toLowerCase nb ->
        DataService.uniqueSources
          <$> DataService.getStatistics Date_parse sevenDaysBefore now
                (DataService.set_entries [a; b] ds)
        = Some 1%nat).
Proof.
  intros Date_parse week now ds stats. subst stats.
  unfold DataService.getStatistics. split; [| split].
  - destruct (mapM _ (DataService.entries ds)) as [names |] eqn:Hm; simpl.
    + split; [discriminate |]. intros Hex.
      assert (Hn : mapM (fun e => JsString.toLowerCase <$> Entry.sourceName e)
                        (DataService.entries ds) = None).
      { apply mapM_None. eapply Exists_impl; [exact Hex |].
        intros e He. simpl. now rewrite He. }
      congruence.
    + split; [| reflexivity]. intros _. apply mapM_None in Hm.
      eapply Exists_impl; [exact Hm |]. intros e He. simpl in He.
      now destruct (Entry.sourceName e).
  - intros s Hs.
    destruct (mapM _ (DataService.entries ds)) as [names |] eqn:Hm; simpl in Hs;
      [| discriminate].
    injection Hs as <-. simpl.
    pose proof (length_mapM _ _ _ Hm) as Hlen.
    split; [reflexivity |]. split; [| split; [reflexivity |]].
    + exists (remove_dups names). split; [apply NoDup_remove_dups |].
      split; [| reflexivity].
      intros x. rewrite <- list_elem_of_In, elem_of_remove_dups, list_elem_of_In.
      rewrite (mapM_members _ _ _ Hm x). split.
      * intros (e & He & Hf). destruct (Entry.sourceName e) as [name |] eqn:Hn;
          [| discriminate].
        injection Hf as <-. now exists e, name.
      * intros (e & name & He & Hn & <-). exists e. split; [exact He |].
        now rewrite Hn.
    + split; [rewrite Hlen; apply remove_dups_length_le |].
      split; [apply filter_length_le |]. split.
      * intros H0. destruct names as [| n names].
        -- destruct (DataService.entries ds); [reflexivity | discriminate].
        -- exfalso. assert (Hin : n ∈ remove_dups (n :: names)).
           { apply elem_of_remove_dups. now left. }
           destruct (remove_dups (n :: names)); [inversion Hin | discriminate].
      * intros He. rewrite He in Hm. simpl in Hm. now injection Hm as <-.
  - intros a b na nb Ha Hb Hab. simpl. rewrite Ha, Hb. simpl. rewrite Hab.
    destruct (decide_rel elem_of (JsString.toLowerCase nb) [JsString.toLowerCase nb])
      as [_ | Hn]; [reflexivity |].
    exfalso. apply Hn. now left.
Qed.

(** ** Writing the store *)


Section WriteStore.

Variable JSON_parse : string -> option value.
Variable JSON_stringify : value -> string.

Lemma getSettings_usable (ls : LocalStorage.t) :
  LocalStorage.usable ls = true ->
  snd (StorageService.getSettings JSON_parse ls) = probed ls.
Proof.
  intros H. unfold StorageService.getSettings.
  now rewrite (isStorageAvailable_usable ls H).
Qed.

Lemma updateLastSaved_usable now (ls : LocalStorage.t) :
  LocalStorage.usable ls = true ->
  LocalStorage.usable (StorageService.updateLastSaved JSON_parse JSON_stringify now ls)
  = true /\
  forall k, k <> StorageService.SETTINGS_KEY -> k <> "__storage_test__" ->
    LocalStorage.items (StorageService.updateLastSaved JSON_parse JSON_stringify now ls) !! k
    = LocalStorage.items ls !! k.
Proof.
  intros H. unfold StorageService.updateLastSaved.
  rewrite (isStorageAvailable_usable ls H).
  pose proof (getSettings_usable (probed ls) (probed_usable ls)) as Hs.
  destruct (StorageService.getSettings JSON_parse (probed ls)) as [settings ls'].
  simpl in Hs. subst ls'. rewrite probed_probed.
  destruct (StorageService.setProp "lastSaved" _ settings) as [settings' |]; simpl.
  - split; [reflexivity |]. intros k Hk Ht.
    rewrite lookup_insert_ne by congruence. now rewrite lookup_delete_ne by congruence.
  - split; [reflexivity |]. intros k _ Ht. now rewrite lookup_delete_ne by congruence.
Qed.

Lemma createBackup_usable now (ls : LocalStorage.t) :
  LocalStorage.usable ls = true ->
  exists ls',
    StorageService.createBackup JSON_stringify now ls = (true, ls') /\
    LocalStorage.usable ls' = true /\
    LocalStorage.items ls' !! StorageService.BACKUP_KEY
    = backupAfterSave JSON_stringify now
        (LocalStorage.items ls !! StorageService.STORAGE_KEY)
        (LocalStorage.items ls !! StorageService.BACKUP_KEY) /\
    forall k, k <> StorageService.BACKUP_KEY -> k <> "__storage_test__" ->
      LocalStorage.items ls' !! k = LocalStorage.items ls !! k.
Proof.
  intros H. unfold StorageService.createBackup.
  rewrite (isStorageAvailable_usable ls H). simpl negb. cbv iota.
  rewrite getItem_probed by discriminate. simpl. unfold backupAfterSave.
  destruct (LocalStorage.items ls !! StorageService.STORAGE_KEY) as [data |].
  - destruct (JsString.truthy data); simpl.
    + eexists. split; [reflexivity |]. split; [reflexivity |]. split.
      * simpl. now rewrite lookup_insert_eq.
      * intros k Hk Ht. simpl. rewrite lookup_insert_ne by congruence.
        now rewrite lookup_delete_ne by congruence.
    + eexists. split; [reflexivity |]. split; [reflexivity |]. split.
      * simpl. now rewrite lookup_delete_ne by discriminate.
      * intros k _ Ht. simpl. now rewrite lookup_delete_ne by congruence.
  - eexists. split; [reflexivity |]. split; [reflexivity |]. split.
    + simpl. now rewrite lookup_delete_ne by discriminate.
    + intros k _ Ht. simpl. now rewrite lookup_delete_ne by congruence.
Qed.

Lemma saveEntries_usable now (entries : value) (ls : LocalStorage.t) :
  LocalStorage.usable ls = true ->
  exists ls',
    StorageService.saveEntries JSON_parse JSON_stringify now entries ls = (true, ls') /\
    LocalStorage.usable ls' = true /\
    LocalStorage.items ls' !! StorageService.STORAGE_KEY = Some (JSON_stringify entries) /\
    LocalStorage.items ls' !! StorageService.BACKUP_KEY
    = backupAfterSave JSON_stringify now
        (LocalStorage.items ls !! StorageService.STORAGE_KEY)
        (LocalStorage.items ls !! StorageService.BACKUP_KEY) /\
    forall k, k <> StorageService.STORAGE_KEY -> k <> StorageService.BACKUP_KEY ->
              k <> StorageService.SETTINGS_KEY -> k <> "__storage_test__" ->
      LocalStorage.items ls' !! k = LocalStorage.items ls !! k.
Proof.
  intros H. unfold StorageService.saveEntries.
  rewrite (isStorageAvailable_usable ls H). simpl negb. cbv iota.
  destruct (createBackup_usable now (probed ls) (probed_usable ls))
    as (lb & Hb & Hub & Hbk & Hframe).
  rewrite Hb. unfold LocalStorage.setItem at 1. rewrite Hub.
  set (lp := LocalStorage.mk true
               (<[StorageService.STORAGE_KEY := JSON_stringify entries]>
                  (LocalStorage.items lb))).
  destruct (updateLastSaved_usable now lp eq_refl) as [Hu Hl].
  eexists. split; [reflexivity |]. split; [exact Hu |]. split; [| split].
  - rewrite Hl by discriminate. subst lp. simpl. now rewrite lookup_insert_eq.
  - rewrite Hl by discriminate. subst lp. simpl.
    rewrite lookup_insert_ne by discriminate. rewrite Hbk.
    unfold probed. simpl. now rewrite !lookup_delete_ne by discriminate.
  - intros k Hk1 Hk2 Hk3 Hk4. rewrite Hl by assumption. subst lp. simpl.
    rewrite lookup_insert_ne by congruence. rewrite Hframe by assumption.
    unfold probed. simpl. now rewrite lookup_delete_ne by congruence.
Qed.

Lemma saveEntries_unusable now (entries : value) (ls : LocalStorage.t) :
  LocalStorage.usable ls = false ->
  StorageService.saveEntries JSON_parse JSON_stringify now entries ls = (false, ls).
Proof.
  intros H. unfold StorageService.saveEntries.
  now rewrite (isStorageAvailable_unusable ls H).
Qed.

End WriteStore.

(** X11: on a store that can be used [saveEntries] returns true and
    leaves the printed collection in the primary slot; the backup slot
    then holds the text the primary slot held before, wrapped with the
    time of the save, or what it held before when the primary slot was
    missing or empty; and no key but the two slots, the settings and the
    key of the probe is touched. On a store that cannot be used it returns
    false and the store is as before. *)
Theorem saveEntries_writes_slots :
  forall (JSON_parse : string -> option value) (JSON_stringify : value -> string)
         (now : Z) (entries : value) (ls : LocalStorage.t),
    let out := StorageService.saveEntries JSON_parse JSON_stringify now entries ls in
    (LocalStorage.usable ls = true ->
     fst out = true /\
     LocalStorage.usable (snd out) = true /\
     LocalStorage.items (snd out) !! StorageService.STORAGE_KEY
     = Some (JSON_stringify entries) /\
     LocalStorage.items (snd out) !! StorageService.BACKUP_KEY
     = match LocalStorage.items ls !! StorageService.STORAGE_KEY with
       | Some data =>
           if JsString.truthy data
           then Some (JSON_stringify
                        (VObj [("data", VStr data);
                               ("timestamp", VStr (JsDate.toISOString now))]))
           else LocalStorage.items ls !! StorageService.BACKUP_KEY
       | None => LocalStorage.items ls !! StorageService.BACKUP_KEY
       end /\
     forall k, k <> StorageService.STORAGE_KEY -> k <> StorageService.BACKUP_KEY ->
               k <> StorageService.SETTINGS_KEY -> k <> "__storage_test__" ->
       LocalStorage.items (snd out) !! k = LocalStorage.items ls !! k) /\
    (LocalStorage.usable ls = false -> out = (false, ls)).
Proof.
  intros parse stringify now entries ls out. subst out. split.
  - intros H.
    destruct (saveEntries_usable parse stringify now entries ls H)
      as (ls' & -> & Hu & Hp & Hb & Hframe).
    simpl. repeat split; assumption.
  - apply saveEntries_unusable.
Qed.

(** X12: what [saveEntries] wrote [getEntries] reads back: on a store that
    can be used, for a collection whose printed text is not empty and
    parses to the collection again, [getEntries] after [saveEntries]
    returns the collection. *)
Theorem save_then_read :
  forall (JSON_parse : string -> option value) (JSON_stringify : value -> string)
         (ToString : value -> string) (now : Z) (entries : value) (ls : LocalStorage.t),
    LocalStorage.usable ls = true ->
    JSON_stringify entries <> "" ->
    JSON_parse (JSON_stringify entries) = Some entries ->
    fst (StorageService.getEntries JSON_parse ToString
           (snd (StorageService.saveEntries JSON_parse JSON_stringify now entries ls)))
    = entries.
Proof.
  intros parse stringify toStr now entries ls H Hne Hp.
  destruct (saveEntries_usable parse stringify now entries ls H)
    as (ls' & -> & Hu & Hprimary & _).
  simpl. rewrite (getEntries_usable parse toStr ls' Hu), Hprimary.
  apply truthy_true in Hne. now rewrite Hne, Hp.
Qed.

Lemma save_then_read_witness :
  fst (StorageService.getEntries Samples.parse Samples.toString
         (snd (StorageService.saveEntries Samples.parse Samples.stringify
                 1700000005000 Samples.storedEntries Samples.corrupted)))
  = Samples.storedEntries.
Proof.
  apply (save_then_read Samples.parse Samples.stringify Samples.toString
           1700000005000 Samples.storedEntries Samples.corrupted);
    [reflexivity | discriminate | reflexivity].
Defined.



(** ** Reading never writes *)

(** X14: [getEntries], [restoreFromBackup], [getSettings] and
    [getLastSaved] write nothing: the store they leave is the store they
    found, but for the key of the availability probe, which is gone from a
    store that can be used even when it was there before. *)
Theorem reads_leave_the_store :
  forall (JSON_parse : string -> option value) (ToString : value -> string)
         (ls : LocalStorage.t),
    let after :=
      if LocalStorage.usable ls
      then LocalStorage.mk true (delete "__storage_test__" (LocalStorage.items ls))
      else ls in
    snd (StorageService.getEntries JSON_parse ToString ls) = after /\
    snd (StorageService.restoreFromBackup JSON_parse ToString ls) = after /\
    snd (StorageService.getSettings JSON_parse ls) = after /\
    snd (StorageService.getLastSaved JSON_parse ls) = after /\
    (forall k, k <> "__storage_test__" ->
               LocalStorage.items after !! k = LocalStorage.items ls !! k).
Proof.
  intros parse toStr ls after. subst after.
  destruct (LocalStorage.usable ls) eqn:Hu.
  - assert (Hr : forall l, LocalStorage.usable l = true ->
                           snd (StorageService.restoreFromBackup parse toStr l) = probed l).
    { intros l Hl. now rewrite (restoreFromBackup_usable parse toStr l Hl). }
    assert (Hs : snd (StorageService.getSettings parse ls) = probed ls)
      by now apply getSettings_usable.
    repeat split.
    + unfold StorageService.getEntries.
      rewrite (isStorageAvailable_usable ls Hu). simpl negb. cbv iota.
      destruct (_ ≫= _) as [v |]; [reflexivity |].
      rewrite (Hr (probed ls) (probed_usable ls)). apply probed_probed.
    + now apply Hr.
    + exact Hs.
    + unfold StorageService.getLastSaved.
      destruct (StorageService.getSettings parse ls) as [settings ls'].
      simpl in Hs. subst ls'.
      now destruct (JsValue.getProp settings "lastSaved").
    + intros k Hk. simpl. now rewrite lookup_delete_ne by congruence.
  - assert (Hs : StorageService.getSettings parse ls = (VObj [], ls)).
    { unfold StorageService.getSettings.
      now rewrite (isStorageAvailable_unusable ls Hu). }
    repeat split.
    + now rewrite (getEntries_unusable parse toStr ls Hu).
    + unfold StorageService.restoreFromBackup.
      now rewrite (isStorageAvailable_unusable ls Hu).
    + now rewrite Hs.
    + unfold StorageService.getLastSaved. now rewrite Hs.
Qed.

(** ** Clearing the store *)

(** X15: on a store that can be used [clearAllData] returns true, empties
    the primary and the backup slot and keeps the settings, after which
    [getEntries] returns the empty collection and so does
    [restoreFromBackup], whatever the slots held; on a store that cannot
    be used it returns false and changes nothing. *)
Theorem clearAllData_empties :
  forall (JSON_parse : string -> option value) (ToString : value -> string)
         (ls : LocalStorage.t),
    let out := StorageService.clearAllData ls in
    (LocalStorage.usable ls = true ->
     fst out = true /\
     LocalStorage.items (snd out) !! StorageService.STORAGE_KEY = None /\
     LocalStorage.items (snd out) !! StorageService.BACKUP_KEY = None /\
     LocalStorage.items (snd out) !! StorageService.SETTINGS_KEY
     = LocalStorage.items ls !! StorageService.SETTINGS_KEY /\
     fst (StorageService.getEntries JSON_parse ToString (snd out)) = VArr [] /\
     fst (StorageService.restoreFromBackup JSON_parse ToString (snd out)) = VArr []) /\
    (LocalStorage.usable ls = false -> out = (false, ls)).
Proof.
  intros parse toStr ls out. subst out. unfold StorageService.clearAllData. split.
  - intros Hu. rewrite (isStorageAvailable_usable ls Hu). simpl.
    assert (Hp : delete StorageService.BACKUP_KEY
                   (delete StorageService.STORAGE_KEY
                      (delete "__storage_test__" (LocalStorage.items ls)))
                 !! StorageService.STORAGE_KEY = None).
    { rewrite lookup_delete_ne by discriminate. apply lookup_delete_eq. }
    assert (Hb : delete StorageService.BACKUP_KEY
                   (delete StorageService.STORAGE_KEY
                      (delete "__storage_test__" (LocalStorage.items ls)))
                 !! StorageService.BACKUP_KEY = None) by apply lookup_delete_eq.
    repeat split.
    + exact Hp.
    + exact Hb.
    + now rewrite !lookup_delete_ne by discriminate.
    + rewrite getEntries_usable by reflexivity. simpl. now rewrite Hp.
    + rewrite restoreFromBackup_usable by reflexivity. simpl.
      unfold recovered. simpl. now rewrite Hb.
  - intros Hu. now rewrite (isStorageAvailable_unusable ls Hu).
Qed.

Lemma clearAllData_empties_witness :
  fst (StorageService.getEntries Samples.parse Samples.toString
         (snd (StorageService.clearAllData Samples.corrupted)))
  = VArr [].
Proof.
  exact (proj1 (proj2 (proj2 (proj2 (proj2
           (proj1 (clearAllData_empties Samples.parse Samples.toString
                     Samples.corrupted) eq_refl)))))).
Defined.

(** ** Importing *)

Lemma importable_object (entry : value) :
  nullish entry = false ->
  StorageService.importable entry = Some (hasRequired entry).
Proof.
  intros Hn. unfold StorageService.importable, hasRequired, propOf.
  destruct (JsValue.getProp entry "id") as [id |] eqn:Hid;
    [| destruct entry; discriminate].
  assert (Hget : forall k, is_Some (JsValue.getProp entry k))
    by (intros k; destruct entry; simpl; eauto; discriminate).
  destruct (Hget "sourceName") as [sn Hsn], (Hget "reflection") as [rf Hrf].
  rewrite Hsn, Hrf. simpl.
  destruct (JsValue.truthy id); simpl; [| reflexivity].
  now destruct (JsValue.truthy sn).
Qed.

Lemma filterImportable_objects (items : list value) :
  Forall (fun entry => nullish entry = false) items ->
  StorageService.filterImportable items = Some (List.filter hasRequired items).
Proof.
  induction 1 as [| entry items He _ IH]; simpl; [reflexivity |].
  rewrite (importable_object entry He), IH. simpl. now destruct (hasRequired entry).
Qed.

Lemma filterImportable_null (items : list value) :
  Exists (fun entry => nullish entry = true) items ->
  StorageService.filterImportable items = None.
Proof.
  induction 1 as [entry items He | entry items _ IH]; simpl.
  - destruct entry; try discriminate; reflexivity.
  - destruct (StorageService.importable entry); [| reflexivity]. now rewrite IH.
Qed.

(** X16: [importEntries] returns false and leaves the store alone when
    what it is given is no array, when the array holds a [null], and when
    no element has a truthy [id], [sourceName] and [reflection]. Otherwise
    it saves the elements that have all three, in their order, in place of
    the stored collection (nothing is merged): on a store that can be used
    the primary slot then holds their printed array, and the elements that
    lack one of the three are dropped without a word. *)
Theorem importEntries_keeps_complete :
  forall (JSON_parse : string -> option value) (JSON_stringify : value -> string)
         (now : Z) (entries : value) (ls : LocalStorage.t),
    let out := StorageService.importEntries JSON_parse JSON_stringify now entries ls in
    ((forall items, entries <> VArr items) -> out = (false, ls)) /\
    (forall items,
        entries = VArr items ->
        Exists (fun entry => nullish entry = true) items ->
        out = (false, ls)) /\
    (forall items,
        entries = VArr items ->
        Forall (fun entry => nullish entry = false) items ->
        (List.filter hasRequired items = [] -> out = (false, ls)) /\
        (List.filter hasRequired items <> [] ->
         out = StorageService.saveEntries JSON_parse JSON_stringify now
                 (VArr (List.filter hasRequired items)) ls /\
         (LocalStorage.usable ls = true ->
          fst out = true /\
          LocalStorage.items (snd out) !! StorageService.STORAGE_KEY
          = Some (JSON_stringify (VArr (List.filter hasRequired items)))))).
Proof.
  intros parse stringify now entries ls out. subst out.
  unfold StorageService.importEntries. split; [| split].
  - intros Hna. destruct entries; try reflexivity. now destruct (Hna items).
  - intros items -> Hex. now rewrite (filterImportable_null items Hex).
  - intros items -> Hall. rewrite (filterImportable_objects items Hall). split.
    + intros ->. reflexivity.
    + intros Hne. destruct (List.filter hasRequired items) as [| v valid] eqn:Hf;
        [congruence |].
      split; [reflexivity |]. intros Hu.
      destruct (saveEntries_usable parse stringify now (VArr (v :: valid)) ls Hu)
        as (ls' & -> & _ & Hp & _).
      now split.
Qed.

Lemma importEntries_keeps_complete_witness :
  LocalStorage.items
    (snd (StorageService.importEntries Samples.parse Samples.stringify 1700000005000
            (VArr [VObj [("id", VNum 3); ("sourceName", VStr "No reflection")];
                   VObj [("id", VNum 1700000000000); ("sourceType", VStr "Book");
                         ("sourceName", VStr "Deep Work");
                         ("reflection", VStr "Great book about focus.")];
                   VStr "not an entry"])
            Samples.corrupted))
  !! StorageService.STORAGE_KEY
  = Some (Samples.stringify Samples.storedEntries).
Proof.
  refine (proj2 (proj2 (proj2 (proj2 (proj2
            (importEntries_keeps_complete Samples.parse Samples.stringify
               1700000005000 _ Samples.corrupted)) _ eq_refl _) _) eq_refl)).
  - repeat constructor.
  - discriminate.
Defined.

(** ** The time of the last save *)

Lemma assoc_setAssoc (k : string) (v : value) (props : list (string * value)) :
  JsValue.assoc k (StorageService.setAssoc k v props) = Some v.
Proof.
  induction props as [| [k' v'] props IH]; simpl.
  - now rewrite String.eqb_refl.
  - destruct (String.eqb k k') eqn:Hk; simpl; [now rewrite String.eqb_refl |].
    now rewrite Hk.
Qed.

(** X17: after [saveEntries] on a store that can be used and whose
    settings read as an object, [getLastSaved] returns the time of the
    save, provided the settings with that time print to a text that is not
    empty and parses back. When the settings read as an array the time is
    not recorded at all. *)
Theorem getLastSaved_after_save :
  forall (JSON_parse : string -> option value) (JSON_stringify : value -> string)
         (now : Z) (entries : value) (ls : LocalStorage.t)
         (props : list (string * value)),
    LocalStorage.usable ls = true ->
    fst (StorageService.getSettings JSON_parse ls) = VObj props ->
    let settings :=
      VObj (StorageService.setAssoc "lastSaved" (VStr (JsDate.toISOString now)) props) in
    JSON_stringify settings <> "" ->
    JSON_parse (JSON_stringify settings) = Some settings ->
    fst (StorageService.getLastSaved JSON_parse
           (snd (StorageService.saveEntries JSON_parse JSON_stringify now entries ls)))
    = VStr (JsDate.toISOString now).
Proof.
  intros parse stringify now entries ls props Hu Hsettings settings Hne Hp.
  assert (Hread : forall l, LocalStorage.usable l = true ->
            fst (StorageService.getSettings parse l)
            = match LocalStorage.items l !! StorageService.SETTINGS_KEY with
              | Some s => if JsString.truthy s then default (VObj []) (parse s)
                          else VObj []
              | None => VObj []
              end).
  { intros l Hl. unfold StorageService.getSettings.
    rewrite (isStorageAvailable_usable l Hl). simpl negb. cbv iota.
    rewrite getItem_probed by discriminate. simpl.
    destruct (LocalStorage.items l !! StorageService.SETTINGS_KEY) as [s |];
      [| reflexivity].
    now destruct (JsString.truthy s). }
  rewrite (Hread ls Hu) in Hsettings.
  (* the store after the backup and the primary slot are written *)
  unfold StorageService.saveEntries.
  rewrite (isStorageAvailable_usable ls Hu). simpl negb. cbv iota.
  destruct (createBackup_usable stringify now (probed ls) (probed_usable ls))
    as (lb & Hb & Hub & _ & Hframe).
  rewrite Hb. unfold LocalStorage.setItem at 1. rewrite Hub.
  set (lp := LocalStorage.mk true
               (<[StorageService.STORAGE_KEY := stringify entries]>
                  (LocalStorage.items lb))).
  assert (Hlp : LocalStorage.items lp !! StorageService.SETTINGS_KEY
                = LocalStorage.items ls !! StorageService.SETTINGS_KEY).
  { subst lp. simpl. rewrite lookup_insert_ne by discriminate.
    rewrite Hframe by discriminate. unfold probed. simpl.
    now rewrite lookup_delete_ne by discriminate. }
  (* the settings are read, stamped and written *)
  simpl snd. unfold StorageService.updateLastSaved.
  rewrite (isStorageAvailable_usable lp eq_refl).
  pose proof (getSettings_usable parse (probed lp) (probed_usable lp)) as Hs2.
  pose proof (Hread (probed lp) (probed_usable lp)) as Hs1.
  destruct (StorageService.getSettings parse (probed lp)) as [settings0 ls0].
  cbn [fst snd] in Hs1, Hs2. subst ls0.
  assert (Hk : LocalStorage.items (probed lp) !! StorageService.SETTINGS_KEY
               = LocalStorage.items ls !! StorageService.SETTINGS_KEY).
  { unfold probed. cbn [LocalStorage.items].
    rewrite lookup_delete_ne by discriminate. exact Hlp. }
  rewrite Hk, Hsettings in Hs1. subst settings0.
  cbn [StorageService.setProp mbind option_bind]. fold settings.
  (* and read again *)
  unfold StorageService.getLastSaved.
  match goal with
  | |- context [StorageService.getSettings parse ?l] =>
      pose proof (Hread l eq_refl) as Hs3;
      destruct (StorageService.getSettings parse l) as [settings3 ls3]
  end.
  simpl in Hs3. rewrite lookup_insert_eq in Hs3.
  apply truthy_true in Hne. rewrite Hne, Hp in Hs3. simpl in Hs3. subst settings3.
  simpl. rewrite assoc_setAssoc. simpl. now rewrite toISOString_truthy.
Qed.

Lemma getLastSaved_after_save_witness :
  fst (StorageService.getLastSaved MoreSamples.parse
         (snd (StorageService.saveEntries MoreSamples.parse Samples.stringify
                 1700000000000 (VArr []) (LocalStorage.mk true ∅))))
  = VStr "2023-11-14T22:13:20.000Z".
Proof.
  apply (getLastSaved_after_save MoreSamples.parse Samples.stringify
           1700000000000 (VArr []) (LocalStorage.mk true ∅) []);
    try reflexivity; discriminate.
Defined.

(** ** Clearing the collection *)

(** X18: [clearAllEntries] always returns true, leaves the service with no
    entry, so that no id is found any more, and calls each subscriber once
    with [entries_cleared] and no entry. On a store that can be used the
    primary slot then holds the printed empty collection and the backup
    slot the text that the primary slot held before the call, when that
    was not empty; on a store that cannot be used nothing is written, and
    the call returns true all the same. *)
Theorem clearAllEntries_resets :
  forall (JSON_parse : string -> option value) (JSON_stringify : value -> string)
         (now : Z) (ds : DataService.t),
    let out := DataService.clearAllEntries JSON_parse JSON_stringify now ds in
    fst out = true /\
    DataService.entries (snd out) = [] /\
    (forall id, DataService.getEntryById id (snd out) = None) /\
    DataService.delivered (snd out)
    = (DataService.delivered ds
       ++ map (fun callback => (callback, DataService.mkEvent "entries_cleared" None))
              (DataService.observers ds))%list /\
    (LocalStorage.usable (DataService.storage ds) = true ->
     LocalStorage.items (DataService.storage (snd out)) !! StorageService.STORAGE_KEY
     = Some (JSON_stringify (VArr [])) /\
     forall data,
       LocalStorage.items (DataService.storage ds) !! StorageService.STORAGE_KEY
       = Some data ->
       data <> "" ->
       LocalStorage.items (DataService.storage (snd out)) !! StorageService.BACKUP_KEY
       = Some (JSON_stringify
                 (VObj [("data", VStr data);
                        ("timestamp", VStr (JsDate.toISOString now))]))) /\
    (LocalStorage.usable (DataService.storage ds) = false ->
     DataService.storage (snd out) = DataService.storage ds).
Proof.
  intros parse stringify now ds out. subst out.
  unfold DataService.clearAllEntries, DataService.saveEntries. simpl.
  split; [reflexivity |]. split; [reflexivity |]. split; [reflexivity |].
  split; [reflexivity |]. split.
  - intros Hu.
    destruct (saveEntries_usable parse stringify now (VArr []) _ Hu)
      as (ls' & -> & _ & Hp & Hb & _).
    split; [exact Hp |]. intros data Hdata Hne.
    simpl. rewrite Hb, Hdata. unfold backupAfterSave.
    apply truthy_true in Hne. now rewrite Hne.
  - intros Hu. now rewrite (saveEntries_unusable parse stringify now (VArr []) _ Hu).
Qed.

(** ** File names *)

Section FileNames.

Import ExportService.

Lemma isAlphanumeric_not_dash c : isAlphanumeric c = true -> Ascii.eqb c dash = false.
Proof. destruct c as [[] [] [] [] [] [] [] []]; vm_compute; intros; congruence. Qed.

Lemma lowerChar_fileNameChar c :
  (isAlphanumeric c || Ascii.eqb c dash) = true ->
  fileNameChar (JsString.lowerChar c) = true.
Proof. destruct c as [[] [] [] [] [] [] [] []]; vm_compute; intros; congruence. Qed.

Lemma lowerChar_dash c :
  (isAlphanumeric c || Ascii.eqb c dash) = true ->
  Ascii.eqb (JsString.lowerChar c) dash = Ascii.eqb c dash.
Proof. destruct c as [[] [] [] [] [] [] [] []]; vm_compute; intros; congruence. Qed.

Lemma lowerChar_alphanumeric c :
  isAlphanumeric (JsString.lowerChar c) = isAlphanumeric c.
Proof. destruct c as [[] [] [] [] [] [] [] []]; reflexivity. Qed.

Definition rawChar (c : ascii) : bool := isAlphanumeric c || Ascii.eqb c dash.

Lemma dashOthers_chars s : allChars rawChar (dashOthers s) = true.
Proof.
  induction s as [| c s IH]; simpl; [reflexivity |].
  rewrite IH, andb_true_r. unfold rawChar.
  destruct (isAlphanumeric c) eqn:Hc; [now rewrite Hc | reflexivity].
Qed.

Lemma dashOthers_hasAlnum s : hasAlnum (dashOthers s) = hasAlnum s.
Proof.
  induction s as [| c s IH]; simpl; [reflexivity |].
  rewrite IH. destruct (isAlphanumeric c) eqn:Hc; [now rewrite Hc | reflexivity].
Qed.

Lemma squeezeDashes_chars p s :
  allChars p s = true -> allChars p (squeezeDashes s) = true.
Proof.
  induction s as [| c s IH]; simpl; [reflexivity |].
  intros H. apply andb_true_iff in H as [Hc Hs].
  destruct (Ascii.eqb c dash && startsWithDash s); [now apply IH |].
  simpl. now rewrite Hc, IH.
Qed.

Lemma squeezeDashes_starts s :
  startsWithDash (squeezeDashes s) = startsWithDash s.
Proof.
  induction s as [| c s IH]; simpl; [reflexivity |].
  destruct (Ascii.eqb c dash) eqn:Hc; simpl; [| now rewrite Hc].
  destruct (startsWithDash s) eqn:Hs; simpl; [now rewrite IH | now rewrite Hc].
Qed.

Lemma squeezeDashes_single s : noDoubleDash (squeezeDashes s) = true.
Proof.
  induction s as [| c s IH]; simpl; [reflexivity |].
  destruct (Ascii.eqb c dash && startsWithDash s) eqn:Hd; [exact IH |].
  simpl. now rewrite squeezeDashes_starts, Hd, IH.
Qed.

Lemma squeezeDashes_hasAlnum s : hasAlnum (squeezeDashes s) = hasAlnum s.
Proof.
  induction s as [| c s IH]; simpl; [reflexivity |].
  destruct (Ascii.eqb c dash && startsWithDash s) eqn:Hd; simpl; [| now rewrite IH].
  apply andb_true_iff in Hd as [Hc _]. rewrite IH.
  destruct (isAlphanumeric c) eqn:Ha; [| reflexivity].
  apply isAlphanumeric_not_dash in Ha. congruence.
Qed.

Lemma dropFirstDash_props p s :
  allChars p s = true -> noDoubleDash s = true ->
  allChars p (dropFirstDash s) = true /\ noDoubleDash (dropFirstDash s) = true
  /\ startsWithDash (dropFirstDash s) = false
  /\ hasAlnum (dropFirstDash s) = hasAlnum s.
Proof.
  destruct s as [| c s]; simpl; [now repeat split |].
  intros Hp Hn. apply andb_true_iff in Hp as [Hc Hs].
  apply andb_true_iff in Hn as [Hd Hn].
  destruct (Ascii.eqb c dash) eqn:Hcd; simpl in *.
  - repeat split; try assumption.
    + now apply negb_true_iff in Hd.
    + destruct (isAlphanumeric c) eqn:Ha; [| reflexivity].
      apply isAlphanumeric_not_dash in Ha. congruence.
  - rewrite Hc, Hs, Hn, Hcd. now repeat split.
Qed.

Lemma dropLastDash_starts s :
  startsWithDash s = false -> startsWithDash (dropLastDash s) = false.
Proof.
  destruct s as [| x [| y u]]; simpl; try trivial.
  intros H. now rewrite H.
Qed.

Lemma dropLastDash_cons x y u :
  dropLastDash (String x (String y u)) = String x (dropLastDash (String y u)).
Proof. reflexivity. Qed.

Lemma dropLastDash_props p s :
  allChars p s = true -> noDoubleDash s = true -> startsWithDash s = false ->
  allChars p (dropLastDash s) = true /\ noDoubleDash (dropLastDash s) = true
  /\ startsWithDash (dropLastDash s) = false
  /\ hasAlnum (dropLastDash s) = hasAlnum s.
Proof.
  intros Hp Hn Hst.
  assert (Hgen : allChars p (dropLastDash s) = true
                 /\ noDoubleDash (dropLastDash s) = true
                 /\ hasAlnum (dropLastDash s) = hasAlnum s).
  { clear Hst. induction s as [| x u IHu]; [now repeat split |].
    simpl in Hp, Hn.
    apply andb_true_iff in Hp as [Hx Hu]. apply andb_true_iff in Hn as [Hxd Hnu].
    destruct (IHu Hu Hnu) as (I1 & I2 & I3).
    destruct u as [| y u].
    - simpl. destruct (Ascii.eqb x dash) eqn:Hxe.
      + repeat split. simpl.
        destruct (isAlphanumeric x) eqn:Ha; [| reflexivity].
        apply isAlphanumeric_not_dash in Ha. congruence.
      + simpl. rewrite Hx, Hxe. now repeat split.
    - rewrite dropLastDash_cons.
      cbn [allChars noDoubleDash hasAlnum]. rewrite Hx, I1, I2, I3.
      repeat split. rewrite andb_true_r. apply negb_true_iff.
      destruct (Ascii.eqb x dash) eqn:Hxe; [| reflexivity]. cbn [andb].
      apply dropLastDash_starts. cbn [andb] in Hxd.
      now apply negb_true_iff in Hxd. }
  destruct Hgen as (G1 & G2 & G3). repeat split; try assumption.
  now apply dropLastDash_starts.
Qed.

Lemma toLowerCase_props s :
  allChars rawChar s = true ->
  allChars fileNameChar (JsString.toLowerCase s) = true
  /\ noDoubleDash (JsString.toLowerCase s) = noDoubleDash s
  /\ startsWithDash (JsString.toLowerCase s) = startsWithDash s
  /\ hasAlnum (JsString.toLowerCase s) = hasAlnum s.
Proof.
  induction s as [| c s IH]; [now repeat split |].
  simpl. intros H. apply andb_true_iff in H as [Hc Hs].
  destruct (IH Hs) as (I1 & I2 & I3 & I4).
  rewrite (lowerChar_fileNameChar c Hc), I1, I2, I3, I4,
    (lowerChar_dash c Hc), lowerChar_alphanumeric.
  now repeat split.
Qed.

Lemma take_props p n s :
  allChars p s = true -> noDoubleDash s = true ->
  allChars p (take n s) = true /\ noDoubleDash (take n s) = true
  /\ (String.length (take n s) <= n)%nat
  /\ (startsWithDash s = false -> startsWithDash (take n s) = false).
Proof.
  revert s. induction n as [| n IH]; intros s Hp Hn.
  - destruct s; simpl; repeat split; lia.
  - destruct s as [| c s]; simpl; [repeat split; lia |].
    simpl in Hp, Hn. apply andb_true_iff in Hp as [Hc Hs].
    apply andb_true_iff in Hn as [Hd Hn].
    destruct (IH s Hs Hn) as (I1 & I2 & I3 & I4).
    rewrite Hc, I1, I2. repeat split; [| lia | trivial].
    rewrite andb_true_r. apply negb_true_iff.
    destruct (Ascii.eqb c dash) eqn:Hcd; [| reflexivity]. cbn [andb] in *.
    apply negb_true_iff in Hd. now apply I4.
Qed.

Lemma fileName_empty s :
  allChars rawChar s = true -> noDoubleDash s = true -> startsWithDash s = false ->
  (s = "" <-> hasAlnum s = false).
Proof.
  destruct s as [| c s]; simpl; [now split |].
  intros Hp _ Hst. apply andb_true_iff in Hp as [Hc _].
  unfold rawChar in Hc. rewrite Hst, orb_false_r in Hc. rewrite Hc.
  split; discriminate.
Qed.

Lemma sanitizeFileName_props (str : string) :
  allChars fileNameChar (sanitizeFileName str) = true /\
  (String.length (sanitizeFileName str) <= 50)%nat /\
  noDoubleDash (sanitizeFileName str) = true /\
  startsWithDash (sanitizeFileName str) = false /\
  (sanitizeFileName str = "" <-> hasAlnum str = false).
Proof.
  unfold sanitizeFileName.
  pose proof (dashOthers_chars str) as H1.
  pose proof (squeezeDashes_chars _ _ H1) as H2.
  pose proof (squeezeDashes_single (dashOthers str)) as N2.
  destruct (dropFirstDash_props _ _ H2 N2) as (H3 & N3 & S3 & A3).
  destruct (dropLastDash_props _ _ H3 N3 S3) as (H4 & N4 & S4 & A4).
  destruct (toLowerCase_props _ H4) as (H5 & N5 & S5 & A5).
  rewrite N4 in N5. rewrite S4 in S5.
  destruct (take_props fileNameChar 50 _ H5 N5) as (H6 & N6 & L6 & S6).
  repeat split; try assumption.
  - now apply S6.
  - intros Hempty.
    rewrite <- dashOthers_hasAlnum, <- squeezeDashes_hasAlnum, <- A3, <- A4.
    apply (fileName_empty _ H4 N4 S4).
    destruct (dropLastDash _) as [| c u]; [reflexivity |].
    discriminate.
  - intros Hno.
    rewrite <- dashOthers_hasAlnum, <- squeezeDashes_hasAlnum, <- A3, <- A4 in Hno.
    apply (fileName_empty _ H4 N4 S4) in Hno. now rewrite Hno.
Qed.

End FileNames.

(** X19: the file name [sanitizeFileName] makes holds nothing but the
    letters a to z, the digits and the dash, is at most 50 characters long,
    has no two dashes in a row and does not start with a dash; and it is
    empty exactly when the string it is made from holds no letter and no
    digit. *)
Theorem sanitizeFileName_is_safe :
  forall str : string,
    let name := ExportService.sanitizeFileName str in
    allChars fileNameChar name = true /\
    (String.length name <= 50)%nat /\
    noDoubleDash name = true /\
    ExportService.startsWithDash name = false /\
    (name = "" <-> hasAlnum str = false).
Proof. intros str. exact (sanitizeFileName_props str). Qed.

(** ** Grouping by source type *)

Section Grouping.

Import ExportService.

Lemma hasGroup_In type groups : hasGroup type groups = true <-> In type (map fst groups).
Proof.
  induction groups as [| [k l] groups IH]; simpl; [split; [discriminate | tauto] |].
  rewrite orb_true_iff, IH, String.eqb_eq. intuition congruence.
Qed.

Lemma groupOf_missing type groups :
  ~ In type (map fst groups) -> groupOf type groups = [].
Proof.
  unfold groupOf. induction groups as [| [k l] groups IH]; simpl; [reflexivity |].
  intros Hn. destruct (String.eqb type k) eqn:Hk.
  - apply String.eqb_eq in Hk. exfalso. apply Hn. now left.
  - apply IH. intros Hin. apply Hn. now right.
Qed.

Lemma groupOf_pushInto type entry groups type' :
  In type (map fst groups) ->
  groupOf type' (pushInto type entry groups)
  = (groupOf type' groups ++ (if String.eqb type' type then [entry] else []))%list.
Proof.
  unfold groupOf. induction groups as [| [k l] groups IH]; simpl; [tauto |].
  intros Hin. destruct (String.eqb type k) eqn:Hk; simpl.
  - apply String.eqb_eq in Hk. subst k.
    destruct (String.eqb type' type) eqn:Hk'; simpl; [reflexivity |].
    now rewrite app_nil_r.
  - destruct (String.eqb type' k) eqn:Hk'; simpl.
    + apply String.eqb_eq in Hk'. subst k.
      rewrite String.eqb_sym, Hk. simpl. now rewrite app_nil_r.
    + apply IH. destruct Hin as [Heq | Hin]; [| exact Hin].
      apply String.eqb_neq in Hk. congruence.
Qed.

Lemma keys_pushInto type entry groups :
  map fst (pushInto type entry groups) = map fst groups.
Proof.
  induction groups as [| [k l] groups IH]; simpl; [reflexivity |].
  destruct (String.eqb type k); simpl; [reflexivity | now rewrite IH].
Qed.

Lemma members_pushInto type entry groups :
  In type (map fst groups) ->
  concat (map snd (pushInto type entry groups)) ≡ₚ entry :: concat (map snd groups).
Proof.
  induction groups as [| [k l] groups IH]; simpl; [tauto |].
  intros Hin. destruct (String.eqb type k) eqn:Hk; simpl.
  - rewrite <- app_assoc. rewrite (Permutation_app_comm l). simpl.
    symmetry. rewrite Permutation_middle. now rewrite Permutation_app_comm.
  - rewrite IH.
    + now rewrite Permutation_middle.
    + destruct Hin as [Heq | Hin]; [| exact Hin].
      apply String.eqb_neq in Hk. congruence.
Qed.

Lemma groupOf_new type entry groups type' :
  ~ In type (map fst groups) ->
  groupOf type' (groups ++ [(type, [entry])])
  = (groupOf type' groups ++ (if String.eqb type' type then [entry] else []))%list.
Proof.
  unfold groupOf. induction groups as [| [k l] groups IH]; simpl.
  - intros _. now destruct (String.eqb type' type).
  - intros Hn. destruct (String.eqb type' k) eqn:Hk; simpl.
    + apply String.eqb_eq in Hk. subst k.
      destruct (String.eqb type' type) eqn:Hk'; [| now rewrite app_nil_r].
      apply String.eqb_eq in Hk'. exfalso. apply Hn. now left.
    + apply IH. intros Hin. apply Hn. now right.
Qed.

(** What the [reduce] keeps true of the groups built from the entries
    [done]. *)
Definition grouped (groups : list (string * list Entry.t)) (done : list Entry.t) : Prop :=
  NoDup (map fst groups) /\
  (forall type, groupOf type groups = List.filter (ofType type) done) /\
  (forall type, In type (map fst groups) <->
                exists e, In e done /\ typeKey e = type) /\
  concat (map snd groups) ≡ₚ done /\
  Forall (fun e => JsString.includes inheritedKeys (typeKey e) = false) done.

Lemma addToGroup_grouped groups done entry :
  grouped groups done ->
  match addToGroup groups entry with
  | Some groups' => grouped groups' (done ++ [entry])
  | None => JsString.includes inheritedKeys (typeKey entry) = true
  end.
Proof.
  intros (Hnd & Hof & Hkeys & Hperm & Hsafe). unfold addToGroup.
  assert (Hfilter : forall type,
             List.filter (ofType type) (done ++ [entry])
             = (List.filter (ofType type) done
                ++ (if String.eqb type (typeKey entry) then [entry] else []))%list).
  { intros type. rewrite List.filter_app. simpl. unfold ofType at 2.
    rewrite String.eqb_sym. now destruct (String.eqb type (typeKey entry)). }
  assert (Hkeys' : forall keys type,
             (In type keys <-> exists e, In e done /\ typeKey e = type) ->
             (In type keys \/ type = typeKey entry <->
              exists e, In e (done ++ [entry]) /\ typeKey e = type)).
  { intros keys type Hk. rewrite Hk. split.
    - intros [(e & He & Ht) | ->].
      + exists e. split; [apply in_or_app; now left | exact Ht].
      + exists entry. split; [apply in_or_app; right; now left | reflexivity].
    - intros (e & He & Ht). apply in_app_or in He as [He | [<- | []]].
      + left. now exists e.
      + now right. }
  destruct (hasGroup (typeKey entry) groups) eqn:Hhas.
  - apply hasGroup_In in Hhas. repeat split.
    + now rewrite keys_pushInto.
    + intros type. rewrite (groupOf_pushInto _ _ _ _ Hhas), Hof. symmetry. apply Hfilter.
    + rewrite keys_pushInto. intros Hin.
      apply (proj1 (Hkeys' _ type (Hkeys type))). now left.
    + rewrite keys_pushInto. intros Hex.
      apply (proj2 (Hkeys' _ type (Hkeys type))) in Hex as [Hin | ->]; assumption.
    + rewrite (members_pushInto _ _ _ Hhas), Hperm.
      now rewrite Permutation_cons_append.
    + apply Forall_app. split; [exact Hsafe |]. constructor; [| constructor].
      apply (proj1 (Hkeys _)) in Hhas as (e & He & Ht).
      rewrite <- Ht. now apply (proj1 (Forall_forall _ _) Hsafe), list_elem_of_In.
  - assert (Hnew : ~ In (typeKey entry) (map fst groups)).
    { intros Hin. apply hasGroup_In in Hin. congruence. }
    destruct (JsString.includes inheritedKeys (typeKey entry)) eqn:Hinh; [reflexivity |].
    repeat split.
    + rewrite map_app. simpl. apply NoDup_app. split; [exact Hnd |]. split.
      * intros x Hx Hx'. apply list_elem_of_In in Hx, Hx'.
        destruct Hx' as [<- | []]. now apply Hnew.
      * apply NoDup_singleton.
    + intros type. rewrite (groupOf_new _ _ _ _ Hnew), Hof. symmetry. apply Hfilter.
    + rewrite map_app. simpl. intros Hin.
      apply (proj1 (Hkeys' _ type (Hkeys type))).
      apply in_app_or in Hin as [Hin | [<- | []]]; [now left | now right].
    + rewrite map_app. simpl. intros Hex.
      apply (proj2 (Hkeys' _ type (Hkeys type))) in Hex as [Hin | ->];
        apply in_or_app; [now left | right; now left].
    + rewrite map_app, concat_app. simpl. rewrite ?app_nil_r. now rewrite Hperm.
    + apply Forall_app. split; [exact Hsafe |]. now repeat constructor.
Qed.

Lemma groupFrom_grouped entries groups done :
  grouped groups done ->
  match groupFrom groups entries with
  | Some groups' => grouped groups' (done ++ entries)
  | None => Exists (fun e => JsString.includes inheritedKeys (typeKey e) = true) entries
  end.
Proof.
  revert groups done. induction entries as [| entry entries IH]; intros groups done Hg.
  - simpl. now rewrite app_nil_r.
  - simpl. pose proof (addToGroup_grouped groups done entry Hg) as Hstep.
    destruct (addToGroup groups entry) as [groups' |].
    + specialize (IH groups' (done ++ [entry])%list Hstep).
      rewrite <- app_assoc in IH. simpl in IH.
      destruct (groupFrom groups' entries); [exact IH | now apply Exists_cons_tl].
    + now apply Exists_cons_hd.
Qed.

Lemma insertKey_permutation k l : insertKey k l ≡ₚ k :: l.
Proof.
  induction l as [| k' l IH]; simpl; [reflexivity |].
  destruct (String.leb k k'); [reflexivity |].
  rewrite IH. apply Permutation_swap.
Qed.

Lemma sortKeys_permutation l : sortKeys l ≡ₚ l.
Proof.
  unfold sortKeys. induction l as [| k l IH]; simpl; [reflexivity |].
  now rewrite insertKey_permutation, IH.
Qed.

Lemma insertKey_sorted k l :
  Sorted (fun a b => String.leb a b = true) l ->
  Sorted (fun a b => String.leb a b = true) (insertKey k l).
Proof.
  induction l as [| k' l IH]; simpl; intros Hs; [repeat constructor |].
  destruct (String.leb k k') eqn:Hk.
  - constructor; [exact Hs | now constructor].
  - apply Sorted_inv in Hs as [Hs Hhd].
    assert (Hk' : String.leb k' k = true).
    { destruct (String.leb_total k k') as [H | H]; [congruence | exact H]. }
    constructor; [now apply IH |].
    destruct l as [| k'' l]; simpl; [now constructor |].
    destruct (String.leb k k''); constructor; [exact Hk' |].
    now apply HdRel_inv in Hhd.
Qed.

Lemma sortKeys_sorted l : Sorted (fun a b => String.leb a b = true) (sortKeys l).
Proof.
  unfold sortKeys. induction l as [| k l IH]; simpl; [constructor |].
  now apply insertKey_sorted.
Qed.

Lemma concat_groups groups :
  NoDup (map fst groups) ->
  concat (map (fun type => groupOf type groups) (map fst groups))
  = concat (map snd groups).
Proof.
  induction groups as [| [k l] groups IH]; simpl; [reflexivity |].
  intros Hnd. apply NoDup_cons in Hnd as [Hk Hnd].
  unfold groupOf at 1. simpl. rewrite String.eqb_refl. simpl. f_equal.
  rewrite <- (IH Hnd). f_equal. apply map_ext_in. intros type Hin.
  unfold groupOf. simpl.
  destruct (String.eqb type k) eqn:Ht; [| reflexivity].
  apply String.eqb_eq in Ht. subst type. exfalso. apply Hk.
  now apply list_elem_of_In.
Qed.

End Grouping.

(** X20: [groupEntriesByType] throws exactly when the source type of some
    entry is the name of a property every object inherits ([constructor],
    [toString], [__proto__] and the like). Otherwise no type has two
    groups; the group of a type holds the entries of that type, all of
    them, in the order of the collection, and there is a group for a type
    exactly when some entry has it; and the groups taken by their sorted
    keys, as the Markdown export walks them, hold every entry once, the
    keys in ascending order. *)
Theorem groupEntriesByType_partitions :
  forall entries : list Entry.t,
    (ExportService.groupEntriesByType entries = None <->
     Exists (fun e => In (ExportService.typeKey e) ExportService.inheritedKeys) entries) /\
    (forall groups,
        ExportService.groupEntriesByType entries = Some groups ->
        NoDup (map fst groups) /\
        (forall type,
            ExportService.groupOf type groups = List.filter (ofType type) entries) /\
        (forall type,
            In type (map fst groups) <->
            exists e, In e entries /\ ExportService.typeKey e = type) /\
        Sorted (fun a b => String.leb a b = true)
               (ExportService.sortKeys (map fst groups)) /\
        concat (map (fun type => ExportService.groupOf type groups)
                    (ExportService.sortKeys (map fst groups)))
        ≡ₚ entries).
Proof.
  intros entries.
  assert (Hempty : grouped [] []).
  { repeat split; simpl; try constructor; try tauto.
    intros (e & [] & _). }
  pose proof (groupFrom_grouped entries [] [] Hempty) as Hg. simpl in Hg.
  unfold ExportService.groupEntriesByType. split.
  - destruct (ExportService.groupFrom [] entries) as [groups |].
    + split; [discriminate |]. intros Hex. exfalso.
      destruct Hg as (_ & _ & _ & _ & Hsafe).
      apply Exists_exists in Hex as (e & He & Hin).
      apply (proj1 (Forall_forall _ _) Hsafe) in He.
      apply includes_true in Hin. congruence.
    + split; [| reflexivity]. intros _.
      eapply Exists_impl; [exact Hg |]. intros e He. now apply includes_true.
  - intros groups Hgroups. rewrite Hgroups in Hg.
    destruct Hg as (Hnd & Hof & Hkeys & Hperm & _).
    repeat split; try assumption.
    + now apply (proj1 (Hkeys type)).
    + now apply (proj2 (Hkeys type)).
    + apply sortKeys_sorted.
    + rewrite (sortKeys_permutation (map fst groups)).
      now rewrite (concat_groups groups Hnd).
Qed.

(** ** The Markdown export *)

Section Markdown.

Import ExportService.

Lemma append_assoc (a b c : string) : (a +:+ b) +:+ c = a +:+ (b +:+ c).
Proof.
  induction a as [| x a IH]; [reflexivity |].
  change (String x ((a +:+ b) +:+ c) = String x (a +:+ (b +:+ c))). now f_equal.
Qed.

Lemma append_empty (a : string) : a +:+ "" = a.
Proof.
  induction a as [| x a IH]; [reflexivity |].
  change (String x (a +:+ "") = String x a). now f_equal.
Qed.

Lemma fold_append {A : Type} (f : A -> string) (l : list A) (markdown : string) :
  fold_left (fun markdown x => markdown +:+ f x) l markdown
  = markdown +:+ text (map f l).
Proof.
  revert markdown. induction l as [| x l IH]; intros markdown.
  - cbn [fold_left map text foldr]. now rewrite append_empty.
  - cbn [fold_left map]. rewrite IH. unfold text. cbn [foldr]. apply append_assoc.
Qed.

Lemma appendSections_text groups markdown :
  appendSections groups markdown
  = markdown +:+
    text (map (fun type => heading type +:+
                           text (map entryToMarkdown (groupOf type groups)))
              (sortKeys (map fst groups))).
Proof.
  unfold appendSections. generalize (sortKeys (map fst groups)) as keys.
  intros keys. revert markdown. induction keys as [| type keys IH]; intros markdown.
  - cbn [fold_left map text foldr]. now rewrite append_empty.
  - cbn [fold_left map]. rewrite IH, fold_append.
    unfold text, heading. cbn [foldr]. now rewrite !append_assoc.
Qed.

Lemma getStatistics_None (Date_parse : string -> option Z) week now ds :
  DataService.getStatistics Date_parse week now ds = None <->
  Exists (fun e => Entry.sourceName e = None) (DataService.entries ds).
Proof.
  unfold DataService.getStatistics.
  destruct (mapM _ (DataService.entries ds)) as [names |] eqn:Hm; simpl.
  - split; [discriminate |]. intros Hex.
    assert (Hn : mapM (fun e => JsString.toLowerCase <$> Entry.sourceName e)
                      (DataService.entries ds) = None).
    { apply mapM_None. eapply Exists_impl; [exact Hex |].
      intros e He. simpl. now rewrite He. }
    congruence.
  - split; [| reflexivity]. intros _. apply mapM_None in Hm.
    eapply Exists_impl; [exact Hm |]. intros e He. simpl in He.
    now destruct (Entry.sourceName e).
Qed.

Lemma groupEntriesByType_grouped entries :
  match groupEntriesByType entries with
  | Some groups => grouped groups entries
  | None => Exists (fun e => JsString.includes inheritedKeys (typeKey e) = true) entries
  end.
Proof.
  assert (Hempty : grouped [] []).
  { repeat split; simpl; try constructor; try tauto.
    intros (e & [] & _). }
  exact (groupFrom_grouped entries [] [] Hempty).
Qed.

Lemma exportAsMarkdownWith_document
      (Date_parse : string -> option Z) (week : Z -> Z) (longDate : Z -> string)
      (listed : list Entry.t) (now : Z) (ds : DataService.t) (b : browser) :
  let out := exportAsMarkdownWith Date_parse week longDate listed now ds b in
  (fst out = true <->
   Forall (fun e => Entry.sourceName e <> None) (DataService.entries ds) /\
   Forall (fun e => ~ In (typeKey e) inheritedKeys) listed) /\
  (fst out = false ->
   downloads (snd out) = downloads b /\
   alerts (snd out)
   = (alerts b ++ ["Failed to export data as Markdown. Please try again."])%list) /\
  (fst out = true ->
   alerts (snd out) = alerts b /\
   exists stats types,
     DataService.getStatistics Date_parse week now ds = Some stats /\
     Sorted (fun a b => String.leb a b = true) types /\
     NoDup types /\
     (forall type, In type types <-> exists e, In e listed /\ typeKey e = type) /\
     downloads (snd out)
     = (downloads b
        ++ [mkDownload
              (generateMarkdownHeader longDate now stats +:+
               text (map (sectionOf listed) types) +:+
               generateMarkdownFooter)
              ("reading-journal-" +:+ getDateString now +:+ ".md")
              "text/markdown"])%list).
Proof.
  intros out. subst out. unfold exportAsMarkdownWith, markdownDocument.
  pose proof (getStatistics_None Date_parse week now ds) as Hstats.
  pose proof (groupEntriesByType_grouped listed) as Hgroups.
  destruct (DataService.getStatistics Date_parse week now ds) as [stats |];
    cbn [mbind option_bind option_ret mret].
  - destruct (groupEntriesByType listed) as [groups |];
      cbn [mbind option_bind fst snd downloads alerts].
    + destruct Hgroups as (Hnd & Hof & Hkeys & _ & Hsafe).
      split; [| split].
      * split; [| reflexivity]. intros _. split.
        -- apply Forall_forall. intros e He Hn.
           assert (Hsome : Some stats = None); [| discriminate].
           apply Hstats. apply Exists_exists. exists e. split; [exact He | exact Hn].
        -- apply Forall_forall. intros e He Hin.
           pose proof (proj2 (includes_true inheritedKeys (typeKey e)) Hin) as Hinc.
           apply (proj1 (Forall_forall _ _) Hsafe) in He. congruence.
      * discriminate.
      * intros _. split; [reflexivity |].
        exists stats, (sortKeys (map fst groups)).
        split; [reflexivity |]. split; [apply sortKeys_sorted |].
        split; [now rewrite sortKeys_permutation |]. split.
        -- intros type. rewrite <- (list_elem_of_In _ type), sortKeys_permutation.
           rewrite list_elem_of_In. apply Hkeys.
        -- rewrite appendSections_text, append_assoc.
           replace (map (sectionOf listed) (sortKeys (map fst groups)))
             with (map (fun type => heading type +:+
                                    text (map entryToMarkdown (groupOf type groups)))
                       (sortKeys (map fst groups))); [reflexivity |].
           apply map_ext. intros type. unfold sectionOf. now rewrite Hof.
    + split; [| split].
      * split; [discriminate |]. intros [_ Hall]. exfalso.
        apply Exists_exists in Hgroups as (e & He & Hin).
        apply (proj1 (Forall_forall _ _) Hall) in He.
        apply He. exact (proj1 (includes_true inheritedKeys (typeKey e)) Hin).
      * intros _. now split.
      * discriminate.
  - cbn [fst snd downloads alerts]. split; [| split].
    + split; [discriminate |]. intros [Hall _]. exfalso.
      assert (Hex : Exists (fun e => Entry.sourceName e = None) (DataService.entries ds))
        by now apply Hstats.
      apply Exists_exists in Hex as (e & He & Hn).
      apply (proj1 (Forall_forall _ _) Hall) in He. now apply He.
    + intros _. now split.
    + discriminate.
Qed.

Lemma getStatistics_total (Date_parse : string -> option Z) week now ds stats :
  DataService.getStatistics Date_parse week now ds = Some stats ->
  DataService.totalEntries stats = length (DataService.entries ds).
Proof.
  unfold DataService.getStatistics.
  destruct (mapM _ (DataService.entries ds)) as [names |];
    cbn [mbind option_bind]; [| discriminate].
  now intros [= <-].
Qed.

End Markdown.

(** X21: [exportAsMarkdown] returns true exactly when every entry has a
    source name and no entry has a source type that is the name of an
    inherited property. When it returns false it hands no file to the
    browser and shows one alert. When it returns true it shows no alert and
    hands over one file, [reading-journal-<day>.md] of type
    [text/markdown], whose text is the header with the statistics, then
    one section for each source type among the entries, the types in
    ascending order and each once, holding the entries of the type newest
    first, then the footer. *)
Theorem exportAsMarkdown_document :
  forall (Date_parse : string -> option Z) (sevenDaysBefore : Z -> Z)
         (longDate : Z -> string) (now : Z) (ds : DataService.t)
         (b : ExportService.browser),
    let out := ExportService.exportAsMarkdown Date_parse sevenDaysBefore longDate now ds b in
    let sorted := DataService.getAllEntries Date_parse "created" ds in
    (fst out = true <->
     Forall (fun e => Entry.sourceName e <> None /\
                      ~ In (ExportService.typeKey e) ExportService.inheritedKeys)
            (DataService.entries ds)) /\
    (fst out = false ->
     ExportService.downloads (snd out) = ExportService.downloads b /\
     ExportService.alerts (snd out)
     = (ExportService.alerts b
        ++ ["Failed to export data as Markdown. Please try again."])%list) /\
    (fst out = true ->
     ExportService.alerts (snd out) = ExportService.alerts b /\
     exists stats types,
       DataService.getStatistics Date_parse sevenDaysBefore now ds = Some stats /\
       Sorted (fun a b => String.leb a b = true) types /\
       NoDup types /\
       (forall type, In type types <->
                     exists e, In e (DataService.entries ds) /\
                               ExportService.typeKey e = type) /\
       ExportService.downloads (snd out)
       = (ExportService.downloads b
          ++ [ExportService.mkDownload
                (ExportService.generateMarkdownHeader longDate now stats +:+
                 text (map (sectionOf sorted) types) +:+
                 ExportService.generateMarkdownFooter)
                ("reading-journal-" +:+ ExportService.getDateString now +:+ ".md")
                "text/markdown"])%list).
Proof.
  intros Date_parse week longDate now ds b out sorted. subst out.
  unfold ExportService.exportAsMarkdown. fold sorted.
  destruct (exportAsMarkdownWith_document Date_parse week longDate sorted now ds b)
    as (Hiff & Hfail & Hok).
  pose proof (getAllEntries_permutation Date_parse "created" ds) as Hperm.
  fold sorted in Hperm.
  split; [| split].
  - rewrite Hiff. split.
    + intros [Hn Ht]. apply Forall_forall. intros e He. split.
      * now apply (proj1 (Forall_forall _ _) Hn).
      * rewrite <- Hperm in He. now apply (proj1 (Forall_forall _ _) Ht).
    + intros Hall. split; apply Forall_forall; intros e He.
      * now apply (proj1 (Forall_forall _ _) Hall).
      * rewrite Hperm in He. now apply (proj1 (Forall_forall _ _) Hall).
  - exact Hfail.
  - intros Ht. destruct (Hok Ht) as (Ha & stats & types & Hs & Hsort & Hnd & Hin & Hd).
    split; [exact Ha |]. exists stats, types.
    split; [exact Hs |]. split; [exact Hsort |]. split; [exact Hnd |].
    split; [| exact Hd].
    intros type. rewrite (Hin type).
    split; intros (e & He & Hty); exists e; (split; [| exact Hty]);
      apply list_elem_of_In; apply list_elem_of_In in He;
      [now rewrite <- Hperm | now rewrite Hperm].
Qed.

(** X22: [exportSingleEntry] returns true exactly when the collection
    holds an entry with the id and, unless the format is JSON, that entry
    has a source name. When it returns false it hands no file to the
    browser and shows one alert, [Entry not found.] when there is no such
    entry. When it returns true it shows no alert and hands over one file;
    in the Markdown format the file is the Markdown of the entry, of type
    [text/markdown], and its name is [entry-<stem>.md], where the stem
    holds nothing but the letters a to z, digits and dashes, is at most
    50 characters long and is empty exactly when the source name holds no
    letter and no digit. *)
Theorem exportSingleEntry_outcomes :
  forall (JSON_stringify_indented : value -> string) (Number_toString : Z -> string)
         (now entryId : Z) (format : option string) (ds : DataService.t)
         (b : ExportService.browser),
    let out :=
      ExportService.exportSingleEntry JSON_stringify_indented Number_toString
        now entryId format ds b in
    let found := DataService.getEntryById entryId ds in
    (fst out = true <->
     exists entry, found = Some entry /\
                   (format = Some "json" \/ Entry.sourceName entry <> None)) /\
    (fst out = false ->
     ExportService.downloads (snd out) = ExportService.downloads b /\
     exists message,
       ExportService.alerts (snd out) = (ExportService.alerts b ++ [message])%list /\
       (found = None -> message = "Entry not found.")) /\
    (fst out = true ->
     ExportService.alerts (snd out) = ExportService.alerts b /\
     exists file,
       ExportService.downloads (snd out) = (ExportService.downloads b ++ [file])%list /\
       (format <> Some "json" ->
        exists entry sourceName stem,
          found = Some entry /\
          Entry.sourceName entry = Some sourceName /\
          ExportService.content file = ExportService.entryToMarkdown entry /\
          ExportService.mimeType file = "text/markdown" /\
          ExportService.fileName file = "entry-" +:+ stem +:+ ".md" /\
          allChars fileNameChar stem = true /\
          (String.length stem <= 50)%nat /\
          (stem = "" <-> hasAlnum sourceName = false))).
Proof.
  intros JSON_stringify_indented Number_toString now entryId format ds b out found.
  subst out. unfold ExportService.exportSingleEntry. fold found.
  assert (Hformat : default "markdown" format = "json" <-> format = Some "json").
  { destruct format as [f |]; simpl.
    - split; [now intros -> | now intros [= ->]].
    - split; discriminate. }
  destruct found as [entry |]; cbn [fst snd ExportService.downloads ExportService.alerts].
  - destruct (String.eqb (default "markdown" format) "json") eqn:Hjson;
      cbn [fst snd ExportService.downloads ExportService.alerts].
    + apply String.eqb_eq in Hjson. apply (proj1 Hformat) in Hjson. split; [| split].
      * split; [| reflexivity]. intros _. exists entry. split; [reflexivity | now left].
      * discriminate.
      * intros _. split; [reflexivity |]. eexists. split; [reflexivity |].
        intros Hno. now destruct Hno.
    + assert (Hmd : format <> Some "json").
      { intros Hf. apply (proj2 Hformat) in Hf. apply String.eqb_neq in Hjson.
        now apply Hjson. }
      destruct (Entry.sourceName entry) as [sourceName |] eqn:Hname;
        cbn [fst snd ExportService.downloads ExportService.alerts].
      * split; [| split].
        -- split; [| reflexivity]. intros _. exists entry.
           split; [reflexivity |]. right. now rewrite Hname.
        -- discriminate.
        -- intros _. split; [reflexivity |]. eexists. split; [reflexivity |].
           intros _. exists entry, sourceName, (ExportService.sanitizeFileName sourceName).
           destruct (sanitizeFileName_props sourceName) as (Hc & Hl & _ & _ & He).
           split; [reflexivity |]. split; [exact Hname |].
           split; [reflexivity |]. split; [reflexivity |]. split; [reflexivity |].
           split; [exact Hc |]. split; [exact Hl | exact He].
      * split; [| split].
        -- split; [discriminate |]. intros (entry' & [= <-] & [Hj | Hn]).
           ++ now destruct Hmd.
           ++ now rewrite Hname in Hn.
        -- intros _. split; [reflexivity |]. eexists. split; [reflexivity |].
           discriminate.
        -- discriminate.
  - split; [| split].
    + split; [discriminate |]. intros (entry & Hf & _). discriminate.
    + intros _. split; [reflexivity |]. eexists. split; reflexivity.
    + discriminate.
Qed.

(** X23: [exportDateRange] exports the entries whose timestamp lies
    between the two dates, newest first. When there is none, and so
    whenever one of the two dates is invalid, it returns false, shows the
    alert [No entries found in the selected date range.] and hands over
    no file. Otherwise the JSON format succeeds with one file whose
    document holds these entries and their number. The Markdown format
    succeeds exactly when every entry of the whole collection, in the
    range or not, has a source name and no entry in the range has the name
    of an inherited property as its source type; its sections hold the
    entries in the range, while the statistics of its header are those of
    the whole collection. *)
Theorem exportDateRange_outcomes :
  forall (Date_parse : string -> option Z) (sevenDaysBefore : Z -> Z)
         (longDate : Z -> string) (JSON_stringify_indented : value -> string)
         (now : Z) (startDate endDate : option Z) (format : option string)
         (ds : DataService.t) (b : ExportService.browser),
    let listed :=
      List.filter (ExportService.inRange Date_parse startDate endDate)
                  (DataService.getAllEntries Date_parse "created" ds) in
    let out :=
      ExportService.exportDateRange Date_parse sevenDaysBefore longDate
        JSON_stringify_indented now startDate endDate format ds b in
    (startDate = None \/ endDate = None -> listed = []) /\
    (listed = [] ->
     fst out = false /\
     ExportService.downloads (snd out) = ExportService.downloads b /\
     ExportService.alerts (snd out)
     = (ExportService.alerts b ++ ["No entries found in the selected date range."])%list) /\
    (listed <> [] -> default "json" format = "json" ->
     fst out = true /\
     ExportService.alerts (snd out) = ExportService.alerts b /\
     ExportService.downloads (snd out)
     = (ExportService.downloads b
        ++ [ExportService.mkDownload
              (JSON_stringify_indented (ExportService.exportData now listed))
              ("reading-journal-" +:+ ExportService.getDateString now +:+ ".json")
              "application/json"])%list) /\
    (listed <> [] -> default "json" format <> "json" ->
     (fst out = true <->
      Forall (fun e => Entry.sourceName e <> None) (DataService.entries ds) /\
      Forall (fun e => ~ In (ExportService.typeKey e) ExportService.inheritedKeys)
             listed) /\
     (fst out = false ->
      ExportService.downloads (snd out) = ExportService.downloads b /\
      ExportService.alerts (snd out)
      = (ExportService.alerts b
         ++ ["Failed to export data as Markdown. Please try again."])%list) /\
     (fst out = true ->
      ExportService.alerts (snd out) = ExportService.alerts b /\
      exists stats types,
        DataService.getStatistics Date_parse sevenDaysBefore now ds = Some stats /\
        DataService.totalEntries stats = length (DataService.entries ds) /\
        Sorted (fun a b => String.leb a b = true) types /\
        NoDup types /\
        (forall type, In type types <->
                      exists e, In e listed /\ ExportService.typeKey e = type) /\
        ExportService.downloads (snd out)
        = (ExportService.downloads b
           ++ [ExportService.mkDownload
                 (ExportService.generateMarkdownHeader longDate now stats +:+
                  text (map (sectionOf listed) types) +:+
                  ExportService.generateMarkdownFooter)
                 ("reading-journal-" +:+ ExportService.getDateString now +:+ ".md")
                 "text/markdown"])%list)).
Proof.
  intros Date_parse week longDate JSON_stringify_indented now startDate endDate
         format ds b listed out.
  subst out. unfold ExportService.exportDateRange. fold listed.
  split; [| split; [| split]].
  - intros Hinvalid. subst listed.
    induction (DataService.getAllEntries Date_parse "created" ds) as [| e l IH];
      [reflexivity |].
    cbn [List.filter]. unfold ExportService.inRange at 1.
    destruct (Date_parse (Entry.timestamp e)); [| exact IH].
    destruct Hinvalid as [-> | ->]; [exact IH |].
    destruct startDate; exact IH.
  - intros ->. cbn. now repeat split.
  - intros Hsome Hjson.
    destruct listed as [| e l] eqn:Hl; [now destruct Hsome |].
    cbn [length Nat.eqb]. rewrite Hjson. cbn. now repeat split.
  - intros Hsome Hmd.
    destruct listed as [| e l] eqn:Hl; [now destruct Hsome |].
    cbn [length Nat.eqb].
    apply String.eqb_neq in Hmd. rewrite Hmd.
    destruct (exportAsMarkdownWith_document Date_parse week longDate (e :: l) now ds b)
      as (Hiff & Hfail & Hok).
    split; [exact Hiff |]. split; [exact Hfail |].
    intros Ht. destruct (Hok Ht) as (Ha & stats & types & Hs & Hsort & Hnd & Hin & Hd).
    split; [exact Ha |]. exists stats, types.
    split; [exact Hs |]. split; [exact (getStatistics_total _ _ _ _ _ Hs) |].
    split; [exact Hsort |]. split; [exact Hnd |]. split; [exact Hin | exact Hd].
Qed.

(** X24: [fuzzyMatch] tells whether the term occurs in the text when both
    are put in lower case, so the case of neither matters; every text
    matches the empty term and itself, and a text that matches a term
    matches every term that this term matches. *)
Theorem fuzzyMatch_ignores_case :
  forall text term : string,
    (SearchUtils.fuzzyMatch text term = true <->
     exists before after,
       JsString.toLowerCase text = before +:+ JsString.toLowerCase term +:+ after) /\
    SearchUtils.fuzzyMatch (JsString.toLowerCase text) term
    = SearchUtils.fuzzyMatch text term /\
    SearchUtils.fuzzyMatch text (JsString.toLowerCase term)
    = SearchUtils.fuzzyMatch text term /\
    SearchUtils.fuzzyMatch text "" = true /\
    SearchUtils.fuzzyMatch text text = true /\
    (forall middle,
        SearchUtils.fuzzyMatch text middle = true ->
        SearchUtils.fuzzyMatch middle term = true ->
        SearchUtils.fuzzyMatch text term = true).
Proof.
  intros text term. unfold SearchUtils.fuzzyMatch.
  split; [apply strIncludes_spec |].
  split; [now rewrite toLowerCase_idem |].
  split; [now rewrite toLowerCase_idem |].
  split; [apply strIncludes_empty |].
  split.
  - apply strIncludes_spec. exists "", "". cbn. now rewrite append_empty.
  - intros middle H1 H2.
    apply strIncludes_spec in H1 as (b1 & a1 & E1).
    apply strIncludes_spec in H2 as (b2 & a2 & E2).
    apply strIncludes_spec. exists (b1 +:+ b2), (a2 +:+ a1).
    rewrite E1, E2. now rewrite !append_assoc.
Qed.

(** ** The settings *)

Section Settings.

Variable JSON_parse : string -> option value.
Variable JSON_stringify : value -> string.

Lemma getSettings_reads (ls : LocalStorage.t) :
  LocalStorage.usable ls = true ->
  fst (StorageService.getSettings JSON_parse ls)
  = match LocalStorage.items ls !! StorageService.SETTINGS_KEY with
    | Some s => if JsString.truthy s then default (VObj []) (JSON_parse s) else VObj []
    | None => VObj []
    end.
Proof.
  intros Hl. unfold StorageService.getSettings.
  rewrite (isStorageAvailable_usable ls Hl). simpl negb. cbv iota.
  rewrite getItem_probed by discriminate. simpl.
  destruct (LocalStorage.items ls !! StorageService.SETTINGS_KEY) as [s |];
    [| reflexivity].
  now destruct (JsString.truthy s).
Qed.

(** The settings slot after [saveEntries]: the settings as they read
    before, with [lastSaved] set, when a property can be set on them. *)
Lemma saveEntries_settings now (entries : value) (ls : LocalStorage.t) :
  LocalStorage.usable ls = true ->
  LocalStorage.items
    (snd (StorageService.saveEntries JSON_parse JSON_stringify now entries ls))
  !! StorageService.SETTINGS_KEY
  = match StorageService.setProp "lastSaved" (VStr (JsDate.toISOString now))
            (fst (StorageService.getSettings JSON_parse ls)) with
    | Some settings => Some (JSON_stringify settings)
    | None => LocalStorage.items ls !! StorageService.SETTINGS_KEY
    end.
Proof.
  intros Hu. rewrite (getSettings_reads ls Hu).
  unfold StorageService.saveEntries.
  rewrite (isStorageAvailable_usable ls Hu). simpl negb. cbv iota.
  destruct (createBackup_usable JSON_stringify now (probed ls) (probed_usable ls))
    as (lb & Hb & Hub & _ & Hframe).
  rewrite Hb. unfold LocalStorage.setItem at 1. rewrite Hub.
  set (lp := LocalStorage.mk true
               (<[StorageService.STORAGE_KEY := JSON_stringify entries]>
                  (LocalStorage.items lb))).
  assert (Hlp : LocalStorage.items lp !! StorageService.SETTINGS_KEY
                = LocalStorage.items ls !! StorageService.SETTINGS_KEY).
  { subst lp. simpl. rewrite lookup_insert_ne by discriminate.
    rewrite Hframe by discriminate. unfold probed. simpl.
    now rewrite lookup_delete_ne by discriminate. }
  simpl snd. unfold StorageService.updateLastSaved.
  rewrite (isStorageAvailable_usable lp eq_refl).
  pose proof (getSettings_usable JSON_parse (probed lp) (probed_usable lp)) as Hs2.
  pose proof (getSettings_reads (probed lp) (probed_usable lp)) as Hs1.
  destruct (StorageService.getSettings JSON_parse (probed lp)) as [settings0 ls0].
  cbn [fst snd] in Hs1, Hs2. subst ls0.
  assert (Hk : LocalStorage.items (probed lp) !! StorageService.SETTINGS_KEY
               = LocalStorage.items ls !! StorageService.SETTINGS_KEY).
  { unfold probed. cbn [LocalStorage.items].
    rewrite lookup_delete_ne by discriminate. exact Hlp. }
  rewrite Hk in Hs1. rewrite <- Hs1.
  destruct (StorageService.setProp "lastSaved" _ settings0) as [settings' |];
    cbn [mbind option_bind default].
  - rewrite probed_probed. unfold LocalStorage.setItem. rewrite probed_usable.
    simpl. now rewrite lookup_insert_eq.
  - rewrite probed_probed. exact Hk.
Qed.

Lemma assoc_setAssoc_other (k k' : string) (v : value) (props : list (string * value)) :
  k' <> k -> JsValue.assoc k' (StorageService.setAssoc k v props) = JsValue.assoc k' props.
Proof.
  intros Hne. induction props as [| [k0 v0] props IH]; simpl.
  - apply String.eqb_neq in Hne. now rewrite Hne.
  - destruct (String.eqb k k0) eqn:Hk; simpl.
    + apply String.eqb_eq in Hk. subst k0.
      apply String.eqb_neq in Hne. now rewrite Hne.
    + now rewrite IH.
Qed.

End Settings.

(** X25: on a store that can be used [saveSettings] returns true and
    writes the printed settings to the settings slot, touching neither the
    entries nor the backup; [getSettings] then returns what the text parses
    to, and the empty object when it does not parse. A [saveEntries] that
    follows rewrites settings that are an object with [lastSaved] set to
    the time of the save and every other setting as it was. On a store
    that cannot be used [saveSettings] returns false and changes nothing,
    and [getSettings] returns the empty object. *)
Theorem saveSettings_then_getSettings :
  forall (JSON_parse : string -> option value) (JSON_stringify : value -> string)
         (now : Z) (settings entries : value) (ls : LocalStorage.t),
    let out := StorageService.saveSettings JSON_stringify settings ls in
    (LocalStorage.usable ls = false ->
     out = (false, ls) /\
     fst (StorageService.getSettings JSON_parse ls) = VObj []) /\
    (LocalStorage.usable ls = true ->
     fst out = true /\
     LocalStorage.items (snd out) !! StorageService.SETTINGS_KEY
     = Some (JSON_stringify settings) /\
     (forall k, k <> StorageService.SETTINGS_KEY -> k <> "__storage_test__" ->
                LocalStorage.items (snd out) !! k = LocalStorage.items ls !! k) /\
     (JSON_stringify settings <> "" ->
      fst (StorageService.getSettings JSON_parse (snd out))
      = default (VObj []) (JSON_parse (JSON_stringify settings))) /\
     (forall props,
         JSON_stringify settings <> "" ->
         JSON_parse (JSON_stringify settings) = Some (VObj props) ->
         let stamped :=
           StorageService.setAssoc "lastSaved" (VStr (JsDate.toISOString now)) props in
         LocalStorage.items
           (snd (StorageService.saveEntries JSON_parse JSON_stringify now entries
                   (snd out)))
         !! StorageService.SETTINGS_KEY
         = Some (JSON_stringify (VObj stamped)) /\
         JsValue.assoc "lastSaved" stamped = Some (VStr (JsDate.toISOString now)) /\
         forall k, k <> "lastSaved" -> JsValue.assoc k stamped = JsValue.assoc k props)).
Proof.
  intros JSON_parse JSON_stringify now settings entries ls out. subst out.
  unfold StorageService.saveSettings. split.
  - intros Hu. rewrite (isStorageAvailable_unusable ls Hu). split; [reflexivity |].
    unfold StorageService.getSettings.
    now rewrite (isStorageAvailable_unusable ls Hu).
  - intros Hu. rewrite (isStorageAvailable_usable ls Hu). simpl negb. cbv iota.
    cbn [LocalStorage.setItem probed LocalStorage.usable LocalStorage.items fst snd].
    set (saved := LocalStorage.mk true
                    (<[StorageService.SETTINGS_KEY := JSON_stringify settings]>
                       (delete "__storage_test__" (LocalStorage.items ls)))).
    assert (Hslot : LocalStorage.items saved !! StorageService.SETTINGS_KEY
                    = Some (JSON_stringify settings)).
    { subst saved. cbn [LocalStorage.items]. now rewrite lookup_insert_eq. }
    assert (Hread : JSON_stringify settings <> "" ->
                    fst (StorageService.getSettings JSON_parse saved)
                    = default (VObj []) (JSON_parse (JSON_stringify settings))).
    { intros Hne. rewrite (getSettings_reads JSON_parse saved eq_refl), Hslot.
      apply truthy_true in Hne. now rewrite Hne. }
    split; [reflexivity |]. split; [exact Hslot |]. split; [| split].
    + intros k Hk Ht. subst saved. cbn [LocalStorage.items].
      rewrite lookup_insert_ne by congruence. now rewrite lookup_delete_ne by congruence.
    + exact Hread.
    + intros props Hne Hp. split; [| split].
      * rewrite (saveEntries_settings JSON_parse JSON_stringify now entries saved eq_refl).
        rewrite (Hread Hne), Hp. reflexivity.
      * apply assoc_setAssoc.
      * intros k Hk. now apply assoc_setAssoc_other.
Qed.

(** ** Updating an entry of the collection *)

Lemma find_insert_other (id id' : Z) (l : list Entry.t) (i : nat) (entry entry' : Entry.t) :
  id' <> id ->
  l !! i = Some entry ->
  Entry.id entry = id ->
  Entry.id entry' = id ->
  List.find (fun e => Entry.id e =? id') (<[i := entry']> l)
  = List.find (fun e => Entry.id e =? id') l.
Proof.
  intros Hne. revert i. induction l as [| a l IH]; intros i Hl Hid Hid'; [discriminate |].
  destruct i as [| i]; simpl in *.
  - injection Hl as ->.
    assert (H1 : (Entry.id entry' =? id') = false) by (apply Z.eqb_neq; congruence).
    assert (H2 : (Entry.id entry =? id') = false) by (apply Z.eqb_neq; congruence).
    now rewrite H1, H2.
  - destruct (Entry.id a =? id'); [reflexivity |]. now apply IH.
Qed.

(** X26: [updateEntry] with an id the service has no entry for returns
    [Entry not found] and changes nothing. When the first entry with the
    id is valid after the update, the updated entry takes its place in the
    collection, with the id and the timestamp it had, the collection is
    saved, each subscriber is called once with [entry_updated] and the
    updated entry, and the call returns it; the id then finds the updated
    entry, and every other id finds what it found before. *)
Theorem updateEntry_replaces_in_place :
  forall (toLocaleDateString : string -> string)
         (JSON_parse : string -> option value) (JSON_stringify : value -> string)
         (now id : Z) (updates : Updates.t) (ds : DataService.t),
    let out :=
      DataService.updateEntry toLocaleDateString JSON_parse JSON_stringify
        now id updates ds in
    (DataService.getEntryById id ds = None ->
     out = (DataService.Failure "Entry not found", ds)) /\
    (forall entry : Entry.t,
        DataService.getEntryById id ds = Some entry ->
        Entry.isValid
          (Entry.validate (Entry.update toLocaleDateString now updates entry)) = true ->
        fst out = DataService.Success (Entry.update toLocaleDateString now updates entry) /\
        Entry.id (Entry.update toLocaleDateString now updates entry) = id /\
        Entry.timestamp (Entry.update toLocaleDateString now updates entry)
        = Entry.timestamp entry /\
        (exists i,
            DataService.entries ds !! i = Some entry /\
            DataService.entries (snd out)
            = <[i := Entry.update toLocaleDateString now updates entry]>
                (DataService.entries ds)) /\
        length (DataService.entries (snd out)) = length (DataService.entries ds) /\
        DataService.getEntryById id (snd out)
        = Some (Entry.update toLocaleDateString now updates entry) /\
        (forall id' : Z,
            id' <> id ->
            DataService.getEntryById id' (snd out) = DataService.getEntryById id' ds) /\
        DataService.delivered (snd out)
        = (DataService.delivered ds
           ++ map (fun callback =>
                     (callback,
                      DataService.mkEvent "entry_updated"
                        (Some (Entry.update toLocaleDateString now updates entry))))
                  (DataService.observers ds))%list /\
        DataService.storage (snd out)
        = snd (StorageService.saveEntries JSON_parse JSON_stringify now
                 (VArr (map (fun entry => Data.toValue (Entry.toObject entry))
                            (DataService.entries (snd out))))
                 (DataService.storage ds))).
Proof.
  intros toLocaleDateString parse stringify now id updates ds out. subst out.
  split.
  - unfold DataService.updateEntry, DataService.getEntryById.
    destruct (DataService.findIndex id (DataService.entries ds)) as [i |] eqn:Hi;
      simpl; [| reflexivity].
    destruct (findIndex_lookup _ _ _ Hi) as (entry0 & He0 & Hid).
    rewrite He0. discriminate.
  - intros entry Hfound Hvalid.
    unfold DataService.getEntryById in Hfound.
    destruct (DataService.findIndex id (DataService.entries ds)) as [i |] eqn:Hi;
      simpl in Hfound; [| discriminate].
    destruct (findIndex_lookup _ _ _ Hi) as (entry0 & He0 & Hid).
    rewrite He0 in Hfound. injection Hfound as <-.
    rewrite (updateEntry_valid toLocaleDateString parse stringify now id updates ds
               i entry0 Hi He0 Hvalid).
    set (updated := Entry.update toLocaleDateString now updates entry0).
    assert (Hupdated : Entry.id updated = id) by exact Hid.
    cbn [fst snd].
    split; [reflexivity |]. split; [exact Hupdated |]. split; [reflexivity |].
    split; [exists i; split; [exact He0 | reflexivity] |].
    split; [cbn; now rewrite length_insert |].
    split; [| split; [| split; [reflexivity | reflexivity]]].
    + exact (getEntryById_updated toLocaleDateString now id updates ds i entry0 Hi He0).
    + intros id' Hne.
      pose proof (getEntryById_find id'
                    (DataService.set_entries
                       (<[i := updated]> (DataService.entries ds)) ds)) as H1.
      pose proof (getEntryById_find id' ds) as H2.
      unfold DataService.getEntryById in *. cbn in H1 |- *.
      rewrite H1, H2. now apply (find_insert_other id id' _ i entry0 updated).
Qed.
